(** * Plataforma de Histórias: a shallow embedding of [server.js]

    The server is one Express application over a SQLite file (through
    better-sqlite3), with bcrypt, jsonwebtoken and a Socket.IO chat.  Its
    handlers are embedded as functions over an explicit database value; the
    reads a handler makes of the outside world (the clock, the random part of
    [uid], the bcrypt salt) are an explicit argument, and the libraries it
    calls are the fields of one interface. *)

From Stdlib Require Import List String Ascii ZArith QArith Bool Lia.
From Stdlib Require Import Permutation Sorted.
Import ListNotations.

Set Warnings "-register-all".
Local Open Scope string_scope.
Local Open Scope Z_scope.

(** ** JavaScript values *)

(** What [JSON.parse] yields for a request body or an event payload, plus
    [undefined] for a field that is not there.  Numbers are rationals: every
    finite double is one, and the handlers only test numbers for zero and pass
    them on. *)
Inductive jsval : Type :=
| VUndef
| VNull
| VBool (b : bool)
| VNum (q : Q)
| VStr (s : string)
| VArr (items : list jsval)
| VObj (fields : list (string * jsval)).

(** [!!v] *)
Definition truthy (v : jsval) : bool :=
  match v with
  | VUndef | VNull => false
  | VBool b => b
  | VNum q => negb (Qnum q =? 0)
  | VStr s => negb (String.eqb s "")
  | VArr _ | VObj _ => true
  end.

(** [a || b] *)
Definition js_or (a b : jsval) : jsval := if truthy a then a else b.

Fixpoint assoc (k : string) (fs : list (string * jsval)) : jsval :=
  match fs with
  | [] => VUndef
  | (k', v) :: fs' => if String.eqb k k' then v else assoc k fs'
  end.

(** [v.k] for the field names the handlers read, none of which is a built-in
    property of a string, a number or an array. *)
Definition prop (k : string) (v : jsval) : jsval :=
  match v with
  | VObj fs => assoc k fs
  | _ => VUndef
  end.

(** [a === b] on the values a row or a token can hold; two arrays or objects
    read from different places are never the same reference. *)
Definition strict_eq (a b : jsval) : bool :=
  match a, b with
  | VUndef, VUndef => true
  | VNull, VNull => true
  | VBool x, VBool y => Bool.eqb x y
  | VNum x, VNum y => Qeq_bool x y
  | VStr x, VStr y => String.eqb x y
  | _, _ => false
  end.

Definition num_of_Z (n : Z) : jsval := VNum (inject_Z n).

(** [String.prototype.replace] with a string pattern: the first occurrence
    only. *)
Fixpoint drop (n : nat) (s : string) : string :=
  match n, s with
  | O, _ => s
  | S n', String _ s' => drop n' s'
  | S _, EmptyString => EmptyString
  end.

Fixpoint replace_first (pat rep s : string) : string :=
  if prefix pat s then rep ++ drop (String.length pat) s
  else match s with
       | EmptyString => EmptyString
       | String c s' => String c (replace_first pat rep s')
       end.

(** ** Exceptions and results *)

Inductive exn : Type :=
| SqliteUnique          (* SqliteError: UNIQUE constraint failed: ... *)
| BindTypeError         (* better-sqlite3 cannot bind a boolean, nor names in two objects *)
| BindShape             (* a value that is an array or object; too few or too many values *)
| BcryptTypeError       (* bcrypt: data and hash must be strings *)
| JsonWebTokenError     (* jwt.verify: malformed, bad signature or expired *)
| DestructureTypeError. (* destructuring [undefined] or [null] *)

(** [e.message.includes('UNIQUE')] *)
Definition message_includes_UNIQUE (e : exn) : bool :=
  match e with
  | SqliteUnique => true
  | _ => false
  end.

Inductive result (A : Type) : Type :=
| Ok (a : A)
| Throw (e : exn).
Arguments Ok {A} a.
Arguments Throw {A} e.

Definition rbind {A B : Type} (r : result A) (k : A -> result B) : result B :=
  match r with
  | Ok a => k a
  | Throw e => Throw e
  end.

Declare Scope result_scope.
Delimit Scope result_scope with result.
Notation "'do' x <- r ; k" := (rbind r (fun x => k))
  (at level 10, x name, r at level 100, k at level 200) : result_scope.
Local Open Scope result_scope.

(** ** SQLite values and the five tables *)

(** A cell as JavaScript reads it back: INTEGER and REAL both come back as a
    number, so they are one storage class here. *)
Inductive sqlval : Type :=
| SqlNull
| SqlNum (q : Q)
| SqlText (s : string).

Definition to_js (c : sqlval) : jsval :=
  match c with
  | SqlNull => VNull
  | SqlNum q => VNum q
  | SqlText s => VStr s
  end.

(** How better-sqlite3 binds one value to one parameter: a number, a string,
    or NULL for [null] and [undefined]; a boolean is refused, and so is an
    array or an object standing where one value does. *)
Definition bind (v : jsval) : result sqlval :=
  match v with
  | VUndef | VNull => Ok SqlNull
  | VNum q => Ok (SqlNum q)
  | VStr s => Ok (SqlText s)
  | VBool _ => Throw BindTypeError
  | VArr _ | VObj _ => Throw BindShape
  end.

(** [col = ?] on cells: NULL equals nothing. *)
Definition sql_eqb (a b : sqlval) : bool :=
  match a, b with
  | SqlText x, SqlText y => String.eqb x y
  | SqlNum x, SqlNum y => Qeq_bool x y
  | _, _ => false
  end.

Record user_row : Type := mk_user
  { u_id : sqlval; u_email : sqlval; u_password : sqlval; u_name : sqlval;
    u_username : sqlval; u_role : sqlval; u_createdAt : sqlval }.

Record story_row : Type := mk_story
  { s_id : sqlval; s_authorId : sqlval; s_title : sqlval; s_excerpt : sqlval;
    s_body : sqlval; s_tags : sqlval; s_type : sqlval; s_price : sqlval;
    s_likes : sqlval; s_createdAt : sqlval }.

Record favorite_row : Type := mk_favorite
  { f_id : sqlval; f_userId : sqlval; f_storyId : sqlval;
    f_createdAt : sqlval }.

Record message_row : Type := mk_message
  { m_id : sqlval; m_conversationId : sqlval; m_senderId : sqlval;
    m_content : sqlval; m_createdAt : sqlval }.

Record announcement_row : Type := mk_announcement
  { a_id : sqlval; a_authorId : sqlval; a_message : sqlval;
    a_pinned : sqlval; a_createdAt : sqlval }.

(** Rows in rowid order, which is insertion order. *)
Record db : Type := mk_db
  { users : list user_row;
    stories : list story_row;
    favorites : list favorite_row;
    messages : list message_row;
    announcements : list announcement_row }.

Definition empty_db : db := mk_db [] [] [] [] [].

Definition set_users (s : db) (t : list user_row) : db :=
  mk_db t (stories s) (favorites s) (messages s) (announcements s).
Definition set_stories (s : db) (t : list story_row) : db :=
  mk_db (users s) t (favorites s) (messages s) (announcements s).
Definition set_favorites (s : db) (t : list favorite_row) : db :=
  mk_db (users s) (stories s) t (messages s) (announcements s).
Definition set_messages (s : db) (t : list message_row) : db :=
  mk_db (users s) (stories s) (favorites s) t (announcements s).
Definition set_announcements (s : db) (t : list announcement_row) : db :=
  mk_db (users s) (stories s) (favorites s) (messages s) t.

(** A PRIMARY KEY or UNIQUE column refuses a value some row already has. *)
Definition taken {R : Type} (col : R -> sqlval) (v : sqlval) (t : list R) : bool :=
  existsb (fun r => sql_eqb (col r) v) t.

(** ** The outside world *)

(** What one run of a handler reads: [Date.now()], the string [uid()] gives
    (the clock in base 36 followed by seven random characters, used only as
    an opaque key), and the salt bcrypt draws. *)
Record draw : Type := mk_draw
  { d_clock : Z; d_uid : string; d_salt : string }.

Definition uid (d : draw) : string := d_uid d.

(** [Math.floor(Date.now()/1000)] *)
Definition now (d : draw) : jsval := num_of_Z (d_clock d / 1000).

(** The libraries below the handlers.  [jwt_sign] and [jwt_verify] have the
    secret built in; [jwt_verify] throws on a token that is malformed, not
    signed with the secret or past its expiry at the given clock.
    [num_text] is the text SQLite stores for a number put in a TEXT column,
    [text_num] the number it reads from numeric text put in a REAL or
    INTEGER column. *)
Class Libraries : Type :=
  { bcrypt_hash : string -> string -> string;
    bcrypt_compare : string -> string -> bool;
    jwt_sign : Z -> jsval -> string;
    jwt_verify : Z -> string -> result jsval;
    JSON_stringify : jsval -> string;
    num_text : Q -> string;
    text_num : string -> option Q }.

(** ** Replies *)

(** What the client gets: [res.status(n).json(b)], [res.send(text)], or
    nothing the handler wrote because an exception left it ([Uncaught]:
    Express answers a synchronous throw with its own 500 page, and a
    rejected [async] handler leaves the request unanswered). *)
Inductive reply : Type :=
| Json (status : Z) (body : jsval)
| Send (text : string)
| Uncaught (e : exn).

Definition err (msg : string) : jsval := VObj [("error", VStr msg)].

(** not an array and not an object *)
Definition scalar (v : jsval) : bool :=
  match v with
  | VArr _ | VObj _ => false
  | _ => true
  end.

(** the values of an array argument, each bound as one value *)
Fixpoint bind_each (items : list jsval) : result (list sqlval) :=
  match items with
  | [] => Ok []
  | v :: rest =>
      do c <- bind v;
      do cs <- bind_each rest;
      Ok (c :: cs)
  end.

(** The arguments of [run] and [get], left to right.  An array argument gives
    its elements as the values of as many parameters, so an empty one gives
    none and one of two moves every later value one parameter on.  A plain
    object is where named parameters are looked up: the statements of this
    server have none, so it gives no value, and a second one is refused
    ([named] tells that one was seen).  Anything else is one value. *)
Fixpoint bind_args (named : bool) (args : list jsval) : result (list sqlval) :=
  match args with
  | [] => Ok []
  | arg :: rest =>
      match arg with
      | VArr items =>
          do cs <- bind_each items;
          do more <- bind_args named rest;
          Ok (cs ++ more)%list
      | VObj _ =>
          if named then Throw BindTypeError else bind_args true rest
      | _ =>
          do c <- bind arg;
          do more <- bind_args named rest;
          Ok (c :: more)
      end
  end.

(** The values a statement is run with.  It takes them only when they are as
    many as its parameters: each caller matches the list against that number
    and throws otherwise.  Which of the binder's errors a call that has
    several ends with is not followed. *)
Definition bind_all (args : list jsval) : result (list sqlval) :=
  bind_args false args.

Section Server.

Context {L : Libraries}.

(** *** Column affinity

    Every column of the schema is TEXT, REAL or INTEGER; SQLite converts a
    value to the column's affinity when it stores it, and converts the
    parameter of [col = ?] to TEXT when [col] is a TEXT column. *)
Definition text_affinity (c : sqlval) : sqlval :=
  match c with
  | SqlNum q => SqlText (num_text q)
  | _ => c
  end.

Definition numeric_affinity (c : sqlval) : sqlval :=
  match c with
  | SqlText s => match text_num s with
                 | Some q => SqlNum q
                 | None => c
                 end
  | _ => c
  end.

(** *** Auth helpers *)

Definition hashPassword (d : draw) (p : jsval) : result string :=
  match p with
  | VStr s => Ok (bcrypt_hash (d_salt d) s)
  | _ => Throw BcryptTypeError
  end.

Definition comparePassword (p h : jsval) : result bool :=
  match p, h with
  | VStr a, VStr b => Ok (bcrypt_compare a b)
  | _, _ => Throw BcryptTypeError
  end.

Definition signToken (d : draw) (user : jsval) : string :=
  jwt_sign (d_clock d) (VObj [("sub", prop "id" user); ("role", prop "role" user)]).

Definition verifyToken (d : draw) (token : string) : jsval :=
  match jwt_verify (d_clock d) token with
  | Ok data => data
  | Throw _ => VNull
  end.

(** [SELECT id,email,name,username,role FROM users WHERE id = ?] as the
    object better-sqlite3 returns for a row. *)
Definition public_user (r : user_row) : jsval :=
  VObj [("id", to_js (u_id r)); ("email", to_js (u_email r));
        ("name", to_js (u_name r)); ("username", to_js (u_username r));
        ("role", to_js (u_role r))].

Definition select_user_by_id (p : sqlval) (s : db) : option user_row :=
  find (fun r => sql_eqb (u_id r) (text_affinity p)) (users s).

Definition select_user_by_email (p : sqlval) (s : db) : option user_row :=
  find (fun r => sql_eqb (u_email r) (text_affinity p)) (users s).

(** [inl]: the middleware answered; [inr user]: it set [req.user] and called
    [next()]. *)
Definition authMiddleware (d : draw) (authorization : option string) (s : db)
  : reply + jsval :=
  match authorization with
  | None => inl (Json 401 (err "no token"))
  | Some auth =>
      if String.eqb auth "" then inl (Json 401 (err "no token"))
      else
        let token := replace_first "Bearer " "" auth in
        let data := verifyToken d token in
        if negb (truthy data) then inl (Json 401 (err "invalid token"))
        else
          match bind_all [prop "sub" data] with
          | Throw e => inl (Uncaught e)
          | Ok [p] =>
              match select_user_by_id p s with
              | None => inl (Json 401 (err "user not found"))
              | Some r => inr (public_user r)
              end
          | Ok _ => inl (Uncaught BindShape)
          end
  end.

Definition with_auth (d : draw) (authorization : option string) (s : db)
  (handler : jsval -> reply * db) : reply * db :=
  match authMiddleware d authorization s with
  | inl r => (r, s)
  | inr user => handler user
  end.

(** *** users *)

(** The row an INSERT into [users] makes; [role] is [None] when the
    statement does not name the column, and the schema's DEFAULT 'user'
    fills it. *)
Definition user_row_of (id email password name username : sqlval)
  (role : option sqlval) (createdAt : sqlval) : user_row :=
  mk_user (text_affinity id) (text_affinity email) (text_affinity password)
          (text_affinity name) (text_affinity username)
          (text_affinity (match role with
                          | Some v => v
                          | None => SqlText "user"
                          end))
          (numeric_affinity createdAt).

Definition insert_user (r : user_row) (s : db) : result db :=
  if taken u_id (u_id r) (users s)
     || taken u_email (u_email r) (users s)
     || taken u_username (u_username r) (users s)
  then Throw SqliteUnique
  else Ok (set_users s (users s ++ [r])).

(** [app.post('/api/auth/register')] *)
Definition post_api_auth_register (d : draw) (body : jsval) (s : db) : reply * db :=
  let body := js_or body (VObj []) in
  let email := prop "email" body in
  let password := prop "password" body in
  let name := prop "name" body in
  let username := prop "username" body in
  if negb (truthy email) || negb (truthy password)
  then (Json 400 (err "missing email or password"), s)
  else
    let attempt : result (jsval * db) :=
      do hash <- hashPassword d password;
      let id := uid d in
      let createdAt := now d in
      do cells <- bind_all [VStr id; email; VStr hash; js_or name VNull;
                            js_or username VNull; createdAt];
      do s' <- match cells with
               | [c1; c2; c3; c4; c5; c6] =>
                   insert_user (user_row_of c1 c2 c3 c4 c5 None c6) s
               | _ => Throw BindShape
               end;
      let user := VObj [("id", VStr id); ("email", email); ("name", name);
                        ("username", username); ("role", VStr "user")] in
      let token := signToken d user in
      Ok (VObj [("token", VStr token); ("user", user)], s') in
    match attempt with
    | Ok (b, s') => (Json 200 b, s')
    | Throw e =>
        if message_includes_UNIQUE e
        then (Json 400 (err "email or username exists"), s)
        else (Json 500 (err "server error"), s)
    end.

(** [app.post('/api/auth/login')] *)
Definition post_api_auth_login (d : draw) (body : jsval) (s : db) : reply * db :=
  let body := js_or body (VObj []) in
  let email := prop "email" body in
  let password := prop "password" body in
  if negb (truthy email) || negb (truthy password)
  then (Json 400 (err "missing"), s)
  else
    match bind_all [email] with
    | Throw e => (Uncaught e, s)
    | Ok [p] =>
        match select_user_by_email p s with
        | None => (Json 401 (err "invalid"), s)
        | Some row =>
            match comparePassword password (to_js (u_password row)) with
            | Throw e => (Uncaught e, s)
            | Ok ok =>
                if negb ok then (Json 401 (err "invalid"), s)
                else
                  let user := VObj [("id", to_js (u_id row));
                                    ("email", to_js (u_email row));
                                    ("name", to_js (u_name row));
                                    ("username", to_js (u_username row));
                                    ("role", to_js (u_role row))] in
                  let token := signToken d user in
                  (Json 200 (VObj [("token", VStr token); ("user", user)]), s)
            end
        end
    | Ok _ => (Uncaught BindShape, s)
    end.

(** [app.get('/setup-admin')] *)
Definition get_setup_admin (d : draw) (s : db) : reply * db :=
  match find (fun r => sql_eqb (u_role r) (SqlText "admin")) (users s) with
  | Some _ =>
      (Send "admin exists. delete data.db to recreate or remove this route", s)
  | None =>
      let email := "admin@local" in
      let pwd := "admin123" in
      let attempt : result db :=
        do hash <- hashPassword d (VStr pwd);
        let id := uid d in
        do cells <- bind_all [VStr id; VStr email; VStr hash; VStr "Admin";
                              VStr "admin"; VStr "admin"; now d];
        match cells with
        | [c1; c2; c3; c4; c5; c6; c7] =>
            insert_user (user_row_of c1 c2 c3 c4 c5 (Some c6) c7) s
        | _ => Throw BindShape
        end in
      match attempt with
      | Ok s' => (Send ("admin created: " ++ email ++ " / " ++ pwd), s')
      | Throw e => (Uncaught e, s)
      end
  end.

(** *** stories *)

(** [SELECT * FROM stories WHERE id = ?] *)
Definition select_story (p : sqlval) (s : db) : option story_row :=
  find (fun r => sql_eqb (s_id r) (text_affinity p)) (stories s).

Definition story_obj (r : story_row) : jsval :=
  VObj [("id", to_js (s_id r)); ("authorId", to_js (s_authorId r));
        ("title", to_js (s_title r)); ("excerpt", to_js (s_excerpt r));
        ("body", to_js (s_body r)); ("tags", to_js (s_tags r));
        ("type", to_js (s_type r)); ("price", to_js (s_price r));
        ("likes", to_js (s_likes r)); ("createdAt", to_js (s_createdAt r))].

(** The row of [INSERT INTO stories (id,authorId,title,excerpt,body,tags,
    type,price,createdAt)]; [likes] takes its DEFAULT 0. *)
Definition story_row_of (id authorId title excerpt body tags type price
  createdAt : sqlval) : story_row :=
  mk_story (text_affinity id) (text_affinity authorId) (text_affinity title)
           (text_affinity excerpt) (text_affinity body) (text_affinity tags)
           (text_affinity type) (numeric_affinity price)
           (SqlNum (inject_Z 0)) (numeric_affinity createdAt).

Definition insert_story (r : story_row) (s : db) : result db :=
  if taken s_id (s_id r) (stories s) then Throw SqliteUnique
  else Ok (set_stories s (stories s ++ [r])).

(** [app.post('/api/stories')], after [authMiddleware].  [req.user] is a row
    better-sqlite3 gave, so [req.user.id] is one cell of it, bound as one
    value; the fields of the body are whatever the client sent. *)
Definition post_api_stories (d : draw) (user body : jsval) (s : db) : reply * db :=
  let body := js_or body (VObj []) in
  let title := prop "title" body in
  let excerpt := prop "excerpt" body in
  let body_ := prop "body" body in
  let tags := prop "tags" body in
  let type := prop "type" body in
  let price := prop "price" body in
  if negb (truthy title) || negb (truthy body_)
  then (Json 400 (err "missing title/body"), s)
  else
    let id := uid d in
    let createdAt := now d in
    let run : result db :=
      do author <- bind (prop "id" user);
      do cells <- bind_all [VStr id; to_js author; title;
                            js_or excerpt (VStr ""); body_;
                            VStr (JSON_stringify (js_or tags (VArr [])));
                            js_or type (VStr "leia"); js_or price VNull;
                            createdAt];
      match cells with
      | [c1; c2; c3; c4; c5; c6; c7; c8; c9] =>
          insert_story (story_row_of c1 c2 c3 c4 c5 c6 c7 c8 c9) s
      | _ => Throw BindShape
      end in
    match run with
    | Throw e => (Uncaught e, s)
    | Ok s' =>
        match select_story (SqlText id) s' with
        | Some r => (Json 200 (story_obj r), s')
        | None => (Json 200 VUndef, s')
        end
    end.

(** [app.delete('/api/stories/:id')], after [authMiddleware]; [id] is the
    path parameter, always a string. *)
Definition delete_api_stories_id (user : jsval) (id : string) (s : db) : reply * db :=
  match select_story (SqlText id) s with
  | None => (Json 404 (err "not found"), s)
  | Some r =>
      if negb (strict_eq (to_js (s_authorId r)) (prop "id" user))
         && negb (strict_eq (prop "role" user) (VStr "admin"))
      then (Json 403 (err "not allowed"), s)
      else
        (Json 200 (VObj [("ok", VBool true)]),
         set_stories s
           (filter (fun r' => negb (sql_eqb (s_id r') (text_affinity (SqlText id))))
                   (stories s)))
  end.

(** *** favorites *)

Definition favorite_row_of (id userId storyId createdAt : sqlval) : favorite_row :=
  mk_favorite (text_affinity id) (text_affinity userId) (text_affinity storyId)
              (numeric_affinity createdAt).

Definition insert_favorite (r : favorite_row) (s : db) : result db :=
  if taken f_id (f_id r) (favorites s) then Throw SqliteUnique
  else Ok (set_favorites s (favorites s ++ [r])).

(** [SELECT * FROM favorites WHERE userId = ? AND storyId = ?] *)
Definition select_favorite (u i : sqlval) (s : db) : option favorite_row :=
  find (fun r => sql_eqb (f_userId r) (text_affinity u)
                 && sql_eqb (f_storyId r) (text_affinity i))
       (favorites s).

(** [app.post('/api/stories/:id/favorite')], after [authMiddleware];
    [req.user.id] is one value and the path parameter a string, so no
    argument of the three statements is spread. *)
Definition post_api_stories_id_favorite (d : draw) (user : jsval) (id : string)
  (s : db) : reply * db :=
  let storyId := id in
  match bind (prop "id" user) with
  | Throw e => (Uncaught e, s)
  | Ok u =>
      match select_favorite u (SqlText storyId) s with
      | Some existing =>
          match bind (to_js (f_id existing)) with
          | Throw e => (Uncaught e, s)
          | Ok k =>
              (Json 200 (VObj [("ok", VBool true); ("action", VStr "removed")]),
               set_favorites s
                 (filter (fun r => negb (sql_eqb (f_id r) (text_affinity k)))
                         (favorites s)))
          end
      | None =>
          let id := uid d in
          let run : result db :=
            do cells <- bind_all [VStr id; prop "id" user; VStr storyId; now d];
            match cells with
            | [c1; c2; c3; c4] => insert_favorite (favorite_row_of c1 c2 c3 c4) s
            | _ => Throw BindShape
            end in
          match run with
          | Throw e => (Uncaught e, s)
          | Ok s' =>
              (Json 200 (VObj [("ok", VBool true); ("action", VStr "added")]), s')
          end
      end
  end.

(** *** checkout *)

(** [app.post('/api/checkout')], after [authMiddleware] *)
Definition post_api_checkout (d : draw) (user body : jsval) (s : db) : reply * db :=
  let body := js_or body (VObj []) in
  let storyId := prop "storyId" body in
  match bind_all [storyId] with
  | Throw e => (Uncaught e, s)
  | Ok [p] =>
      match select_story p s with
      | None => (Json 404 (err "story not found"), s)
      | Some story =>
          let price := to_js (s_price story) in
          if negb (truthy price) then (Json 400 (err "not for sale"), s)
          else
            let fake :=
              VObj [("url", VStr ("https://pagamento-simulado.local/checkout/"
                                    ++ uid d));
                    ("amount", price); ("storyId", storyId)] in
            (Json 200 (VObj [("checkout", fake)]), s)
      end
  | Ok _ => (Uncaught BindShape, s)
  end.

(** *** announcements *)

Definition announcement_row_of (id authorId message pinned createdAt : sqlval)
  : announcement_row :=
  mk_announcement (text_affinity id) (text_affinity authorId)
                  (text_affinity message) (numeric_affinity pinned)
                  (numeric_affinity createdAt).

Definition insert_announcement (r : announcement_row) (s : db) : result db :=
  if taken a_id (a_id r) (announcements s) then Throw SqliteUnique
  else Ok (set_announcements s (announcements s ++ [r])).

(** [app.post('/api/admin/announce')], after [authMiddleware]; [req.user.id]
    is one value, as in the create handler. *)
Definition post_api_admin_announce (d : draw) (user body : jsval) (s : db)
  : reply * db :=
  if negb (strict_eq (prop "role" user) (VStr "admin"))
  then (Json 403 (err "not allowed"), s)
  else
    let body := js_or body (VObj []) in
    let message := prop "message" body in
    let pinned := prop "pinned" body in
    let id := uid d in
    let run : result db :=
      do author <- bind (prop "id" user);
      do cells <- bind_all [VStr id; to_js author; message;
                            (if truthy pinned then num_of_Z 1 else num_of_Z 0);
                            now d];
      match cells with
      | [c1; c2; c3; c4; c5] =>
          insert_announcement (announcement_row_of c1 c2 c3 c4 c5) s
      | _ => Throw BindShape
      end in
    match run with
    | Throw e => (Uncaught e, s)
    | Ok s' => (Json 200 (VObj [("ok", VBool true)]), s')
    end.

(** *** Socket.IO chat *)

(** Room membership of the in-memory adapter: pairs (socket id, room) in join
    order, a pair at most once.  Rooms are compared as keys of a [Map]. *)
Definition hub : Type := list (string * jsval).

Definition in_room (sid : string) (room : jsval) (h : hub) : bool :=
  existsb (fun m => String.eqb (fst m) sid && strict_eq (snd m) room) h.

Definition adapter_add (sid : string) (room : jsval) (h : hub) : hub :=
  if in_room sid room h then h else (h ++ [(sid, room)])%list.

(** [socket.join(rooms)]: one room or an array of rooms *)
Definition socket_join (sid : string) (rooms : jsval) (h : hub) : hub :=
  fold_left (fun h' r => adapter_add sid r h')
            (match rooms with
             | VArr rs => rs
             | _ => [rooms]
             end) h.

(** the sockets in one room *)
Definition room_members (room : jsval) (h : hub) : list string :=
  map fst (filter (fun m => strict_eq (snd m) room) h).

(** each element once, where it comes first *)
Fixpoint dedupe (l : list string) : list string :=
  match l with
  | [] => []
  | x :: l' => x :: filter (fun y => negb (String.eqb y x)) (dedupe l')
  end.

(** The sockets [io.to(rooms)] reaches: the members of one room, or for an
    array the members of the rooms it names, a socket once; an empty array
    names no room, and the emit then goes to every connected socket. *)
Definition io_to (rooms : jsval) (h : hub) : list string :=
  match rooms with
  | VArr [] => dedupe (map fst h)
  | VArr rs => dedupe (flat_map (fun r => room_members r h) rs)
  | _ => room_members rooms h
  end.

(** a new socket is put in the room named by its own id *)
Definition on_connection (sid : string) (h : hub) : hub :=
  adapter_add sid (VStr sid) h.

Definition on_disconnect (sid : string) (h : hub) : hub :=
  filter (fun m => negb (String.eqb (fst m) sid)) h.

(** [socket.on('join')] *)
Definition on_join (sid : string) (payload : jsval) (h : hub) : result hub :=
  match payload with
  | VUndef | VNull => Throw DestructureTypeError
  | _ =>
      let conversationId := js_or (prop "conversationId" payload) (VStr "public") in
      Ok (socket_join sid conversationId h)
  end.

Definition message_row_of (id conversationId senderId content createdAt : sqlval)
  : message_row :=
  mk_message (text_affinity id) (text_affinity conversationId)
             (text_affinity senderId) (text_affinity content)
             (numeric_affinity createdAt).

Definition insert_message (r : message_row) (s : db) : result db :=
  if taken m_id (m_id r) (messages s) then Throw SqliteUnique
  else Ok (set_messages s (messages s ++ [r])).

(** What a run of the message handler did, in order. *)
Inductive effect : Type :=
| Persist (r : message_row)
| Emit (to : string) (event : string) (msg : jsval).

(** [socket.on('message')]: the effects in order, the database afterwards and
    the exception that ended the run, if one did. *)
Definition on_message (d : draw) (payload : jsval) (h : hub) (s : db)
  : list effect * db * option exn :=
  match payload with
  | VUndef | VNull => ([], s, Some DestructureTypeError)
  | _ =>
      let conversationId := js_or (prop "conversationId" payload) (VStr "public") in
      let senderId := prop "senderId" payload in
      let content := prop "content" payload in
      let id := uid d in
      let createdAt := now d in
      let run : result (message_row * db) :=
        do cells <- bind_all [VStr id; conversationId;
                              js_or senderId (VStr "anon"); content; createdAt];
        match cells with
        | [c1; c2; c3; c4; c5] =>
            let r := message_row_of c1 c2 c3 c4 c5 in
            do s' <- insert_message r s;
            Ok (r, s')
        | _ => Throw BindShape
        end in
      match run with
      | Throw e => ([], s, Some e)
      | Ok (r, s') =>
          let msg := VObj [("id", VStr id); ("conversationId", conversationId);
                           ("senderId", senderId); ("content", content);
                           ("createdAt", createdAt)] in
          (Persist r
             :: map (fun sid => Emit sid "message" msg)
                    (io_to conversationId h),
           s', None)
      end
  end.

(** *** The server as a transition system *)

(** The routes and events that can write; the read-only routes (list and
    get of stories, announcements, [/api/me], the pages) leave the state as
    it is and are not listed. *)
Inductive request : Type :=
| PostRegister (body : jsval)
| PostLogin (body : jsval)
| GetSetupAdmin
| PostStories (authorization : option string) (body : jsval)
| DeleteStory (authorization : option string) (id : string)
| PostFavorite (authorization : option string) (id : string)
| PostCheckout (authorization : option string) (body : jsval)
| PostAnnounce (authorization : option string) (body : jsval)
| Connection (sid : string)
| Disconnect (sid : string)
| Join (sid : string) (payload : jsval)
| Message (sid : string) (payload : jsval).

Record state : Type := mk_state { st_db : db; st_hub : hub }.

Definition serve (d : draw) (q : request) (st : state) : state :=
  let s := st_db st in
  let h := st_hub st in
  match q with
  | PostRegister body => mk_state (snd (post_api_auth_register d body s)) h
  | PostLogin body => mk_state (snd (post_api_auth_login d body s)) h
  | GetSetupAdmin => mk_state (snd (get_setup_admin d s)) h
  | PostStories a body =>
      mk_state (snd (with_auth d a s (fun u => post_api_stories d u body s))) h
  | DeleteStory a id =>
      mk_state (snd (with_auth d a s (fun u => delete_api_stories_id u id s))) h
  | PostFavorite a id =>
      mk_state (snd (with_auth d a s
                       (fun u => post_api_stories_id_favorite d u id s))) h
  | PostCheckout a body =>
      mk_state (snd (with_auth d a s (fun u => post_api_checkout d u body s))) h
  | PostAnnounce a body =>
      mk_state (snd (with_auth d a s
                       (fun u => post_api_admin_announce d u body s))) h
  | Connection sid => mk_state s (on_connection sid h)
  | Disconnect sid => mk_state s (on_disconnect sid h)
  | Join sid payload =>
      mk_state s (match on_join sid payload h with
                  | Ok h' => h'
                  | Throw _ => h
                  end)
  | Message _ payload =>
      mk_state (snd (fst (on_message d payload h s))) h
  end.

Inductive reachable : state -> Prop :=
| reachable_start : reachable (mk_state empty_db [])
| reachable_serve : forall d q st,
    reachable st -> reachable (serve d q st).

(** *** Predicates on the tables *)

(** the rows [SELECT * FROM users WHERE role='admin'] ranges over *)
Definition admin_rows (s : db) : list user_row :=
  filter (fun r => sql_eqb (u_role r) (SqlText "admin")) (users s).

(** the rows the toggle's SELECT matches for user [u] and story [i] *)
Definition matches (u i : string) (r : favorite_row) : bool :=
  sql_eqb (f_userId r) (SqlText u) && sql_eqb (f_storyId r) (SqlText i).

(** user [u] has story [i] among the favorites *)
Definition is_favorite (u i : string) (s : db) : bool :=
  existsb (matches u i) (favorites s).

Definition is_text (c : sqlval) : bool :=
  match c with
  | SqlText _ => true
  | _ => false
  end.

Definition same_pair (r r' : favorite_row) : bool :=
  sql_eqb (f_userId r') (f_userId r) && sql_eqb (f_storyId r') (f_storyId r).

(** The shape the favorites table keeps: text keys, no key twice (the
    PRIMARY KEY), no (user, story) pair twice (the toggle inserts only when
    its SELECT found nothing). *)
Fixpoint favorites_ok (t : list favorite_row) : bool :=
  match t with
  | [] => true
  | r :: t' =>
      is_text (f_id r) && is_text (f_userId r) && is_text (f_storyId r)
      && negb (taken f_id (f_id r) t')
      && negb (existsb (same_pair r) t')
      && favorites_ok t'
  end.

End Server.

(** ** The read-only routes *)

(** What the read-only routes call besides SQLite's equality: [JSON.parse]
    ([None] when it throws a SyntaxError), the LIKE operator on a cell (NULL
    is like nothing) and [String.prototype.trim]. *)
Class Queries : Type :=
  { JSON_parse : jsval -> option jsval;
    sql_like : sqlval -> string -> bool;
    String_trim : string -> string }.

(** The order SQLite sorts cells in: NULL, then numbers, then text compared
    byte by byte. *)
Definition sql_leb (a b : sqlval) : bool :=
  match a, b with
  | SqlNull, _ => true
  | SqlNum _, SqlNull => false
  | SqlNum x, SqlNum y => Qle_bool x y
  | SqlNum _, SqlText _ => true
  | SqlText x, SqlText y => String.leb x y
  | SqlText _, _ => false
  end.

Definition sql_ltb (a b : sqlval) : bool := sql_leb a b && negb (sql_leb b a).

(** [ORDER BY]: [before x y] says that [x] may come before [y].  Rows that
    tie come out in an order SQLite does not promise; here they keep their
    rowid order. *)
Fixpoint insert_by {R : Type} (before : R -> R -> bool) (x : R) (l : list R)
  : list R :=
  match l with
  | [] => [x]
  | y :: l' => if before x y then x :: l else y :: insert_by before x l'
  end.

Definition order_by {R : Type} (before : R -> R -> bool) (l : list R) : list R :=
  fold_right (insert_by before) [] l.

(** [ORDER BY createdAt DESC] *)
Definition newer_first (a b : story_row) : bool :=
  sql_leb (s_createdAt b) (s_createdAt a).

(** [ORDER BY pinned DESC, createdAt DESC] *)
Definition pinned_then_newer (a b : announcement_row) : bool :=
  sql_ltb (a_pinned b) (a_pinned a)
  || (negb (sql_ltb (a_pinned a) (a_pinned b))
      && sql_leb (a_createdAt b) (a_createdAt a)).

Fixpoint all_some {A : Type} (l : list (option A)) : option (list A) :=
  match l with
  | [] => Some []
  | None :: _ => None
  | Some a :: l' => match all_some l' with
                    | Some r => Some (a :: r)
                    | None => None
                    end
  end.

Definition announcement_obj (r : announcement_row) : jsval :=
  VObj [("id", to_js (a_id r)); ("authorId", to_js (a_authorId r));
        ("message", to_js (a_message r)); ("pinned", to_js (a_pinned r));
        ("createdAt", to_js (a_createdAt r))].

Section Reading.

Context {L : Libraries} {K : Queries}.

(** a story row with its [tags] property replaced *)
Definition story_with_tags (r : story_row) (tags : jsval) : jsval :=
  VObj [("id", to_js (s_id r)); ("authorId", to_js (s_authorId r));
        ("title", to_js (s_title r)); ("excerpt", to_js (s_excerpt r));
        ("body", to_js (s_body r)); ("tags", tags);
        ("type", to_js (s_type r)); ("price", to_js (s_price r));
        ("likes", to_js (s_likes r)); ("createdAt", to_js (s_createdAt r))].

(** [JSON.parse(r.tags||'[]')] put in place of [r.tags] *)
Definition parse_tags (r : story_row) : option jsval :=
  match JSON_parse (js_or (to_js (s_tags r)) (VStr "[]")) with
  | Some tags => Some (story_with_tags r tags)
  | None => None
  end.

(** [app.get('/api/stories/:id')]; [None] when [JSON.parse] threw and
    Express answered for the handler. *)
Definition get_api_stories_id (id : string) (s : db) : option reply :=
  match select_story (SqlText id) s with
  | None => Some (Json 404 (err "not found"))
  | Some r =>
      match parse_tags r with
      | Some o => Some (Json 200 o)
      | None => None
      end
  end.

(** [title LIKE ? OR excerpt LIKE ? OR body LIKE ?] *)
Definition story_like (pat : string) (r : story_row) : bool :=
  sql_like (s_title r) pat || sql_like (s_excerpt r) pat || sql_like (s_body r) pat.

(** the rows either SELECT of the list route gives, for the trimmed query *)
Definition select_stories (q : string) (s : db) : list story_row :=
  if negb (String.eqb q "")
  then order_by newer_first (filter (story_like ("%" ++ q ++ "%")) (stories s))
  else order_by newer_first (stories s).

(** [app.get('/api/stories')]; [q] is the query parameter when the request
    gave it once, as text. *)
Definition get_api_stories (q : option string) (s : db) : option reply :=
  let q := String_trim (match q with
                        | Some t => t
                        | None => ""
                        end) in
  match all_some (map parse_tags (select_stories q s)) with
  | Some rows => Some (Json 200 (VArr rows))
  | None => None
  end.

End Reading.

(** [app.get('/api/me')], after [authMiddleware] *)
Definition get_api_me (user : jsval) : reply :=
  Json 200 (VObj [("user", user)]).

(** [app.get('/api/announcements')] *)
Definition get_api_announcements (s : db) : reply :=
  Json 200 (VArr (map announcement_obj
                      (order_by pinned_then_newer (announcements s)))).

(** ** More predicates on the tables *)

(** The shape of a users table whose rows were all registered with plain
    text fields: a text id and a text email no other row has, a text
    password, a username no other row has. *)
Fixpoint users_ok (t : list user_row) : bool :=
  match t with
  | [] => true
  | r :: t' =>
      is_text (u_id r) && is_text (u_email r) && is_text (u_password r)
      && negb (taken u_id (u_id r) t')
      && negb (taken u_email (u_email r) t')
      && negb (taken u_username (u_username r) t')
      && users_ok t'
  end.

(** What the users table keeps whatever is sent: a text id no other row
    has (the PRIMARY KEY), and an email and a username no other row has (the
    two UNIQUE columns, which let NULL in any number of times). *)
Fixpoint users_keys_ok (t : list user_row) : bool :=
  match t with
  | [] => true
  | r :: t' =>
      is_text (u_id r)
      && negb (taken u_id (u_id r) t')
      && negb (taken u_email (u_email r) t')
      && negb (taken u_username (u_username r) t')
      && users_keys_ok t'
  end.

(** The shape the stories table keeps: a text id no other row has, and the
    like counter at its default. *)
Fixpoint stories_ok (t : list story_row) : bool :=
  match t with
  | [] => true
  | r :: t' =>
      is_text (s_id r) && negb (taken s_id (s_id r) t')
      && sql_eqb (s_likes r) (SqlNum (inject_Z 0))
      && stories_ok t'
  end.

(** no socket is twice in a room that a message can name *)
Definition hub_ok (h : hub) : Prop :=
  forall room, NoDup (room_members room h).


(** ** The pages' [esc] *)

Definition double_quote : ascii := ascii_of_nat 34.

(** what the [replace] of [esc] puts for one character: an entity for the
    ampersand, the two angle brackets, the double quote and the apostrophe *)
Definition esc_char (c : ascii) : string :=
  if Ascii.eqb c "&" then "&amp;"
  else if Ascii.eqb c "<" then "&lt;"
  else if Ascii.eqb c ">" then "&gt;"
  else if Ascii.eqb c double_quote then "&quot;"
  else if Ascii.eqb c "'" then "&#39;"
  else String c EmptyString.

(** [esc(s)] on a string; the five characters are ASCII, so the bytes of a
    longer UTF-8 character are never touched. *)
Fixpoint esc (s : string) : string :=
  match s with
  | EmptyString => EmptyString
  | String c s' => esc_char c ++ esc s'
  end.

(** the characters [esc] is there to remove *)
Definition markup_char (c : ascii) : bool :=
  Ascii.eqb c "<" || Ascii.eqb c ">" || Ascii.eqb c double_quote
  || Ascii.eqb c "'".

Fixpoint string_forall (p : ascii -> bool) (s : string) : bool :=
  match s with
  | EmptyString => true
  | String c s' => p c && string_forall p s'
  end.

(** ** A small instance of the library interface

    Enough to run the handlers on concrete requests: the hash keeps the
    password in clear behind a prefix, a token is its subject behind a prefix,
    and the one numeric text SQLite is made to recognise is "0". *)
Definition toy_libraries : Libraries :=
  {| bcrypt_hash := fun _ p => "h:" ++ p;
     bcrypt_compare := fun p h => String.eqb h ("h:" ++ p);
     jwt_sign := fun _ payload =>
       match prop "sub" payload with
       | VStr u => "jwt." ++ u
       | _ => "jwt."
       end;
     jwt_verify := fun _ token =>
       if prefix "jwt." token
       then Ok (VObj [("sub", VStr (drop 4 token)); ("role", VStr "user")])
       else Throw JsonWebTokenError;
     JSON_stringify := fun _ => "[]";
     num_text := fun _ => "0";
     text_num := fun t => if String.eqb t "0" then Some (inject_Z 0) else None |}.

(** ** Sample data *)

Definition draw1 : draw := mk_draw 1700000000000 "k1" "salt".
Definition draw2 : draw := mk_draw 1700000060000 "k2" "salt".

Definition ana : user_row :=
  mk_user (SqlText "u1") (SqlText "a@x") (SqlText "h:p1") SqlNull SqlNull
          (SqlText "user") (SqlNum (inject_Z 1700000000)).

Definition bia : user_row :=
  mk_user (SqlText "u2") (SqlText "b@x") (SqlText "h:p2") SqlNull SqlNull
          (SqlText "user") (SqlNum (inject_Z 1700000000)).

Definition root : user_row :=
  mk_user (SqlText "u0") (SqlText "admin@local") (SqlText "h:admin123")
          (SqlText "Admin") (SqlText "admin") (SqlText "admin")
          (SqlNum (inject_Z 1700000000)).

(** a free-to-read story of [ana], without a price *)
Definition tale : story_row :=
  mk_story (SqlText "s1") (SqlText "u1") (SqlText "T") (SqlText "")
           (SqlText "B") (SqlText "[]") (SqlText "leia") SqlNull
           (SqlNum (inject_Z 0)) (SqlNum (inject_Z 1700000000)).

(** a story for sale whose price column holds zero *)
Definition gift : story_row :=
  mk_story (SqlText "s0") (SqlText "u1") (SqlText "T") (SqlText "")
           (SqlText "B") (SqlText "[]") (SqlText "venda") (SqlNum (inject_Z 0))
           (SqlNum (inject_Z 0)) (SqlNum (inject_Z 1700000000)).

(** a story for sale at 10 *)
Definition novel : story_row :=
  mk_story (SqlText "s2") (SqlText "u1") (SqlText "T") (SqlText "")
           (SqlText "B") (SqlText "[]") (SqlText "venda") (SqlNum (inject_Z 10))
           (SqlNum (inject_Z 0)) (SqlNum (inject_Z 1700000000)).

Definition sample_db : db := mk_db [ana; bia] [tale; gift; novel] [] [] [].

Definition seeded_db : db := mk_db [root; ana] [tale] [] [] [].

(** [{title:'T', body:'B', type:'leia', price:10}] *)
Definition priced_free_story : jsval :=
  VObj [("title", VStr "T"); ("body", VStr "B"); ("type", VStr "leia");
        ("price", VNum (inject_Z 10))].

(** the row the create handler stores for it, as the first story of [ana] *)
Definition priced_free_row : story_row :=
  mk_story (SqlText "k1") (SqlText "u1") (SqlText "T") (SqlText "")
           (SqlText "B") (SqlText "[]") (SqlText "leia") (SqlNum (inject_Z 10))
           (SqlNum (inject_Z 0)) (SqlNum (inject_Z 1700000000)).

(** [{conversationId:'sala', content:'oi'}], no sender *)
Definition unsigned_message : jsval :=
  VObj [("conversationId", VStr "sala"); ("content", VStr "oi")].


Definition sample_hub : hub :=
  [("c1", VStr "c1"); ("c1", VStr "sala"); ("c2", VStr "c2");
   ("c2", VStr "public")].

(** the row stored for [unsigned_message] and the message emitted for it *)
Definition anon_row : message_row :=
  mk_message (SqlText "k1") (SqlText "sala") (SqlText "anon") (SqlText "oi")
             (SqlNum (inject_Z 1700000000)).

Definition unsigned_broadcast : jsval :=
  VObj [("id", VStr "k1"); ("conversationId", VStr "sala");
        ("senderId", VUndef); ("content", VStr "oi");
        ("createdAt", VNum (inject_Z 1700000000))].

(** [{email:'c@x', password:'p3'}] *)
Definition signup : jsval :=
  VObj [("email", VStr "c@x"); ("password", VStr "p3")].

(** a story for sale sent with the text "0" as its price *)
Definition zero_text_story : jsval :=
  VObj [("title", VStr "T"); ("body", VStr "B"); ("type", VStr "venda");
        ("price", VStr "0")].

(** ** A small instance of the read-only routes' interface *)

Fixpoint contains (needle hay : string) : bool :=
  if prefix needle hay then true
  else match hay with
       | EmptyString => false
       | String _ hay' => contains needle hay'
       end.

Fixpoint trim_left (s : string) : string :=
  match s with
  | String c s' => if Ascii.eqb c " " then trim_left s' else s
  | EmptyString => EmptyString
  end.

Fixpoint trim_right (s : string) : string :=
  match s with
  | EmptyString => EmptyString
  | String c s' =>
      match trim_right s' with
      | EmptyString => if Ascii.eqb c " " then EmptyString else String c EmptyString
      | r => String c r
      end
  end.

(** [JSON.parse] knows the empty array only, LIKE is containment of what
    stands between the two percent signs, and trimming removes spaces. *)
Definition toy_queries : Queries :=
  {| JSON_parse := fun v =>
       match v with
       | VStr t => if String.eqb t "[]" then Some (VArr []) else None
       | _ => None
       end;
     sql_like := fun cell pat =>
       match cell with
       | SqlText t => contains (substring 1 (String.length pat - 2) pat) t
       | _ => false
       end;
     String_trim := fun t => trim_right (trim_left t) |}.

(** ** More sample data *)

Definition draw3 : draw := mk_draw 1700000120000 "k3" "salt".

(** [{title:'T', body:'B'}] *)
Definition plain_story : jsval := VObj [("title", VStr "T"); ("body", VStr "B")].

(** [{message:'aviso', pinned:true}] *)
Definition notice : jsval := VObj [("message", VStr "aviso"); ("pinned", VBool true)].

Definition one_favorite_db : db :=
  mk_db [ana; bia] [tale]
        [mk_favorite (SqlText "f1") (SqlText "u1") (SqlText "s1")
                     (SqlNum (inject_Z 1700000000))]
        [] [].

(** [{conversationId:'sala'}] *)
Definition join_sala : jsval := VObj [("conversationId", VStr "sala")].

(** [{email:[null], password:'p3'}] *)
Definition null_email_signup : jsval :=
  VObj [("email", VArr [VNull]); ("password", VStr "p3")].

(** the two rows stored for it when it is sent twice *)
Definition null_email_rows : list user_row :=
  [mk_user (SqlText "k1") SqlNull (SqlText "h:p3") SqlNull SqlNull (SqlText "user")
           (SqlNum (inject_Z 1700000000));
   mk_user (SqlText "k2") SqlNull (SqlText "h:p3") SqlNull SqlNull (SqlText "user")
           (SqlNum (inject_Z 1700000060))].



(** Three runs of the server from the empty database: two registrations,
    the second with a null email; a registration and a story of that user;
    and the same with that user's favorite on the story. *)
Definition two_users_run : state :=
  serve (L:=toy_libraries) draw2 (PostRegister null_email_signup)
    (serve (L:=toy_libraries) draw1 (PostRegister signup) (mk_state empty_db [])).

Definition story_run : state :=
  serve (L:=toy_libraries) draw2 (PostStories (Some "Bearer jwt.k1") plain_story)
    (serve (L:=toy_libraries) draw1 (PostRegister signup) (mk_state empty_db [])).

Definition favorite_run : state :=
  serve (L:=toy_libraries) draw3 (PostFavorite (Some "Bearer jwt.k1") "k2") story_run.

(** * Properties *)

Section Properties.

Context {L : Libraries}.

Local Open Scope list_scope.

(** ** Values, binding and affinity *)

Lemma bind_to_js (c : sqlval) : bind (to_js c) = Ok c.
Proof. destruct c; reflexivity. Qed.

Lemma bind_null_iff (v : jsval) (c : sqlval) :
  bind v = Ok c -> (c = SqlNull <-> v = VUndef \/ v = VNull).
Proof.
  destruct v; simpl; intro H; inversion H; subst; split; intro E;
    try discriminate; try (destruct E; discriminate); auto.
Qed.

Lemma numeric_affinity_null (c : sqlval) :
  numeric_affinity c = SqlNull <-> c = SqlNull.
Proof.
  destruct c as [|q|t]; simpl; split; intro H; try discriminate; auto.
  destruct (text_num t); discriminate.
Qed.

Lemma js_or_null_falsy (v : jsval) :
  (js_or v VNull = VUndef \/ js_or v VNull = VNull) <-> truthy v = false.
Proof.
  unfold js_or. destruct (truthy v) eqn:T.
  - split; [intros [E|E]; subst; simpl in T; discriminate | discriminate].
  - split; auto.
Qed.

Lemma bind_scalar (v : jsval) (c : sqlval) : bind v = Ok c -> scalar v = true.
Proof. destruct v; simpl; intro H; try discriminate; reflexivity. Qed.

Lemma scalar_to_js (c : sqlval) : scalar (to_js c) = true.
Proof. destruct c; reflexivity. Qed.

Lemma scalar_js_or (a b : jsval) :
  scalar a = true -> scalar b = true -> scalar (js_or a b) = true.
Proof. unfold js_or. destruct (truthy a); auto. Qed.

(** An argument that is not an array or object is one value of the
    statement. *)
Lemma bind_args_scalar (named : bool) (v : jsval) (vs : list jsval) :
  scalar v = true ->
  bind_args named (v :: vs)
  = do c <- bind v; do more <- bind_args named vs; Ok (c :: more).
Proof. destruct v; simpl; intro S; try discriminate; reflexivity. Qed.

Lemma bind_args_cons (named : bool) (v : jsval) (vs : list jsval)
  (cs : list sqlval) :
  scalar v = true ->
  bind_args named (v :: vs) = Ok cs ->
  exists c cs', cs = c :: cs' /\ bind v = Ok c /\ bind_args named vs = Ok cs'.
Proof.
  intro S. rewrite (bind_args_scalar _ _ _ S).
  destruct (bind v) as [c|e]; simpl; [|discriminate].
  destruct (bind_args named vs) as [cs'|e]; simpl; [|discriminate].
  intro H; inversion H; subst. eauto.
Qed.

Lemma bind_args_nil (named : bool) (cs : list sqlval) :
  bind_args named [] = Ok cs -> cs = [].
Proof. simpl. intro H; inversion H; reflexivity. Qed.

Lemma bind_all_one (v : jsval) (c : sqlval) : bind v = Ok c -> bind_all [v] = Ok [c].
Proof.
  intro B. unfold bind_all.
  rewrite (bind_args_scalar _ _ _ (bind_scalar _ _ B)), B. reflexivity.
Qed.

(** The values of the later arguments are the later values. *)
Lemma bind_args_app (xs ys : list jsval) :
  forall (named : bool) (cs : list sqlval),
    bind_args named (xs ++ ys) = Ok cs ->
    exists named' cs1 cs2, cs = cs1 ++ cs2 /\ bind_args named' ys = Ok cs2.
Proof.
  induction xs as [|a xs IH]; intros named cs H.
  - exists named, [], cs. auto.
  - rewrite <- app_comm_cons in H. destruct (scalar a) eqn:S.
    + apply (bind_args_cons _ _ _ _ S) in H.
      destruct H as (c & cs' & -> & _ & H).
      destruct (IH _ _ H) as (n' & cs1 & cs2 & -> & R).
      exists n', (c :: cs1), cs2. auto.
    + destruct a; try discriminate S; simpl in H.
      * destruct (bind_each items) as [ci|e]; simpl in H; [|discriminate].
        destruct (bind_args named (xs ++ ys)) as [more|e] eqn:R; simpl in H;
          [|discriminate].
        inversion H. subst cs.
        destruct (IH _ _ R) as (n' & cs1 & cs2 & -> & R').
        exists n', (ci ++ cs1), cs2. rewrite app_assoc. auto.
      * destruct named; [discriminate|].
        destruct (IH _ _ H) as (n' & cs1 & cs2 & -> & R').
        exists n', cs1, cs2. auto.
Qed.

(** Two last arguments that are each one value are the two last values. *)
Lemma bind_all_last_two (xs : list jsval) (v w : jsval) (cs : list sqlval) :
  scalar v = true -> scalar w = true ->
  bind_all (xs ++ [v; w]) = Ok cs ->
  exists cs1 c e, cs = cs1 ++ [c; e] /\ bind v = Ok c /\ bind w = Ok e.
Proof.
  intros Sv Sw H. unfold bind_all in H.
  destruct (bind_args_app _ _ _ _ H) as (n' & cs1 & cs2 & -> & R).
  apply (bind_args_cons _ _ _ _ Sv) in R. destruct R as (c & cs' & -> & Bv & R).
  apply (bind_args_cons _ _ _ _ Sw) in R. destruct R as (e & cs'' & -> & Bw & R).
  apply bind_args_nil in R. subst. exists cs1, c, e. auto.
Qed.

Ltac scalar_tac :=
  first [ assumption
        | reflexivity
        | apply scalar_to_js
        | (apply scalar_js_or; scalar_tac)
        | (eapply bind_scalar; eassumption)
        | match goal with
          | |- scalar (if ?b then _ else _) = true => destruct b; reflexivity
          end ].

(** Peel the values of a successful call off its leading arguments, as long
    as they are known to be one value each. *)
Ltac peel_binds H :=
  unfold bind_all in H;
  repeat match type of H with
         | bind_args _ (?v :: _) = Ok _ =>
             let S := fresh "S" in
             assert (S : scalar v = true) by scalar_tac;
             let c := fresh "c" in
             let cs := fresh "cs" in
             let E := fresh "E" in
             let B := fresh "B" in
             let H' := fresh "H" in
             destruct (bind_args_cons _ _ _ _ S H) as (c & cs & E & B & H');
             clear H S; rename H' into H;
             try discriminate E;
             first [ injection E as ? ?; subst c cs | subst ]
         | bind_args _ [] = Ok _ =>
             apply bind_args_nil in H; try discriminate H; subst
         end.

(** ** Creating a story *)

Lemma insert_story_ok (r : story_row) (s s' : db) :
  insert_story r s = Ok s' ->
  s' = set_stories s (stories s ++ [r]) /\ taken s_id (s_id r) (stories s) = false.
Proof.
  unfold insert_story. destruct (taken s_id (s_id r) (stories s)); intro H;
    inversion H; auto.
Qed.

Lemma find_app_last {A : Type} (f : A -> bool) (l : list A) (x : A) :
  existsb f l = false -> f x = true -> find f (l ++ [x]) = Some x.
Proof.
  induction l as [|a l IH]; simpl; intros N T.
  - rewrite T. reflexivity.
  - apply orb_false_iff in N. destruct N as [Na N]. rewrite Na. auto.
Qed.

Lemma sql_eqb_text_refl (t : string) : sql_eqb (SqlText t) (SqlText t) = true.
Proof. simpl. apply String.eqb_refl. Qed.

(** What a successful run of the create handler was: the requester's id and
    the nine arguments gave nine values, the key was free, and the row made of
    them is the last of the table and the one sent back. *)
Lemma post_api_stories_ok (d : draw) (user body : jsval) (s s' : db) (b : jsval) :
  post_api_stories d user body s = (Json 200 b, s') ->
  exists author c3 c4 c5 c6 c7 c8 c9,
    truthy (prop "title" (js_or body (VObj []))) = true
    /\ truthy (prop "body" (js_or body (VObj []))) = true
    /\ bind (prop "id" user) = Ok author
    /\ bind_all [VStr (uid d); to_js author; prop "title" (js_or body (VObj []));
                 js_or (prop "excerpt" (js_or body (VObj []))) (VStr "");
                 prop "body" (js_or body (VObj []));
                 VStr (JSON_stringify
                         (js_or (prop "tags" (js_or body (VObj []))) (VArr [])));
                 js_or (prop "type" (js_or body (VObj []))) (VStr "leia");
                 js_or (prop "price" (js_or body (VObj []))) VNull; now d]
       = Ok [SqlText (uid d); author; c3; c4; c5; c6; c7; c8; c9]
    /\ taken s_id (SqlText (uid d)) (stories s) = false
    /\ s' = set_stories s
              (stories s ++
                 [story_row_of (SqlText (uid d)) author c3 c4 c5 c6 c7 c8 c9])
    /\ b = story_obj (story_row_of (SqlText (uid d)) author c3 c4 c5 c6 c7 c8 c9).
Proof.
  unfold post_api_stories.
  destruct (truthy (prop "title" (js_or body (VObj [])))) eqn:Tt; [|discriminate].
  destruct (truthy (prop "body" (js_or body (VObj [])))) eqn:Tb; [|discriminate].
  cbn [negb orb].
  destruct (bind (prop "id" user)) as [author|e] eqn:Ba; cbn [rbind]; [|discriminate].
  match goal with
  | |- context [rbind (bind_all ?args) ?k] => destruct (bind_all args) as [cells|e] eqn:B
  end; cbn [rbind]; [|discriminate].
  pose proof B as B'. peel_binds B'.
  rewrite bind_to_js in B1. inversion B1. subst c0. clear B1.
  simpl in B0. inversion B0. subst c. clear B0.
  destruct cs0 as [|c3 [|c4 [|c5 [|c6 [|c7 [|c8 [|c9 [|x cs]]]]]]]]; try discriminate.
  destruct (insert_story _ s) as [s1|e] eqn:I; [|discriminate].
  apply insert_story_ok in I. destruct I as [-> K].
  cbn [s_id story_row_of text_affinity] in K.
  unfold select_story. cbn [stories set_stories text_affinity].
  rewrite (find_app_last _ (stories s) _ K)
    by (cbn [s_id story_row_of text_affinity]; apply sql_eqb_text_refl).
  intro H. inversion H. subst.
  exists author, c3, c4, c5, c6, c7, c8, c9. repeat split; auto.
Qed.

Lemma last_two_inj {A : Type} (pre front : list A) (a z x y : A) :
  pre ++ [a; z] = front ++ [x; y] -> a = x /\ z = y.
Proof.
  intro E.
  change (pre ++ [a; z]) with (pre ++ [a] ++ [z]) in E.
  change (front ++ [x; y]) with (front ++ [x] ++ [y]) in E.
  rewrite !app_assoc in E.
  apply app_inj_tail in E. destruct E as [E ->].
  apply app_inj_tail in E. destruct E as [_ ->]. auto.
Qed.

(** The last but one of nine values. *)
Lemma eighth_of_nine (pre : list sqlval) (a z c1 c2 c3 c4 c5 c6 c7 c8 c9 : sqlval) :
  pre ++ [a; z] = [c1; c2; c3; c4; c5; c6; c7; c8; c9] -> a = c8.
Proof.
  intro E.
  change (pre ++ [a; z]) with (pre ++ [a] ++ [z]) in E.
  rewrite app_assoc in E.
  change [c1; c2; c3; c4; c5; c6; c7; c8; c9]
    with ([c1; c2; c3; c4; c5; c6; c7; c8] ++ [c9]) in E.
  apply app_inj_tail in E. destruct E as [E _].
  change [c1; c2; c3; c4; c5; c6; c7; c8]
    with ([c1; c2; c3; c4; c5; c6; c7] ++ [c8]) in E.
  apply app_inj_tail in E. destruct E as [_ E]. exact E.
Qed.

(** C1 (as amended): whatever its type, a story that the create handler
    stores for a submitted price that is not an array or an object has a null
    price exactly when that price is missing or falsy; a non-zero number is
    stored as it was sent. *)
Theorem create_price_null_iff_falsy (d : draw) (user body : jsval) (s s' : db)
  (b : jsval) :
  scalar (prop "price" (js_or body (VObj []))) = true ->
  post_api_stories d user body s = (Json 200 b, s') ->
  exists r,
    stories s' = stories s ++ [r] /\
    (s_price r = SqlNull <-> truthy (prop "price" (js_or body (VObj []))) = false) /\
    (forall q, prop "price" (js_or body (VObj [])) = VNum q ->
               negb (Qnum q =? 0) = true -> s_price r = SqlNum q).
Proof.
  intros Sp H. apply post_api_stories_ok in H.
  destruct H as (ca & c3 & c4 & c5 & c6 & c7 & c8 & c9 & _ & _ & _ & B & _ & -> & _).
  match type of B with
  | bind_all [?a1; ?a2; ?a3; ?a4; ?a5; ?a6; ?a7; ?a8; ?a9] = _ =>
      change (bind_all ([a1; a2; a3; a4; a5; a6; a7] ++ [a8; a9]) = Ok
                [SqlText (uid d); ca; c3; c4; c5; c6; c7; c8; c9]) in B
  end.
  apply bind_all_last_two in B; [|scalar_tac|reflexivity].
  destruct B as (pre & cp & ct & E & Bp & _).
  symmetry in E. apply eighth_of_nine in E. subst cp.
  eexists. split; [reflexivity|]. cbn [s_price story_row_of]. split.
  - rewrite numeric_affinity_null, (bind_null_iff _ _ Bp). apply js_or_null_falsy.
  - intros q E T. rewrite E in Bp. unfold js_or in Bp. simpl in Bp. rewrite T in Bp.
    simpl in Bp. inversion Bp. reflexivity.
Qed.

(** ** Resolving the identity of a request *)

Lemma find_In {A : Type} (f : A -> bool) (l : list A) (x : A) :
  find f l = Some x -> In x l /\ f x = true.
Proof. apply find_some. Qed.

(** C3: the middleware answers 401 exactly when the header is missing, the
    token does not verify (malformed, badly signed or expired: [jwt.verify]
    throws, or it gives no payload) or no user row has the token's subject as
    id; otherwise it passes on the five public columns, and no password, of a
    user row whose id is the subject of the verified token. *)
Theorem authMiddleware_unauthorized_iff (d : draw) (authorization : option string)
  (s : db) (p : sqlval) :
  let token :=
    replace_first "Bearer " "" (match authorization with Some a => a | None => "" end) in
  let data :=
    match jwt_verify (d_clock d) token with Ok v => v | Throw _ => VNull end in
  bind (prop "sub" data) = Ok p ->
  ((exists msg, authMiddleware d authorization s = inl (Json 401 (err msg)))
   <-> (authorization = None \/ authorization = Some ""
        \/ (exists e, jwt_verify (d_clock d) token = Throw e)
        \/ (exists v, jwt_verify (d_clock d) token = Ok v /\ truthy v = false)
        \/ (forall r, In r (users s) -> sql_eqb (u_id r) (text_affinity p) = false)))
  /\ ((exists msg, authMiddleware d authorization s = inl (Json 401 (err msg)))
      \/ exists user, authMiddleware d authorization s = inr user)
  /\ (forall user, authMiddleware d authorization s = inr user ->
      exists v row,
        jwt_verify (d_clock d) token = Ok v
        /\ bind (prop "sub" v) = Ok p
        /\ In row (users s)
        /\ sql_eqb (u_id row) (text_affinity p) = true
        /\ (forall sub, prop "sub" v = VStr sub -> u_id row = SqlText sub)
        /\ user = VObj [("id", to_js (u_id row)); ("email", to_js (u_email row));
                        ("name", to_js (u_name row));
                        ("username", to_js (u_username row));
                        ("role", to_js (u_role row))]
        /\ prop "password" user = VUndef).
Proof.
  intros token data B. unfold authMiddleware, verifyToken.
  destruct authorization as [a|];
    [|split; [split; eauto | split; [eauto | discriminate]]].
  destruct (String.eqb a "") eqn:Ea.
  { apply String.eqb_eq in Ea. subst a.
    split; [split; eauto | split; [eauto | discriminate]]. }
  assert (Na : Some a <> Some "").
  { intro E. inversion E. subst. discriminate. }
  fold token. unfold data in B. clear data.
  destruct (jwt_verify (d_clock d) token) as [v|e] eqn:V;
    [|cbn [truthy negb]; split; [split; eauto 6 | split; [eauto | discriminate]]].
  destruct (truthy v) eqn:T; cbn [negb];
    [|split; [split; eauto 8 | split; [eauto | discriminate]]].
  rewrite (bind_all_one _ _ B). unfold select_user_by_id.
  destruct (find _ (users s)) as [row|] eqn:S.
  - apply find_In in S. destruct S as [I E].
    split; [split|split].
    + intros [msg H]. discriminate.
    + intros [H|[H|[[e H]|[[v' [H T']]|H]]]]; try discriminate; try contradiction.
      * inversion H. subst v'. rewrite T in T'. discriminate.
      * rewrite (H row I) in E. discriminate.
    + right. eauto.
    + intros user H. inversion H. subst user. exists v, row.
      repeat split; auto.
      intros sub Es. rewrite Es in B. inversion B. subst p.
      destruct (u_id row); simpl in E; try discriminate.
      apply String.eqb_eq in E. subst. reflexivity.
  - split; [split|split; [eauto | discriminate]].
    + intros _. do 4 right. intros r I.
      destruct (sql_eqb (u_id r) (text_affinity p)) eqn:E; [|reflexivity].
      apply (find_none _ _ S) in I. cbv beta in I. congruence.
    + eauto.
Qed.

(** ** Login *)




(** ** Registration *)

Lemma insert_user_ok (r : user_row) (s s' : db) :
  insert_user r s = Ok s' ->
  s' = set_users s (users s ++ [r])
  /\ taken u_id (u_id r) (users s) = false
  /\ taken u_email (u_email r) (users s) = false
  /\ taken u_username (u_username r) (users s) = false.
Proof.
  unfold insert_user.
  destruct (taken u_id (u_id r) (users s)); [discriminate|].
  destruct (taken u_email (u_email r) (users s)); [discriminate|].
  destruct (taken u_username (u_username r) (users s)); [discriminate|].
  simpl. intro H; inversion H; auto.
Qed.

Lemma truthy_bound_text (v : jsval) (c : sqlval) :
  truthy v = true -> bind v = Ok c -> exists t, text_affinity c = SqlText t.
Proof.
  destruct v; simpl; intros T B; try discriminate; inversion B; subst; simpl; eauto.
Qed.

(** What a successful registration was: the password was a string, the six
    arguments gave six values, none of the three keys was taken, and the row
    made of the values is the last of the table. *)
Lemma post_api_auth_register_ok (d : draw) (body : jsval) (s s' : db) (b : jsval) :
  post_api_auth_register d body s = (Json 200 b, s') ->
  exists p c2 c3 c4 c5 c6,
    prop "password" (js_or body (VObj [])) = VStr p
    /\ truthy (prop "email" (js_or body (VObj []))) = true
    /\ truthy (prop "password" (js_or body (VObj []))) = true
    /\ bind_all [VStr (uid d); prop "email" (js_or body (VObj []));
                 VStr (bcrypt_hash (d_salt d) p);
                 js_or (prop "name" (js_or body (VObj []))) VNull;
                 js_or (prop "username" (js_or body (VObj []))) VNull; now d]
       = Ok [SqlText (uid d); c2; c3; c4; c5; c6]
    /\ taken u_id (SqlText (uid d)) (users s) = false
    /\ taken u_email (text_affinity c2) (users s) = false
    /\ taken u_username (text_affinity c5) (users s) = false
    /\ s' = set_users s
              (users s ++ [user_row_of (SqlText (uid d)) c2 c3 c4 c5 None c6])
    /\ b = VObj [("token",
                  VStr (jwt_sign (d_clock d)
                          (VObj [("sub", VStr (uid d)); ("role", VStr "user")])));
                 ("user",
                  VObj [("id", VStr (uid d));
                        ("email", prop "email" (js_or body (VObj [])));
                        ("name", prop "name" (js_or body (VObj [])));
                        ("username", prop "username" (js_or body (VObj [])));
                        ("role", VStr "user")])].
Proof.
  unfold post_api_auth_register.
  destruct (truthy (prop "email" (js_or body (VObj [])))) eqn:Te; [|discriminate].
  destruct (truthy (prop "password" (js_or body (VObj [])))) eqn:Tp; [|discriminate].
  cbn [negb orb].
  destruct (hashPassword d (prop "password" (js_or body (VObj [])))) as [hash|e] eqn:Hh;
    cbn [rbind]; [|destruct (message_includes_UNIQUE e); discriminate].
  match goal with
  | |- context [rbind (bind_all ?args) ?k] => destruct (bind_all args) as [cells|e] eqn:B
  end; cbn [rbind]; [|destruct (message_includes_UNIQUE e); discriminate].
  pose proof B as B'. peel_binds B'.
  simpl in B0. inversion B0. subst c. clear B0.
  destruct cs as [|c2 [|c3 [|c4 [|c5 [|c6 [|x cs]]]]]]; cbn [rbind];
    try (cbn [message_includes_UNIQUE]; discriminate).
  destruct (insert_user _ s) as [s1|e] eqn:I; cbn [rbind];
    [|destruct (message_includes_UNIQUE e); discriminate].
  apply insert_user_ok in I. destruct I as (-> & Ki & Ke & Ku).
  intro H. inversion H. subst. clear H.
  destruct (prop "password" (js_or body (VObj []))) as [| | | |p| |] eqn:P;
    simpl in Hh; try discriminate. inversion Hh. subst hash.
  exists p, c2, c3, c4, c5, c6. repeat split; try assumption; reflexivity.
Qed.

(** With an email that is one value, the first three columns are the key,
    the email and the hash. *)
Lemma post_api_auth_register_stored (d : draw) (body : jsval) (s s' : db) (b : jsval) :
  scalar (prop "email" (js_or body (VObj []))) = true ->
  post_api_auth_register d body s = (Json 200 b, s') ->
  exists p ce c4 c5 c6,
    prop "password" (js_or body (VObj [])) = VStr p
    /\ truthy (prop "email" (js_or body (VObj []))) = true
    /\ truthy (prop "password" (js_or body (VObj []))) = true
    /\ bind (prop "email" (js_or body (VObj []))) = Ok ce
    /\ taken u_id (SqlText (uid d)) (users s) = false
    /\ taken u_email (text_affinity ce) (users s) = false
    /\ taken u_username (text_affinity c5) (users s) = false
    /\ s' = set_users s
              (users s ++
                 [user_row_of (SqlText (uid d)) ce
                    (SqlText (bcrypt_hash (d_salt d) p)) c4 c5 None c6]).
Proof.
  intros Se H. apply post_api_auth_register_ok in H.
  destruct H as (p & c2 & c3 & c4 & c5 & c6 & P & Te & Tp & B & Ki & Ke & Ku & -> & _).
  peel_binds B. simpl in B2. inversion B2. subst.
  exists p, c2, c4, c5, c6. repeat split; assumption.
Qed.

(** C4 (as amended): after a successful registration whose email is a string
    or a number, a second registration with the same email, a string
    password and a name and a username that are each a string, a number or
    missing is answered with the conflict error, which is not the reply to a
    request without email or password, and writes nothing. *)
Theorem register_same_email_conflict (d1 d2 : draw) (body1 body2 : jsval)
  (s s1 : db) (b1 : jsval) (pw2 : string) (cn cu : sqlval) :
  scalar (prop "email" (js_or body1 (VObj []))) = true ->
  post_api_auth_register d1 body1 s = (Json 200 b1, s1) ->
  prop "email" (js_or body2 (VObj [])) = prop "email" (js_or body1 (VObj [])) ->
  prop "password" (js_or body2 (VObj [])) = VStr pw2 ->
  pw2 <> "" ->
  bind (js_or (prop "name" (js_or body2 (VObj []))) VNull) = Ok cn ->
  bind (js_or (prop "username" (js_or body2 (VObj []))) VNull) = Ok cu ->
  post_api_auth_register d2 body2 s1
  = (Json 400 (err "email or username exists"), s1)
  /\ post_api_auth_register d2 (VObj []) s1
     = (Json 400 (err "missing email or password"), s1)
  /\ Json 400 (err "email or username exists")
     <> Json 400 (err "missing email or password").
Proof.
  intros Se H1 Ee Ep Np Bn Bu.
  apply (post_api_auth_register_stored _ _ _ _ _ Se) in H1.
  destruct H1 as (p & ce & c4 & c5 & c6 & _ & Te & _ & Be & _ & _ & _ & ->).
  split; [|split; [reflexivity | discriminate]].
  unfold post_api_auth_register.
  rewrite Ee, Ep, Te. simpl truthy.
  assert (Tp : negb (String.eqb pw2 "") = true).
  { apply negb_true_iff. apply String.eqb_neq. exact Np. }
  rewrite Tp. cbn [negb orb hashPassword rbind]. unfold bind_all.
  rewrite (bind_args_scalar _ (VStr _)) by reflexivity. cbn [bind rbind].
  rewrite (bind_args_scalar _ _ _ Se), Be. cbn [rbind].
  rewrite (bind_args_scalar _ (VStr _)) by reflexivity. cbn [bind rbind].
  rewrite (bind_args_scalar _ _ _ (bind_scalar _ _ Bn)), Bn. cbn [rbind].
  rewrite (bind_args_scalar _ _ _ (bind_scalar _ _ Bu)), Bu. cbn [rbind].
  cbn [bind_args now num_of_Z bind rbind].
  unfold insert_user. cbn [users set_users].
  destruct (truthy_bound_text _ _ Te Be) as [t Et].
  assert (Tk : taken u_email (text_affinity ce)
                 (users s ++ [user_row_of (SqlText (uid d1)) ce
                                (SqlText (bcrypt_hash (d_salt d1) p)) c4 c5 None c6])
               = true).
  { unfold taken. rewrite existsb_app. cbn [existsb u_email user_row_of].
    rewrite Et, sql_eqb_text_refl. rewrite orb_true_r. reflexivity. }
  cbn [u_email user_row_of]. rewrite Tk, orb_true_r. reflexivity.
Qed.

(** ** Deleting a story *)

Lemma find_filter_negb {A : Type} (f : A -> bool) (l : list A) :
  find f (filter (fun x => negb (f x)) l) = None.
Proof.
  induction l as [|a l IH]; simpl; [reflexivity|].
  destruct (f a) eqn:E; simpl; [exact IH|]. rewrite E. exact IH.
Qed.

(** C7: on an existing story, a requester who is neither its author nor an
    admin gets 403 and nothing changes; the author or an admin gets the story
    removed, the other rows and tables staying as they were. *)
Theorem delete_author_or_admin_only (user : jsval) (id : string) (s : db)
  (r : story_row) :
  select_story (SqlText id) s = Some r ->
  (strict_eq (to_js (s_authorId r)) (prop "id" user) = false ->
   strict_eq (prop "role" user) (VStr "admin") = false ->
   delete_api_stories_id user id s = (Json 403 (err "not allowed"), s))
  /\ (strict_eq (to_js (s_authorId r)) (prop "id" user) = true
      \/ strict_eq (prop "role" user) (VStr "admin") = true ->
      exists s',
        delete_api_stories_id user id s = (Json 200 (VObj [("ok", VBool true)]), s')
        /\ select_story (SqlText id) s' = None
        /\ (forall r', In r' (stories s') <->
                       In r' (stories s) /\ sql_eqb (s_id r') (SqlText id) = false)
        /\ users s' = users s /\ favorites s' = favorites s
        /\ messages s' = messages s /\ announcements s' = announcements s).
Proof.
  intro S. unfold delete_api_stories_id. rewrite S. split.
  - intros A R. rewrite A, R. reflexivity.
  - intro H.
    assert (E : negb (strict_eq (to_js (s_authorId r)) (prop "id" user))
                && negb (strict_eq (prop "role" user) (VStr "admin")) = false).
    { destruct H as [H|H]; rewrite H; simpl; [reflexivity | apply andb_false_r]. }
    rewrite E. eexists. split; [reflexivity|].
    split; [|split; [|repeat split]].
    + unfold select_story. simpl.
      apply (find_filter_negb (fun r' => sql_eqb (s_id r') (SqlText id))).
    + intro r'. simpl. rewrite filter_In, negb_true_iff. reflexivity.
Qed.

(** ** Checkout *)

Lemma post_api_checkout_effect (d : draw) (user body : jsval) (s : db) :
  snd (post_api_checkout d user body s) = s.
Proof.
  unfold post_api_checkout.
  destruct (bind_all [prop "storyId" (js_or body (VObj []))]) as [[|p [|x cells]]|e];
    try reflexivity.
  destruct (select_story p s) as [story|]; [|reflexivity].
  destruct (negb (truthy (to_js (s_price story)))); reflexivity.
Qed.

(** C8 (as amended): checkout never writes; for an item id that binds, it
    answers 404 when no story has it, 400 "not for sale" when the story's
    price is null or otherwise falsy (zero, empty text), and else a descriptor
    whose amount is the stored price. *)
Theorem checkout_descriptor (d : draw) (user body : jsval) (s : db) :
  snd (post_api_checkout d user body s) = s
  /\ forall p,
      bind (prop "storyId" (js_or body (VObj []))) = Ok p ->
      (select_story p s = None ->
       fst (post_api_checkout d user body s) = Json 404 (err "story not found"))
      /\ (forall story,
            select_story p s = Some story ->
            (s_price story = SqlNull \/ truthy (to_js (s_price story)) = false) ->
            fst (post_api_checkout d user body s) = Json 400 (err "not for sale"))
      /\ (forall story,
            select_story p s = Some story ->
            truthy (to_js (s_price story)) = true ->
            exists fake,
              fst (post_api_checkout d user body s) = Json 200 (VObj [("checkout", fake)])
              /\ prop "amount" fake = to_js (s_price story)
              /\ prop "storyId" fake = prop "storyId" (js_or body (VObj []))).
Proof.
  split.
  - apply post_api_checkout_effect.
  - intros p B. unfold post_api_checkout. rewrite (bind_all_one _ _ B).
    split; [|split].
    + intros ->. reflexivity.
    + intros story -> H.
      assert (T : truthy (to_js (s_price story)) = false).
      { destruct H as [H|H]; [rewrite H; reflexivity | exact H]. }
      rewrite T. reflexivity.
    + intros story -> T. rewrite T. simpl. eexists. split; [reflexivity|].
      split; reflexivity.
Qed.

(** ** What each handler can write *)

Ltac break_match :=
  match goal with
  | |- context [match ?x with _ => _ end] => destruct x eqn:?
  end.

Ltac handler_cases := cbv beta delta [rbind]; repeat break_match.

Lemma with_auth_effect (d : draw) (a : option string) (s : db)
  (handler : jsval -> reply * db) :
  snd (with_auth d a s handler) = s
  \/ exists row, In row (users s)
                 /\ is_text (u_id row) = true
                 /\ snd (with_auth d a s handler) = snd (handler (public_user row)).
Proof.
  unfold with_auth, authMiddleware.
  destruct a as [auth|]; [|auto].
  destruct (String.eqb auth ""); [auto|].
  destruct (negb _); [auto|].
  destruct (bind_all _) as [[|p [|x cells]]|e]; auto.
  destruct (select_user_by_id p s) as [row|] eqn:S; [|auto].
  right. apply find_In in S. destruct S as [I E].
  exists row. split; [exact I|]. split; [|reflexivity].
  destruct (u_id row); simpl in E; try discriminate; try reflexivity.
  destruct p; discriminate.
Qed.

Lemma post_api_auth_register_effect (d : draw) (body : jsval) (s : db) :
  snd (post_api_auth_register d body s) = s
  \/ exists r, u_role r = SqlText "user"
               /\ snd (post_api_auth_register d body s)
                  = set_users s (users s ++ [r]).
Proof.
  destruct (post_api_auth_register d body s) as [rep s'] eqn:E.
  destruct rep as [st b| |]; revert E; unfold post_api_auth_register.
  - destruct (Z.eq_dec st 200) as [->|N].
    + intro E. apply post_api_auth_register_ok in E.
      destruct E as (p & c2 & c3 & c4 & c5 & c6 & _ & _ & _ & _ & _ & _ & _ & -> & _).
      right. eexists. split; [|reflexivity]. reflexivity.
    + handler_cases; intro E; inversion E; subst; auto; congruence.
  - handler_cases; intro E; inversion E.
  - handler_cases; intro E; inversion E.
Qed.

Lemma post_api_auth_login_effect (d : draw) (body : jsval) (s : db) :
  snd (post_api_auth_login d body s) = s.
Proof. unfold post_api_auth_login. handler_cases; reflexivity. Qed.

Lemma get_setup_admin_effect (d : draw) (s : db) :
  snd (get_setup_admin d s) = s
  \/ admin_rows s = []
     /\ exists r, snd (get_setup_admin d s) = set_users s (users s ++ [r]).
Proof.
  unfold get_setup_admin.
  destruct (find _ (users s)) eqn:F; [auto|].
  assert (A : admin_rows s = []).
  { unfold admin_rows. clear - F. induction (users s) as [|a l IH]; simpl in *;
      [reflexivity|]. destruct (sql_eqb (u_role a) (SqlText "admin"));
      [discriminate | auto]. }
  cbn [hashPassword rbind bind_all bind_args bind now num_of_Z].
  unfold insert_user.
  destruct (_ || _); cbn [rbind snd]; eauto.
Qed.

Lemma post_api_stories_effect (d : draw) (user body : jsval) (s : db) :
  snd (post_api_stories d user body s) = s
  \/ exists r, snd (post_api_stories d user body s)
               = set_stories s (stories s ++ [r]).
Proof.
  unfold post_api_stories.
  destruct (negb _ || negb _); [auto|].
  match goal with
  | |- context [rbind (bind ?v) ?k] =>
      destruct (rbind (bind v) k) as [s1|e] eqn:B
  end; [|auto].
  right. revert B. cbv beta delta [rbind]. unfold insert_story.
  handler_cases; intro E; inversion E; subst; simpl; eauto.
Qed.

Lemma delete_api_stories_id_effect (user : jsval) (id : string) (s : db) :
  snd (delete_api_stories_id user id s) = s
  \/ exists t, snd (delete_api_stories_id user id s) = set_stories s t.
Proof. unfold delete_api_stories_id. handler_cases; simpl; eauto. Qed.

Lemma post_api_admin_announce_effect (d : draw) (user body : jsval) (s : db) :
  snd (post_api_admin_announce d user body s) = s
  \/ exists r, snd (post_api_admin_announce d user body s)
               = set_announcements s (announcements s ++ [r]).
Proof.
  unfold post_api_admin_announce.
  destruct (negb _); [auto|].
  match goal with
  | |- context [rbind (bind ?v) ?k] =>
      destruct (rbind (bind v) k) as [s1|e] eqn:B
  end; [|auto].
  right. revert B. cbv beta delta [rbind]. unfold insert_announcement.
  handler_cases; intro E; inversion E; subst; simpl; eauto.
Qed.

Lemma insert_message_ok (r : message_row) (s s' : db) :
  insert_message r s = Ok s' ->
  s' = set_messages s (messages s ++ [r])
  /\ taken m_id (m_id r) (messages s) = false.
Proof.
  unfold insert_message. destruct (taken m_id (m_id r) (messages s));
    intro H; inversion H; auto.
Qed.

Lemma on_message_effect (d : draw) (payload : jsval) (h : hub) (s : db) :
  snd (fst (on_message d payload h s)) = s
  \/ exists r, snd (fst (on_message d payload h s))
               = set_messages s (messages s ++ [r]).
Proof.
  unfold on_message.
  destruct payload; auto;
    match goal with
    | |- context [rbind (bind_all ?args) ?k] =>
        destruct (rbind (bind_all args) k) as [[r1 s1]|e] eqn:B
    end; auto;
    right; revert B; cbv beta delta [rbind];
    handler_cases; intro E; inversion E; subst; simpl;
    match goal with
    | I : insert_message _ _ = Ok _ |- _ =>
        apply insert_message_ok in I; destruct I as [-> _]; eauto
    end.
Qed.

(** ** Favorites *)

Lemma sql_eqb_sym (a b : sqlval) : sql_eqb a b = sql_eqb b a.
Proof.
  destruct a as [|x|x], b as [|y|y]; simpl; try reflexivity.
  - destruct (Qeq_bool x y) eqn:A, (Qeq_bool y x) eqn:B; try reflexivity.
    + apply Qeq_bool_iff in A. apply Qeq_sym in A. apply Qeq_bool_iff in A. congruence.
    + apply Qeq_bool_iff in B. apply Qeq_sym in B. apply Qeq_bool_iff in B. congruence.
  - apply String.eqb_sym.
Qed.

Lemma sql_eqb_text (c : sqlval) (t : string) :
  sql_eqb c (SqlText t) = true -> c = SqlText t.
Proof.
  destruct c; simpl; try discriminate. intro H. apply String.eqb_eq in H.
  congruence.
Qed.

Lemma is_text_affinity (c : sqlval) : is_text c = true -> text_affinity c = c.
Proof. destruct c; simpl; try discriminate; reflexivity. Qed.

Lemma find_none_existsb {A : Type} (f : A -> bool) (l : list A) :
  find f l = None <-> existsb f l = false.
Proof.
  induction l as [|a l IH]; simpl; [tauto|].
  destruct (f a); simpl; [split; discriminate | exact IH].
Qed.

Lemma existsb_false_In {A : Type} (f : A -> bool) (l : list A) (x : A) :
  existsb f l = false -> In x l -> f x = false.
Proof.
  intros E I. destruct (f x) eqn:F; [|reflexivity].
  assert (existsb f l = true) by (apply existsb_exists; eauto). congruence.
Qed.

Lemma existsb_filter_same {A : Type} (f g : A -> bool) (l : list A) :
  (forall x, In x l -> f x = true -> g x = true) ->
  existsb f (filter g l) = existsb f l.
Proof.
  induction l as [|a l IH]; simpl; intro H; [reflexivity|].
  destruct (g a) eqn:G; simpl.
  - rewrite IH; auto.
  - rewrite IH by auto. destruct (f a) eqn:F; [|reflexivity].
    rewrite (H a) in G; auto. discriminate.
Qed.

Lemma filter_all {A : Type} (f : A -> bool) (l : list A) :
  (forall x, In x l -> f x = true) -> filter f l = l.
Proof.
  induction l as [|a l IH]; simpl; intro H; [reflexivity|].
  rewrite (H a) by auto. rewrite IH; auto.
Qed.

Lemma matches_inj (u i u' i' : string) (r : favorite_row) :
  matches u i r = true -> matches u' i' r = true -> u = u' /\ i = i'.
Proof.
  unfold matches. intros H H'.
  apply andb_true_iff in H. destruct H as [A B].
  apply andb_true_iff in H'. destruct H' as [A' B'].
  apply sql_eqb_text in A, B, A', B'. split; congruence.
Qed.

Lemma favorites_ok_In (t : list favorite_row) (r : favorite_row) :
  favorites_ok t = true -> In r t -> is_text (f_id r) = true.
Proof.
  induction t as [|a t IH]; simpl; [tauto|].
  intros W [->|I].
  - repeat (apply andb_true_iff in W; destruct W as [W ?]). assumption.
  - apply IH; [|exact I]. apply andb_true_iff in W. tauto.
Qed.

(** In a well-shaped table, the key of the matched row singles out exactly
    the rows the SELECT matches. *)
Lemma favorites_ok_key_matches (u i : string) (t : list favorite_row)
  (r : favorite_row) :
  favorites_ok t = true ->
  find (matches u i) t = Some r ->
  forall r', In r' t -> sql_eqb (f_id r') (f_id r) = matches u i r'.
Proof.
  induction t as [|a t IH]; simpl; [discriminate|].
  intros W F r' I.
  repeat (apply andb_true_iff in W; destruct W as [W ?]).
  match goal with H : negb (taken _ _ _) = true |- _ =>
    apply negb_true_iff in H; rename H into Tk end.
  match goal with H : negb (existsb _ _) = true |- _ =>
    apply negb_true_iff in H; rename H into Sp end.
  destruct (matches u i a) eqn:M.
  - injection F as Ea. subst r. destruct I as [E|I].
    + subst r'. rewrite M. destruct (f_id a); try discriminate.
      apply sql_eqb_text_refl.
    + unfold taken in Tk. rewrite (existsb_false_In _ _ _ Tk I).
      pose proof (existsb_false_In _ _ _ Sp I) as S. unfold same_pair in S.
      unfold matches in M. apply andb_true_iff in M. destruct M as [Mu Mi].
      apply sql_eqb_text in Mu, Mi. rewrite Mu, Mi in S. symmetry. exact S.
  - destruct I as [E|I].
    + subst r'. rewrite M. apply find_In in F. destruct F as [F _].
      unfold taken in Tk. rewrite sql_eqb_sym. apply (existsb_false_In _ _ _ Tk F).
    + apply IH; assumption.
Qed.

Lemma taken_filter {R : Type} (col : R -> sqlval) (v : sqlval) (f : R -> bool)
  (t : list R) :
  taken col v t = false -> taken col v (filter f t) = false.
Proof.
  unfold taken. induction t as [|a t IH]; simpl; [auto|].
  intro H. apply orb_false_iff in H. destruct H as [A B].
  destruct (f a); simpl; [rewrite A|]; auto.
Qed.

(** The two branches of the toggle for a logged-in user with a text id. *)
Lemma post_api_stories_id_favorite_cases (d : draw) (user : jsval) (u id : string)
  (s : db) :
  prop "id" user = VStr u ->
  (exists r,
      find (matches u id) (favorites s) = Some r
      /\ post_api_stories_id_favorite d user id s
         = (Json 200 (VObj [("ok", VBool true); ("action", VStr "removed")]),
            set_favorites s
              (filter (fun r' => negb (sql_eqb (f_id r') (text_affinity (f_id r))))
                      (favorites s))))
  \/ (find (matches u id) (favorites s) = None
      /\ (taken f_id (SqlText (uid d)) (favorites s) = true
          /\ post_api_stories_id_favorite d user id s = (Uncaught SqliteUnique, s)
          \/ taken f_id (SqlText (uid d)) (favorites s) = false
             /\ post_api_stories_id_favorite d user id s
                = (Json 200 (VObj [("ok", VBool true); ("action", VStr "added")]),
                   set_favorites s
                     (favorites s ++
                        [mk_favorite (SqlText (uid d)) (SqlText u) (SqlText id)
                                     (SqlNum (inject_Z (d_clock d / 1000)))])))).
Proof.
  intro U. unfold post_api_stories_id_favorite. rewrite U. cbn [bind].
  unfold select_favorite. cbn [text_affinity]. fold (matches u id).
  destruct (find (matches u id) (favorites s)) as [r|] eqn:F.
  - left. exists r. split; [reflexivity|]. rewrite bind_to_js. reflexivity.
  - right. split; [reflexivity|].
    cbn [bind_all bind_args bind rbind now num_of_Z]. unfold insert_favorite.
    cbn [favorite_row_of f_id text_affinity numeric_affinity].
    destruct (taken f_id (SqlText (uid d)) (favorites s)); [left|right]; auto.
Qed.

(** C6: on a well-shaped favorites table and with fresh keys from [uid],
    toggling the same (user, story) twice restores who has what as a
    favorite; from "not a favorite" the replies are added then removed and
    the table is the same again, from "a favorite" they are removed then
    added. *)
Theorem toggle_favorite_twice (d1 d2 : draw) (user : jsval) (u id : string)
  (s : db) :
  prop "id" user = VStr u ->
  favorites_ok (favorites s) = true ->
  taken f_id (SqlText (uid d1)) (favorites s) = false ->
  taken f_id (SqlText (uid d2)) (favorites s) = false ->
  let first := post_api_stories_id_favorite d1 user id s in
  let second := post_api_stories_id_favorite d2 user id (snd first) in
  (forall u' i', is_favorite u' i' (snd second) = is_favorite u' i' s)
  /\ (is_favorite u id s = false ->
      fst first = Json 200 (VObj [("ok", VBool true); ("action", VStr "added")])
      /\ fst second = Json 200 (VObj [("ok", VBool true); ("action", VStr "removed")])
      /\ snd second = s)
  /\ (is_favorite u id s = true ->
      fst first = Json 200 (VObj [("ok", VBool true); ("action", VStr "removed")])
      /\ fst second = Json 200 (VObj [("ok", VBool true); ("action", VStr "added")])).
Proof.
  intros U W K1 K2 first second.
  assert (Fav : forall u' i' s0, is_favorite u' i' s0 = existsb (matches u' i') (favorites s0))
    by reflexivity.
  destruct (post_api_stories_id_favorite_cases d1 user u id s U)
    as [(r & F & E1) | (F & [(T & _) | (_ & E1)])].
  - (* a favorite: removed, then added *)
    assert (Hfilter :
      filter (fun r' => negb (sql_eqb (f_id r') (text_affinity (f_id r)))) (favorites s)
      = filter (fun r' => negb (matches u id r')) (favorites s)).
    { apply filter_ext_in. intros r' I.
      rewrite is_text_affinity
        by (apply (favorites_ok_In (favorites s)); [exact W | apply (find_In _ _ _ F)]).
      rewrite (favorites_ok_key_matches u id _ r W F r' I). reflexivity. }
    rewrite Hfilter in E1.
    set (s1 := set_favorites s (filter (fun r' => negb (matches u id r')) (favorites s))) in *.
    assert (K2' : taken f_id (SqlText (uid d2)) (favorites s1) = false)
      by (apply taken_filter; exact K2).
    assert (F1 : find (matches u id) (favorites s1) = None)
      by apply find_filter_negb.
    destruct (post_api_stories_id_favorite_cases d2 user u id s1 U)
      as [(r2 & F2 & _) | (_ & [(T & _) | (_ & E2)])]; try congruence.
    assert (In1 : is_favorite u id s = true).
    { rewrite Fav. apply existsb_exists. exists r. apply (find_In _ _ _ F). }
    subst first second. rewrite E1. cbn [snd fst]. rewrite E2. cbn [snd fst].
    split; [|split; [congruence | auto]].
    intros u' i'. rewrite !Fav. cbn [favorites set_favorites s1].
    rewrite existsb_app. cbn [existsb]. rewrite orb_false_r.
    destruct (string_dec u u') as [->|Nu]; [destruct (string_dec id i') as [->|Ni]|].
    + rewrite <- Fav, In1.
      match goal with
      | |- context [matches ?a ?b (mk_favorite ?w ?x ?y ?z)] =>
          replace (matches a b (mk_favorite w x y z)) with true
      end.
      * apply orb_true_r.
      * unfold matches. cbn [f_userId f_storyId].
        rewrite !sql_eqb_text_refl. reflexivity.
    + replace (matches u' i' _) with false.
      2:{ unfold matches. cbn [f_userId f_storyId sql_eqb].
          apply String.eqb_neq in Ni. rewrite Ni. symmetry. apply andb_false_r. }
      rewrite orb_false_r. apply existsb_filter_same. intros x _ M.
      apply negb_true_iff. destruct (matches u' id x) eqn:M'; [|reflexivity].
      destruct (matches_inj _ _ _ _ _ M M'). congruence.
    + replace (matches u' i' _) with false.
      2:{ unfold matches. cbn [f_userId f_storyId sql_eqb].
          apply String.eqb_neq in Nu. rewrite Nu. reflexivity. }
      rewrite orb_false_r. apply existsb_filter_same. intros x _ M.
      apply negb_true_iff. destruct (matches u id x) eqn:M'; [|reflexivity].
      destruct (matches_inj _ _ _ _ _ M M'). congruence.
  - congruence.
  - (* not a favorite: added, then removed *)
    set (r1 := mk_favorite (SqlText (uid d1)) (SqlText u) (SqlText id)
                           (SqlNum (inject_Z (d_clock d1 / 1000)))) in *.
    set (s1 := set_favorites s (favorites s ++ [r1])) in *.
    assert (F1 : find (matches u id) (favorites s1) = Some r1).
    { cbn [favorites set_favorites s1]. clear - F.
      induction (favorites s) as [|a t IH]; simpl in *.
      - unfold matches. simpl. rewrite !String.eqb_refl. reflexivity.
      - destruct (matches u id a); [discriminate | auto]. }
    destruct (post_api_stories_id_favorite_cases d2 user u id s1 U)
      as [(r2 & F2 & E2) | (F2 & _)]; try congruence.
    assert (r2 = r1) by congruence. subst r2.
    assert (Back : filter (fun r' => negb (sql_eqb (f_id r') (text_affinity (f_id r1))))
                          (favorites s1) = favorites s).
    { cbn [favorites set_favorites s1]. rewrite filter_app.
      cbn [filter f_id r1 text_affinity]. rewrite sql_eqb_text_refl. cbn [negb].
      rewrite app_nil_r. apply filter_all. intros x I. apply negb_true_iff.
      unfold taken in K1. apply (existsb_false_In _ _ _ K1 I). }
    rewrite Back in E2.
    assert (S2 : set_favorites s1 (favorites s) = s) by (destruct s; reflexivity).
    rewrite S2 in E2.
    assert (Out : is_favorite u id s = false).
    { rewrite Fav. apply find_none_existsb. exact F. }
    subst first second. rewrite E1. cbn [snd fst]. rewrite E2. cbn [snd fst].
    split; [reflexivity|]. split; [auto | congruence].
Qed.

(** *** The favorites table keeps its shape *)

Lemma existsb_filter_false {A : Type} (g f : A -> bool) (t : list A) :
  existsb g t = false -> existsb g (filter f t) = false.
Proof.
  induction t as [|a t IH]; simpl; [auto|].
  intro H. apply orb_false_iff in H. destruct H as [A0 B].
  destruct (f a); simpl; [rewrite A0|]; auto.
Qed.

Lemma favorites_ok_filter (f : favorite_row -> bool) (t : list favorite_row) :
  favorites_ok t = true -> favorites_ok (filter f t) = true.
Proof.
  induction t as [|a t IH]; simpl; [auto|].
  intro W. apply andb_true_iff in W. destruct W as [W Wt].
  destruct (f a); [|auto]. simpl. rewrite (IH Wt), andb_true_r.
  repeat (apply andb_true_iff in W; destruct W as [W ?]).
  repeat (apply andb_true_iff; split); try assumption.
  - apply negb_true_iff. apply taken_filter. apply negb_true_iff. assumption.
  - apply negb_true_iff. apply existsb_filter_false. apply negb_true_iff. assumption.
Qed.

Lemma favorites_ok_snoc (t : list favorite_row) (r : favorite_row) :
  favorites_ok t = true ->
  is_text (f_id r) = true -> is_text (f_userId r) = true ->
  is_text (f_storyId r) = true ->
  taken f_id (f_id r) t = false ->
  existsb (fun a => same_pair a r) t = false ->
  favorites_ok (t ++ [r]) = true.
Proof.
  intros W Ti Tu Ts. induction t as [|a t IH]; simpl.
  - intros _ _. rewrite Ti, Tu, Ts. reflexivity.
  - intros Tk Sp. apply orb_false_iff in Tk. destruct Tk as [Tka Tk].
    apply orb_false_iff in Sp. destruct Sp as [Spa Sp].
    simpl in W. apply andb_true_iff in W. destruct W as [W Wt].
    rewrite (IH Wt Tk Sp), andb_true_r.
    repeat (apply andb_true_iff in W; destruct W as [W ?]).
    repeat (apply andb_true_iff; split); try assumption.
    + apply negb_true_iff. unfold taken in *. rewrite existsb_app. simpl.
      rewrite orb_false_r. apply orb_false_iff. split.
      * apply negb_true_iff. assumption.
      * rewrite sql_eqb_sym. exact Tka.
    + apply negb_true_iff. rewrite existsb_app. simpl. rewrite orb_false_r.
      apply orb_false_iff. split; [apply negb_true_iff; assumption | exact Spa].
Qed.

Lemma post_api_stories_id_favorite_ok (d : draw) (row : user_row) (id : string)
  (s : db) :
  is_text (u_id row) = true ->
  favorites_ok (favorites s) = true ->
  favorites_ok (favorites (snd (post_api_stories_id_favorite d (public_user row) id s)))
  = true
  /\ users (snd (post_api_stories_id_favorite d (public_user row) id s)) = users s.
Proof.
  intros T W. destruct (u_id row) as [| |u] eqn:U; try discriminate.
  assert (P : prop "id" (public_user row) = VStr u).
  { unfold public_user. simpl. rewrite U. reflexivity. }
  destruct (post_api_stories_id_favorite_cases d _ u id s P)
    as [(r & F & E) | (F & [(_ & E) | (K & E)])]; rewrite E; cbn [snd].
  - split; [|reflexivity]. apply favorites_ok_filter. exact W.
  - auto.
  - split; [|reflexivity]. cbn [favorites set_favorites].
    apply favorites_ok_snoc; try reflexivity; try assumption.
    apply find_none_existsb in F. rewrite <- F. clear.
    induction (favorites s) as [|a t IH]; simpl; [reflexivity|].
    rewrite IH. f_equal. unfold same_pair, matches. cbn [f_userId f_storyId].
    rewrite (sql_eqb_sym (SqlText u)), (sql_eqb_sym (SqlText id)). reflexivity.
Qed.

Lemma post_api_stories_id_favorite_users (d : draw) (user : jsval) (id : string)
  (s : db) :
  users (snd (post_api_stories_id_favorite d user id s)) = users s.
Proof.
  unfold post_api_stories_id_favorite.
  destruct (bind (prop "id" user)) as [u|e]; [|reflexivity].
  destruct (select_favorite u (SqlText id) s) as [r|].
  - destruct (bind (to_js (f_id r))); reflexivity.
  - match goal with
    | |- context [rbind (bind_all ?args) ?k] =>
        destruct (rbind (bind_all args) k) as [s1|e] eqn:B
    end; [|reflexivity].
    revert B. unfold insert_favorite. handler_cases; intro E; inversion E; reflexivity.
Qed.

(** X26: in every state the server can reach, the favorites table has text
    keys, no key twice and at most one row for a user and a story. *)
Lemma reachable_favorites_ok (st : state) :
  reachable st -> favorites_ok (favorites (st_db st)) = true.
Proof.
  induction 1 as [|d q st R IH]; [reflexivity|].
  destruct q; cbn [serve st_db].
  - destruct (post_api_auth_register_effect d body (st_db st)) as [->|(r & _ & ->)];
      exact IH.
  - rewrite post_api_auth_login_effect. exact IH.
  - destruct (get_setup_admin_effect d (st_db st)) as [->|(_ & r & ->)]; exact IH.
  - destruct (with_auth_effect d authorization (st_db st)
                (fun u => post_api_stories d u body (st_db st)))
      as [->|(row & _ & _ & ->)]; [exact IH|].
    destruct (post_api_stories_effect d (public_user row) body (st_db st))
      as [->|(r & ->)]; exact IH.
  - destruct (with_auth_effect d authorization (st_db st)
                (fun u => delete_api_stories_id u id (st_db st)))
      as [->|(row & _ & _ & ->)]; [exact IH|].
    destruct (delete_api_stories_id_effect (public_user row) id (st_db st))
      as [->|(t & ->)]; exact IH.
  - destruct (with_auth_effect d authorization (st_db st)
                (fun u => post_api_stories_id_favorite d u id (st_db st)))
      as [->|(row & _ & T & ->)]; [exact IH|].
    apply post_api_stories_id_favorite_ok; assumption.
  - destruct (with_auth_effect d authorization (st_db st)
                (fun u => post_api_checkout d u body (st_db st)))
      as [->|(row & _ & _ & ->)]; [exact IH|].
    rewrite post_api_checkout_effect. exact IH.
  - destruct (with_auth_effect d authorization (st_db st)
                (fun u => post_api_admin_announce d u body (st_db st)))
      as [->|(row & _ & _ & ->)]; [exact IH|].
    destruct (post_api_admin_announce_effect d (public_user row) body (st_db st))
      as [->|(r & ->)]; exact IH.
  - exact IH.
  - exact IH.
  - exact IH.
  - destruct (on_message_effect d payload (st_hub st) (st_db st)) as [->|(r & ->)];
      exact IH.
Qed.

(** ** Roles *)

Lemma admin_rows_snoc_user (s : db) (r : user_row) :
  u_role r = SqlText "user" ->
  admin_rows (set_users s (users s ++ [r])) = admin_rows s.
Proof.
  intro R. unfold admin_rows. cbn [users set_users]. rewrite filter_app.
  cbn [filter]. rewrite R. simpl. apply app_nil_r.
Qed.

Lemma serve_keeps_admin_rows (d : draw) (q : request) (st : state) :
  q <> GetSetupAdmin ->
  admin_rows (st_db (serve d q st)) = admin_rows (st_db st).
Proof.
  intro N. destruct q; cbn [serve st_db]; try reflexivity.
  - destruct (post_api_auth_register_effect d body (st_db st)) as [->|(r & R & ->)];
      [reflexivity | apply admin_rows_snoc_user; exact R].
  - rewrite post_api_auth_login_effect. reflexivity.
  - congruence.
  - destruct (with_auth_effect d authorization (st_db st)
                (fun u => post_api_stories d u body (st_db st)))
      as [->|(row & _ & _ & ->)]; [reflexivity|].
    destruct (post_api_stories_effect d (public_user row) body (st_db st))
      as [->|(r & ->)]; reflexivity.
  - destruct (with_auth_effect d authorization (st_db st)
                (fun u => delete_api_stories_id u id (st_db st)))
      as [->|(row & _ & _ & ->)]; [reflexivity|].
    destruct (delete_api_stories_id_effect (public_user row) id (st_db st))
      as [->|(t & ->)]; reflexivity.
  - destruct (with_auth_effect d authorization (st_db st)
                (fun u => post_api_stories_id_favorite d u id (st_db st)))
      as [->|(row & _ & T & ->)]; [reflexivity|].
    unfold admin_rows.
    rewrite (post_api_stories_id_favorite_users d (public_user row) id (st_db st)).
    reflexivity.
  - destruct (with_auth_effect d authorization (st_db st)
                (fun u => post_api_checkout d u body (st_db st)))
      as [->|(row & _ & _ & ->)]; [reflexivity|].
    rewrite post_api_checkout_effect. reflexivity.
  - destruct (with_auth_effect d authorization (st_db st)
                (fun u => post_api_admin_announce d u body (st_db st)))
      as [->|(row & _ & _ & ->)]; [reflexivity|].
    destruct (post_api_admin_announce_effect d (public_user row) body (st_db st))
      as [->|(r & ->)]; reflexivity.
  - destruct (on_message_effect d payload (st_hub st) (st_db st)) as [->|(r & ->)];
      reflexivity.
Qed.

(** X27: in every state the server can reach there is at most one admin
    row, the seeded one. *)
Lemma reachable_at_most_one_admin (st : state) :
  reachable st -> (List.length (admin_rows (st_db st)) <= 1)%nat.
Proof.
  induction 1 as [|d q st R IH]; [simpl; lia|].
  destruct q; try (rewrite serve_keeps_admin_rows by discriminate; exact IH).
  cbn [serve st_db].
  destruct (get_setup_admin_effect d (st_db st)) as [->|(A & r & ->)]; [exact IH|].
  unfold admin_rows in *. cbn [users set_users]. rewrite filter_app, A.
  cbn [filter app]. destruct (sql_eqb (u_role r) (SqlText "admin")); simpl; lia.
Qed.

(** C9: a row that registration stores has role 'user'; no request other
    than the seeding route changes which rows are admins; and the seeding
    route writes nothing once an admin row exists. *)
Theorem admin_only_from_setup :
  (forall d body s b s',
      post_api_auth_register d body s = (Json 200 b, s') ->
      exists r, users s' = users s ++ [r] /\ u_role r = SqlText "user")
  /\ (forall d q st,
         q <> GetSetupAdmin ->
         admin_rows (st_db (serve d q st)) = admin_rows (st_db st))
  /\ (forall d s,
         admin_rows s <> [] ->
         get_setup_admin d s
         = (Send "admin exists. delete data.db to recreate or remove this route", s)).
Proof.
  split; [|split].
  - intros d body s b s' H. apply post_api_auth_register_ok in H.
    destruct H as (p & c2 & c3 & c4 & c5 & c6 & _ & _ & _ & _ & _ & _ & _ & -> & _).
    eexists. split; reflexivity.
  - exact serve_keeps_admin_rows.
  - intros d s A. unfold get_setup_admin.
    destruct (find _ (users s)) eqn:F; [reflexivity|].
    exfalso. apply A. unfold admin_rows. clear - F.
    induction (users s) as [|a l IH]; simpl in *; [reflexivity|].
    destruct (sql_eqb (u_role a) (SqlText "admin")); [discriminate | auto].
Qed.

(** ** Chat *)

Lemma jsval_nullish (v : jsval) :
  (v = VUndef \/ v = VNull) \/ (v <> VUndef /\ v <> VNull).
Proof. destruct v; auto; right; split; discriminate. Qed.

Lemma strict_eq_text (v : jsval) (c : string) :
  strict_eq v (VStr c) = true <-> v = VStr c.
Proof.
  destruct v; simpl; split; intro H; try discriminate.
  - apply String.eqb_eq in H. subst. reflexivity.
  - inversion H. apply String.eqb_refl.
Qed.

(** the members of a room with a text name are the sockets paired with it *)
Lemma room_members_In (sid c : string) (h : hub) :
  In sid (room_members (VStr c) h) <-> In (sid, VStr c) h.
Proof.
  unfold room_members. rewrite in_map_iff. split.
  - intros ([sid' r] & E & I). simpl in E. subst sid'.
    apply filter_In in I. destruct I as [I S]. simpl in S.
    apply strict_eq_text in S. subst r. exact I.
  - intro I. exists (sid, VStr c). split; [reflexivity|].
    apply filter_In. split; [exact I|]. simpl. apply String.eqb_refl.
Qed.




(** A run of the message handler on a payload that can be destructured. *)
Lemma on_message_run (d : draw) (payload : jsval) (h : hub) (s : db) :
  payload <> VUndef -> payload <> VNull ->
  let conversationId := js_or (prop "conversationId" payload) (VStr "public") in
  let senderId := prop "senderId" payload in
  let content := prop "content" payload in
  let msg := VObj [("id", VStr (uid d)); ("conversationId", conversationId);
                   ("senderId", senderId); ("content", content);
                   ("createdAt", now d)] in
  on_message d payload h s =
  match bind_all [VStr (uid d); conversationId; js_or senderId (VStr "anon");
                  content; now d] with
  | Ok [c1; c2; c3; c4; c5] =>
      if taken m_id (text_affinity c1) (messages s)
      then ([], s, Some SqliteUnique)
      else
        (Persist (message_row_of c1 c2 c3 c4 c5)
           :: map (fun sid => Emit sid "message" msg) (io_to conversationId h),
         set_messages s (messages s ++ [message_row_of c1 c2 c3 c4 c5]), None)
  | Ok _ => ([], s, Some BindShape)
  | Throw e => ([], s, Some e)
  end.
Proof.
  intros NU NN conversationId senderId content msg.
  assert (E : on_message d payload h s =
              match
                (do cells <- bind_all [VStr (uid d); conversationId;
                                       js_or senderId (VStr "anon"); content; now d];
                 match cells with
                 | [c1; c2; c3; c4; c5] =>
                     let r := message_row_of c1 c2 c3 c4 c5 in
                     do s' <- insert_message r s;
                     Ok (r, s')
                 | _ => Throw BindShape
                 end)
              with
              | Throw e => ([], s, Some e)
              | Ok (r, s') =>
                  (Persist r :: map (fun sid => Emit sid "message" msg)
                                    (io_to conversationId h), s', None)
              end).
  { destruct payload; try congruence; reflexivity. }
  rewrite E. clear E.
  destruct (bind_all _) as [cells|e]; cbn [rbind]; [|reflexivity].
  destruct cells as [|c1 [|c2 [|c3 [|c4 [|c5 [|x cells]]]]]]; try reflexivity.
  unfold insert_message. cbn [m_id message_row_of].
  destruct (taken m_id (text_affinity c1) (messages s)); reflexivity.
Qed.

(** C2 (as amended): the row is stored before anything is emitted and every
    socket reached gets the same message, which for a room with a text name
    are the sockets in that room; the message has the row's id and carries
    room, sender and content as they came.  When none of these three is an
    array or an object, the message has the row's timestamp, its room and
    content when these are strings, and its sender when that is a non-empty
    string; with no sender the row says 'anon' and the message carries the
    sender as it came.  A run that raises has emitted nothing and stored
    nothing. *)
Theorem publish_persists_then_broadcasts (d : draw) (payload : jsval) (h : hub)
  (s s' : db) (tr : list effect) (ex : option exn) :
  on_message d payload h s = (tr, s', ex) ->
  let conversationId := js_or (prop "conversationId" payload) (VStr "public") in
  let senderId := prop "senderId" payload in
  let content := prop "content" payload in
  (ex <> None -> tr = [] /\ s' = s)
  /\ (ex = None ->
      exists r msg recipients,
        tr = Persist r :: map (fun sid => Emit sid "message" msg) recipients
        /\ (forall c, conversationId = VStr c ->
                      forall sid, In sid recipients <-> In (sid, VStr c) h)
        /\ s' = set_messages s (messages s ++ [r])
        /\ prop "id" msg = to_js (m_id r)
        /\ prop "conversationId" msg = conversationId
        /\ prop "content" msg = content
        /\ prop "senderId" msg = senderId
        /\ (scalar conversationId = true -> scalar senderId = true ->
            scalar content = true ->
            prop "createdAt" msg = to_js (m_createdAt r)
            /\ (forall c, conversationId = VStr c ->
                          prop "conversationId" msg = to_js (m_conversationId r))
            /\ (forall c, content = VStr c ->
                          prop "content" msg = to_js (m_content r))
            /\ (forall c, senderId = VStr c -> c <> "" ->
                          prop "senderId" msg = to_js (m_senderId r))
            /\ (truthy senderId = false -> m_senderId r = SqlText "anon"))).
Proof.
  intros H conversationId senderId content.
  destruct (jsval_nullish payload) as [N|[NU NN]].
  { assert (E : on_message d payload h s = ([], s, Some DestructureTypeError))
      by (destruct N; subst; reflexivity).
    rewrite E in H. inversion H. subst. split; [auto | discriminate]. }
  rewrite (on_message_run d payload h s NU NN) in H.
  fold conversationId senderId content in H.
  destruct (bind_all _) as [cells|e] eqn:B;
    [|inversion H; subst; split; [auto | discriminate]].
  destruct cells as [|c1 [|c2 [|c3 [|c4 [|c5 [|x cells]]]]]];
    try (inversion H; subst; split; [auto | discriminate]).
  destruct (taken m_id (text_affinity c1) (messages s));
    inversion H; subst; clear H; (split; [auto; congruence | try discriminate]).
  intros _.
  pose proof B as B'. peel_binds B'. simpl in B0. inversion B0. subst c1. clear B0.
  eexists. eexists. exists (io_to conversationId h).
  split; [reflexivity|]. split.
  { intros c Ec sid. rewrite Ec. cbn [io_to]. apply room_members_In. }
  split; [reflexivity|].
  cbn [prop assoc String.eqb Ascii.eqb Bool.eqb m_id m_createdAt m_conversationId
       m_content m_senderId message_row_of to_js text_affinity].
  repeat (split; [reflexivity|]).
  intros Sr Ss Sc. clear B'. peel_binds B.
  simpl in B4. inversion B4. subst c5. clear B4 B0.
  cbn [numeric_affinity to_js now num_of_Z].
  repeat split.
  - intros c Ec. rewrite Ec in B1 |- *. inversion B1. reflexivity.
  - intros c Ec. rewrite Ec in B3 |- *. inversion B3. reflexivity.
  - intros c Ec Nc. rewrite Ec in B2 |- *. unfold js_or in B2. simpl in B2.
    apply String.eqb_neq in Nc. rewrite Nc in B2. simpl in B2. inversion B2.
    reflexivity.
  - intro T. unfold js_or in B2. rewrite T in B2. inversion B2. reflexivity.
Qed.

Lemma in_room_adapter_add (sid room : string) (h : hub) :
  in_room sid (VStr room) (adapter_add sid (VStr room) h) = true.
Proof.
  unfold adapter_add. destruct (in_room sid (VStr room) h) eqn:I; [exact I|].
  unfold in_room. rewrite existsb_app. simpl.
  rewrite !String.eqb_refl. simpl. apply orb_true_r.
Qed.

(** joining a room twice is joining it once *)
Lemma adapter_add_idempotent (sid room : string) (h : hub) :
  adapter_add sid (VStr room) (adapter_add sid (VStr room) h)
  = adapter_add sid (VStr room) h.
Proof.
  unfold adapter_add at 1. rewrite in_room_adapter_add. reflexivity.
Qed.

(** a socket that disconnected is in no room *)
Lemma on_disconnect_leaves_all (sid : string) (room : jsval) (h : hub) :
  ~ In sid (room_members room (on_disconnect sid h)).
Proof.
  unfold room_members, on_disconnect. intro I.
  apply in_map_iff in I. destruct I as ([sid' r] & E & I). simpl in E. subst sid'.
  apply filter_In in I. destruct I as [I _].
  apply filter_In in I. destruct I as [_ N]. simpl in N.
  rewrite String.eqb_refl in N. discriminate.
Qed.


End Properties.

(** * Further properties of the routes *)

Section Coverage.

Context {L : Libraries}.

Local Open Scope list_scope.

Ltac scalar_tac :=
  first [ assumption
        | reflexivity
        | apply scalar_to_js
        | (apply scalar_js_or; scalar_tac)
        | (eapply bind_scalar; eassumption)
        | match goal with
          | |- scalar (if ?b then _ else _) = true => destruct b; reflexivity
          end ].

Ltac peel_binds H :=
  unfold bind_all in H;
  repeat match type of H with
         | bind_args _ (?v :: _) = Ok _ =>
             let S := fresh "S" in
             assert (S : scalar v = true) by scalar_tac;
             let c := fresh "c" in
             let cs := fresh "cs" in
             let E := fresh "E" in
             let B := fresh "B" in
             let H' := fresh "H" in
             destruct (bind_args_cons _ _ _ _ S H) as (c & cs & E & B & H');
             clear H S; rename H' into H;
             try discriminate E;
             first [ injection E as ? ?; subst c cs | subst ]
         | bind_args _ [] = Ok _ =>
             apply bind_args_nil in H; try discriminate H; subst
         end.

Ltac break_match :=
  match goal with
  | |- context [match ?x with _ => _ end] => destruct x eqn:?
  end.

Ltac handler_cases := cbv beta delta [rbind]; repeat break_match.

(** ** Sorting *)

Lemma ascii_compare_trans (x y z : ascii) :
  Ascii.compare x y <> Gt -> Ascii.compare y z <> Gt ->
  Ascii.compare x z <> Gt
  /\ (Ascii.compare x z = Eq -> Ascii.compare x y = Eq /\ Ascii.compare y z = Eq).
Proof.
  unfold Ascii.compare.
  destruct (N.compare_spec (N_of_ascii x) (N_of_ascii y)) as [E|E|E];
    destruct (N.compare_spec (N_of_ascii y) (N_of_ascii z)) as [F|F|F];
    intros A B; try congruence;
    destruct (N.compare_spec (N_of_ascii x) (N_of_ascii z)) as [G|G|G];
    try (exfalso; lia);
    (split; [congruence | intro Q; try discriminate Q; split; congruence]).
Qed.

Lemma string_leb_trans (a b c : string) :
  String.leb a b = true -> String.leb b c = true -> String.leb a c = true.
Proof.
  unfold String.leb.
  assert (H : forall a b c, String.compare a b <> Gt -> String.compare b c <> Gt ->
                            String.compare a c <> Gt).
  { clear. induction a as [|x a IH]; intros [|y b] [|z c]; simpl;
      try congruence.
    destruct (Ascii.compare x y) eqn:XY; try congruence;
      destruct (Ascii.compare y z) eqn:YZ; try congruence; intros A B;
      assert (XYn : Ascii.compare x y <> Gt) by congruence;
      assert (YZn : Ascii.compare y z <> Gt) by congruence;
      destruct (ascii_compare_trans x y z XYn YZn) as [N E];
      destruct (Ascii.compare x z) eqn:XZ; try congruence;
      try (destruct (E eq_refl); congruence).
    eapply IH; eassumption. }
  intros A B. specialize (H a b c).
  destruct (String.compare a b); try discriminate;
    destruct (String.compare b c); try discriminate;
    destruct (String.compare a c); try reflexivity;
    exfalso; apply H; congruence.
Qed.

Lemma string_leb_total (a b : string) : String.leb a b = false -> String.leb b a = true.
Proof.
  intro H. destruct (String.leb_total a b) as [T|T]; [congruence | exact T].
Qed.

Lemma Qle_bool_total (x y : Q) : Qle_bool x y = false -> Qle_bool y x = true.
Proof.
  intro H. apply Qle_bool_iff. destruct (Qlt_le_dec y x) as [A|A].
  - apply Qlt_le_weak. exact A.
  - apply Qle_bool_iff in A. congruence.
Qed.

Lemma Qle_bool_trans (x y z : Q) :
  Qle_bool x y = true -> Qle_bool y z = true -> Qle_bool x z = true.
Proof.
  rewrite !Qle_bool_iff. apply Qle_trans.
Qed.

Lemma sql_leb_total (a b : sqlval) : sql_leb a b = false -> sql_leb b a = true.
Proof.
  destruct a, b; simpl; try congruence; try reflexivity.
  - apply Qle_bool_total.
  - apply string_leb_total.
Qed.

Lemma sql_leb_trans (a b c : sqlval) :
  sql_leb a b = true -> sql_leb b c = true -> sql_leb a c = true.
Proof.
  destruct a, b, c; simpl; try congruence; try reflexivity.
  - apply Qle_bool_trans.
  - apply string_leb_trans.
Qed.

Lemma insert_by_perm {R : Type} (before : R -> R -> bool) (x : R) (l : list R) :
  Permutation (insert_by before x l) (x :: l).
Proof.
  induction l as [|y l IH]; simpl; [apply Permutation_refl|].
  destruct (before x y); [apply Permutation_refl|].
  eapply Permutation_trans; [apply perm_skip; exact IH | apply perm_swap].
Qed.

Lemma order_by_perm {R : Type} (before : R -> R -> bool) (l : list R) :
  Permutation (order_by before l) l.
Proof.
  induction l as [|x l IH]; simpl; [apply perm_nil|].
  eapply Permutation_trans; [apply insert_by_perm | apply perm_skip; exact IH].
Qed.

Lemma insert_by_sorted {R : Type} (before : R -> R -> bool) (x : R) (l : list R) :
  (forall a b, before a b = false -> before b a = true) ->
  (forall a b c, before a b = true -> before b c = true -> before a c = true) ->
  StronglySorted (fun a b => before a b = true) l ->
  StronglySorted (fun a b => before a b = true) (insert_by before x l).
Proof.
  intros Tot Tr. induction l as [|y l IH]; simpl; intro S.
  - constructor; constructor.
  - inversion S as [|? ? S' F]; subst. destruct (before x y) eqn:B.
    + constructor; [exact S|]. constructor; [exact B|].
      eapply Forall_impl; [|exact F]. intros z Hz. simpl in Hz. eapply Tr; eassumption.
    + constructor; [apply IH; exact S'|].
      apply Forall_forall. intros z I.
      apply (Permutation_in _ (insert_by_perm before x l)) in I.
      destruct I as [<-|I]; [apply Tot; exact B|].
      rewrite Forall_forall in F. apply F. exact I.
Qed.

Lemma order_by_sorted {R : Type} (before : R -> R -> bool) (l : list R) :
  (forall a b, before a b = false -> before b a = true) ->
  (forall a b c, before a b = true -> before b c = true -> before a c = true) ->
  StronglySorted (fun a b => before a b = true) (order_by before l).
Proof.
  intros Tot Tr. induction l as [|x l IH]; simpl; [constructor|].
  apply insert_by_sorted; assumption.
Qed.

(** ** Registration, login and tokens together *)

(** Everything a successful registration did. *)
(** X1: whoever registered with an email that is a string or a number can
    log in: with the same email and password the login is answered 200 with a
    token and the user registered, and writes nothing.  bcrypt's contract,
    that a password matches its own hash, is the hypothesis. *)
Theorem register_then_login (d1 d2 : draw) (body body' : jsval) (s s1 : db)
  (b : jsval) :
  scalar (prop "email" (js_or body (VObj []))) = true ->
  post_api_auth_register d1 body s = (Json 200 b, s1) ->
  prop "email" (js_or body' (VObj [])) = prop "email" (js_or body (VObj [])) ->
  prop "password" (js_or body' (VObj [])) = prop "password" (js_or body (VObj [])) ->
  (forall p, bcrypt_compare p (bcrypt_hash (d_salt d1) p) = true) ->
  exists user,
    post_api_auth_login d2 body' s1
    = (Json 200 (VObj [("token", VStr (signToken d2 user)); ("user", user)]), s1)
    /\ prop "id" user = VStr (uid d1)
    /\ prop "role" user = VStr "user"
    /\ prop "password" user = VUndef.
Proof.
  intros Se R Ee Ep Hb.
  apply (post_api_auth_register_stored _ _ _ _ _ Se) in R.
  destruct R as (p & ce & c4 & c5 & c6 & P & Te & Tp & Be & Ki & Ke & _ & ->).
  unfold post_api_auth_login. rewrite Ee, Ep, Te, Tp. cbn [negb orb].
  rewrite (bind_all_one _ _ Be).
  destruct (truthy_bound_text _ _ Te Be) as [t Et].
  unfold select_user_by_email. cbn [users set_users].
  rewrite (find_app_last _ (users s) _ Ke).
  2:{ cbn [u_email user_row_of]. rewrite Et. apply sql_eqb_text_refl. }
  cbn [u_password user_row_of text_affinity to_js]. rewrite P.
  cbn [comparePassword]. rewrite Hb. cbn [negb].
  eexists. split; [reflexivity|]. repeat split.
Qed.

Lemma bearer_not_empty (token : string) :
  String.eqb ("Bearer " ++ token) "" = false.
Proof. reflexivity. Qed.

(** the header the pages send gives the token back *)
Lemma strip_bearer (token : string) :
  replace_first "Bearer " "" ("Bearer " ++ token) = token.
Proof. destruct token; reflexivity. Qed.

(** X2: the token a registration returns authenticates as the user it
    created: the middleware passes on that user's public row, and [/api/me]
    returns it.  The hypotheses are jsonwebtoken's contract for a token that
    has not expired: it verifies to a payload with the subject signed. *)
Theorem register_token_authenticates (d1 d2 : draw) (body : jsval) (s s1 : db)
  (b data : jsval) :
  post_api_auth_register d1 body s = (Json 200 b, s1) ->
  jwt_verify (d_clock d2)
    (jwt_sign (d_clock d1) (VObj [("sub", VStr (uid d1)); ("role", VStr "user")]))
  = Ok data ->
  truthy data = true ->
  prop "sub" data = VStr (uid d1) ->
  exists token r,
    prop "token" b = VStr token
    /\ users s1 = users s ++ [r]
    /\ u_id r = SqlText (uid d1)
    /\ authMiddleware d2 (Some ("Bearer " ++ token)%string) s1 = inr (public_user r)
    /\ with_auth d2 (Some ("Bearer " ++ token)%string) s1
         (fun user => (get_api_me user, s1))
       = (Json 200 (VObj [("user", public_user r)]), s1)
    /\ prop "password" (public_user r) = VUndef.
Proof.
  intros R V T S.
  apply post_api_auth_register_ok in R.
  destruct R as (p & c2 & c3 & c4 & c5 & c6 & P & Te & Tp & _ & Ki & _ & _ & -> & ->).
  eexists. eexists. split; [reflexivity|]. split; [reflexivity|].
  split; [reflexivity|].
  assert (A : authMiddleware d2
                (Some ("Bearer " ++ jwt_sign (d_clock d1)
                          (VObj [("sub", VStr (uid d1)); ("role", VStr "user")]))%string)
                (set_users s
                   (users s ++ [user_row_of (SqlText (uid d1)) c2 c3 c4 c5 None c6]))
              = inr (public_user (user_row_of (SqlText (uid d1)) c2 c3 c4 c5 None c6))).
  { unfold authMiddleware. rewrite bearer_not_empty, strip_bearer.
    unfold verifyToken. rewrite V, T. cbn [negb]. rewrite S.
    cbn [bind_all bind_args bind rbind].
    unfold select_user_by_id. cbn [users set_users text_affinity].
    rewrite (find_app_last _ (users s) _ Ki); [reflexivity|].
    cbn [u_id user_row_of text_affinity]. apply sql_eqb_text_refl. }
  split; [exact A|]. split; [|reflexivity].
  unfold with_auth. rewrite A. reflexivity.
Qed.

Lemma post_api_auth_register_cases (d : draw) (body : jsval) (s : db) :
  post_api_auth_register d body s = (Json 400 (err "missing email or password"), s)
  \/ post_api_auth_register d body s = (Json 400 (err "email or username exists"), s)
  \/ post_api_auth_register d body s = (Json 500 (err "server error"), s)
  \/ exists b s', post_api_auth_register d body s = (Json 200 b, s').
Proof.
  unfold post_api_auth_register. handler_cases; eauto 10.
Qed.

(** X3: a registration is always answered, with status 200, 400 or 500; only
    a 200 writes, and what it writes is one users row with the key [uid] drew
    and role 'user', whose password column is the bcrypt hash of the password
    sent when the email sent is not an array or an object; a password that is
    not a string is answered 500 and nothing is stored. *)
Theorem register_writes_one_row_or_nothing (d : draw) (body : jsval) (s : db) :
  (exists st b,
      fst (post_api_auth_register d body s) = Json st b
      /\ (st = 200 \/ st = 400 \/ st = 500))
  /\ (forall b,
         fst (post_api_auth_register d body s) = Json 200 b ->
         exists r p,
           prop "password" (js_or body (VObj [])) = VStr p
           /\ u_id r = SqlText (uid d)
           /\ u_role r = SqlText "user"
           /\ (scalar (prop "email" (js_or body (VObj []))) = true ->
               u_password r = SqlText (bcrypt_hash (d_salt d) p))
           /\ snd (post_api_auth_register d body s) = set_users s (users s ++ [r]))
  /\ (forall st b,
         fst (post_api_auth_register d body s) = Json st b -> st <> 200 ->
         snd (post_api_auth_register d body s) = s)
  /\ (truthy (prop "email" (js_or body (VObj []))) = true ->
      truthy (prop "password" (js_or body (VObj []))) = true ->
      (forall p, prop "password" (js_or body (VObj [])) <> VStr p) ->
      post_api_auth_register d body s = (Json 500 (err "server error"), s)).
Proof.
  split; [|split; [|split]].
  - destruct (post_api_auth_register_cases d body s)
      as [E|[E|[E|(b & s' & E)]]]; rewrite E; simpl; eauto 10.
  - intros b H. destruct (post_api_auth_register d body s) as [rep s'] eqn:E.
    simpl in H. subst rep. apply post_api_auth_register_ok in E.
    destruct E as (p & c2 & c3 & c4 & c5 & c6 & P & _ & _ & B & _ & _ & _ & -> & _).
    exists (user_row_of (SqlText (uid d)) c2 c3 c4 c5 None c6), p.
    split; [exact P|]. split; [reflexivity|]. split; [reflexivity|].
    split; [|reflexivity].
    intro Se. peel_binds B. simpl in B2. inversion B2. subst. reflexivity.
  - intros st b H N.
    destruct (post_api_auth_register_cases d body s)
      as [E|[E|[E|(b' & s' & E)]]]; rewrite E in H |- *; try reflexivity.
    simpl in H. inversion H. congruence.
  - intros Te Tp N. unfold post_api_auth_register. rewrite Te, Tp. cbn [negb orb].
    destruct (prop "password" (js_or body (VObj []))) as [| | | |p| |] eqn:P;
      try reflexivity.
    exfalso. apply (N p). reflexivity.
Qed.

(** ** The users table keeps its keys *)

Lemma users_keys_ok_snoc (t : list user_row) (r : user_row) :
  users_keys_ok t = true ->
  is_text (u_id r) = true ->
  taken u_id (u_id r) t = false ->
  taken u_email (u_email r) t = false ->
  taken u_username (u_username r) t = false ->
  users_keys_ok (t ++ [r]) = true.
Proof.
  intros W Ti. induction t as [|a t IH]; simpl.
  - intros _ _ _. rewrite Ti. reflexivity.
  - intros Ki Ke Ku.
    apply orb_false_iff in Ki. destruct Ki as [Kia Ki].
    apply orb_false_iff in Ke. destruct Ke as [Kea Ke].
    apply orb_false_iff in Ku. destruct Ku as [Kua Ku].
    simpl in W. apply andb_true_iff in W. destruct W as [W Wt].
    rewrite (IH Wt Ki Ke Ku), andb_true_r.
    repeat (apply andb_true_iff in W; destruct W as [W ?]).
    repeat (apply andb_true_iff; split); try assumption;
      apply negb_true_iff; unfold taken in *; rewrite existsb_app; simpl;
      rewrite orb_false_r; apply orb_false_iff; (split; [apply negb_true_iff; assumption|]);
      rewrite sql_eqb_sym; assumption.
Qed.

Lemma insert_user_keeps_keys (r : user_row) (s s' : db) :
  users_keys_ok (users s) = true ->
  is_text (u_id r) = true ->
  insert_user r s = Ok s' -> users_keys_ok (users s') = true.
Proof.
  intros W Ti I. apply insert_user_ok in I.
  destruct I as (-> & Ki & Ke & Ku). cbn [users set_users].
  apply users_keys_ok_snoc; assumption.
Qed.

Lemma post_api_auth_register_keeps_keys (d : draw) (body : jsval) (s : db) :
  users_keys_ok (users s) = true ->
  users_keys_ok (users (snd (post_api_auth_register d body s))) = true.
Proof.
  intro W.
  destruct (post_api_auth_register_cases d body s)
    as [E|[E|[E|(b & s' & E)]]]; rewrite E; cbn [snd]; try exact W.
  apply post_api_auth_register_ok in E.
  destruct E as (p & c2 & c3 & c4 & c5 & c6 & _ & _ & _ & _ & Ki & Ke & Ku & -> & _).
  cbn [users set_users]. apply users_keys_ok_snoc; try assumption; reflexivity.
Qed.

Lemma get_setup_admin_keeps_keys (d : draw) (s : db) :
  users_keys_ok (users s) = true ->
  users_keys_ok (users (snd (get_setup_admin d s))) = true.
Proof.
  intro W. unfold get_setup_admin.
  destruct (find _ (users s)); [exact W|].
  cbn [hashPassword rbind bind_all bind_args bind now num_of_Z].
  match goal with
  | |- context [insert_user ?r s] => destruct (insert_user r s) as [s1|e] eqn:I
  end; cbn [snd]; [|exact W].
  eapply insert_user_keeps_keys; [exact W | | exact I]; reflexivity.
Qed.

(** X4: in every state the server can reach, each user row has a text id
    that no other row has, and an email and a username that no other row has
    (a null one apart: NULL is equal to nothing). *)
Theorem reachable_users_keys_ok (st : state) :
  reachable st -> users_keys_ok (users (st_db st)) = true.
Proof.
  induction 1 as [|d q st R IH]; [reflexivity|].
  destruct q; cbn [serve st_db]; try exact IH.
  - apply post_api_auth_register_keeps_keys. exact IH.
  - rewrite post_api_auth_login_effect. exact IH.
  - apply get_setup_admin_keeps_keys. exact IH.
  - destruct (with_auth_effect d authorization (st_db st)
                (fun u => post_api_stories d u body (st_db st)))
      as [->|(row & _ & _ & ->)]; [exact IH|].
    destruct (post_api_stories_effect d (public_user row) body (st_db st))
      as [->|(r & ->)]; exact IH.
  - destruct (with_auth_effect d authorization (st_db st)
                (fun u => delete_api_stories_id u id (st_db st)))
      as [->|(row & _ & _ & ->)]; [exact IH|].
    destruct (delete_api_stories_id_effect (public_user row) id (st_db st))
      as [->|(t & ->)]; exact IH.
  - destruct (with_auth_effect d authorization (st_db st)
                (fun u => post_api_stories_id_favorite d u id (st_db st)))
      as [->|(row & _ & T & ->)]; [exact IH|].
    rewrite post_api_stories_id_favorite_users. exact IH.
  - destruct (with_auth_effect d authorization (st_db st)
                (fun u => post_api_checkout d u body (st_db st)))
      as [->|(row & _ & _ & ->)]; [exact IH|].
    rewrite post_api_checkout_effect. exact IH.
  - destruct (with_auth_effect d authorization (st_db st)
                (fun u => post_api_admin_announce d u body (st_db st)))
      as [->|(row & _ & _ & ->)]; [exact IH|].
    destruct (post_api_admin_announce_effect d (public_user row) body (st_db st))
      as [->|(r & ->)]; exact IH.
  - destruct (on_message_effect d payload (st_hub st) (st_db st)) as [->|(r & ->)];
      exact IH.
Qed.

Lemma users_ok_password (t : list user_row) (r : user_row) :
  users_ok t = true -> In r t -> is_text (u_password r) = true.
Proof.
  induction t as [|a t IH]; simpl; [tauto|].
  intros W [->|I].
  - repeat (apply andb_true_iff in W; destruct W as [W ?]). assumption.
  - apply IH; [|exact I]. apply andb_true_iff in W. tauto.
Qed.

(** X5: on a users table whose rows hold a text id, a text email and a text
    password ([users_ok]), a login that sends email and
    password as strings is always answered, with 200, 400 or 401: the
    handler has no catch, but neither the SELECT nor bcrypt has anything to
    throw at. *)
Theorem login_with_strings_is_answered (d : draw) (body : jsval) (s : db)
  (e p : string) :
  users_ok (users s) = true ->
  prop "email" (js_or body (VObj [])) = VStr e ->
  prop "password" (js_or body (VObj [])) = VStr p ->
  exists st b,
    post_api_auth_login d body s = (Json st b, s)
    /\ (st = 200 \/ st = 400 \/ st = 401).
Proof.
  intros W E P. unfold post_api_auth_login. rewrite E, P.
  destruct (negb (truthy (VStr e)) || negb (truthy (VStr p))); [eauto 10|].
  cbn [bind_all bind_args bind rbind].
  destruct (select_user_by_email (SqlText e) s) as [row|] eqn:S;
    [|eauto 10].
  apply find_In in S. destruct S as [I _].
  pose proof (users_ok_password _ _ W I) as T.
  destruct (u_password row) as [| |h]; try discriminate.
  cbn [to_js comparePassword]. destruct (bcrypt_compare p h); cbn [negb]; eauto 10.
Qed.

(** ** Stories: create, get, delete together *)

Lemma js_or_falsy (a b : jsval) : truthy a = false -> js_or a b = b.
Proof. unfold js_or. intros ->. reflexivity. Qed.

Lemma js_or_truthy (a b : jsval) : truthy a = true -> js_or a b = a.
Proof. unfold js_or. intros ->. reflexivity. Qed.

(** With a title, an excerpt and a body that are each one value, the
    columns up to [tags] hold what was sent for them. *)
Lemma post_api_stories_head (d : draw) (user body : jsval) (s s' : db) (b : jsval) :
  scalar (prop "title" (js_or body (VObj []))) = true ->
  scalar (prop "excerpt" (js_or body (VObj []))) = true ->
  scalar (prop "body" (js_or body (VObj []))) = true ->
  post_api_stories d user body s = (Json 200 b, s') ->
  exists ca ct ce cb c7 c8 c9,
    bind (prop "title" (js_or body (VObj []))) = Ok ct
    /\ bind (prop "body" (js_or body (VObj []))) = Ok cb
    /\ taken s_id (SqlText (uid d)) (stories s) = false
    /\ s' = set_stories s
              (stories s ++
                 [story_row_of (SqlText (uid d)) ca ct ce cb
                    (SqlText (JSON_stringify
                                (js_or (prop "tags" (js_or body (VObj []))) (VArr []))))
                    c7 c8 c9])
    /\ b = story_obj
             (story_row_of (SqlText (uid d)) ca ct ce cb
                (SqlText (JSON_stringify
                            (js_or (prop "tags" (js_or body (VObj []))) (VArr []))))
                c7 c8 c9).
Proof.
  intros St Se Sb H. apply post_api_stories_ok in H.
  destruct H as (ca & c3 & c4 & c5 & c6 & c7 & c8 & c9 & _ & _ & _ & B & K & -> & ->).
  peel_binds B. cbn [bind] in B5. inversion B5. subst.
  exists ca, c3, c4, c5, c7, c8, c9. repeat split; assumption.
Qed.

Lemma find_filter_keep {A : Type} (f g : A -> bool) (l : list A) :
  (forall x, f x = true -> g x = true) -> find f (filter g l) = find f l.
Proof.
  intro H. induction l as [|a l IH]; simpl; [reflexivity|].
  destruct (g a) eqn:G; simpl.
  - rewrite IH. reflexivity.
  - destruct (f a) eqn:F; [|exact IH]. rewrite (H a F) in G. discriminate.
Qed.

(** X7: a user who creates a story and then deletes it leaves the database
    as it was before the create. *)
Theorem create_then_delete_restores (d : draw) (user body : jsval) (u : string)
  (s s' : db) (b : jsval) :
  prop "id" user = VStr u ->
  post_api_stories d user body s = (Json 200 b, s') ->
  delete_api_stories_id user (uid d) s' = (Json 200 (VObj [("ok", VBool true)]), s).
Proof.
  intros U C. apply post_api_stories_ok in C.
  destruct C as (ca & c3 & c4 & c5 & c6 & c7 & c8 & c9 & _ & _ & Ba & _ & Kf & -> & _).
  rewrite U in Ba. inversion Ba. subst ca.
  unfold delete_api_stories_id, select_story.
  cbn [stories set_stories text_affinity].
  rewrite (find_app_last _ (stories s) _ Kf)
    by (cbn [s_id story_row_of text_affinity]; apply sql_eqb_text_refl).
  cbn [s_authorId story_row_of text_affinity to_js]. rewrite U.
  cbn [strict_eq]. rewrite String.eqb_refl. cbn [negb andb].
  f_equal. rewrite filter_app. cbn [filter s_id story_row_of text_affinity].
  rewrite sql_eqb_text_refl. cbn [negb]. rewrite app_nil_r.
  rewrite filter_all.
  - destruct s; reflexivity.
  - intros x I. apply negb_true_iff. unfold taken in Kf.
    apply (existsb_false_In _ _ _ Kf I).
Qed.

(** X9: the create handler answers 400 "missing title/body" exactly when the
    title or the body is missing or falsy, and then writes nothing. *)
Theorem create_rejects_missing_title_or_body (d : draw) (user body : jsval) (s : db) :
  (fst (post_api_stories d user body s) = Json 400 (err "missing title/body")
   <-> (truthy (prop "title" (js_or body (VObj []))) = false
        \/ truthy (prop "body" (js_or body (VObj []))) = false))
  /\ (fst (post_api_stories d user body s) = Json 400 (err "missing title/body") ->
      snd (post_api_stories d user body s) = s).
Proof.
  unfold post_api_stories.
  destruct (truthy (prop "title" (js_or body (VObj [])))) eqn:Tt;
    [destruct (truthy (prop "body" (js_or body (VObj [])))) eqn:Tb|];
    cbn [negb orb fst snd]; try (split; [split; auto | reflexivity]).
  match goal with
  | |- context [rbind (bind ?v) ?k] =>
      destruct (rbind (bind v) k) as [s1|e]
  end.
  - destruct (select_story (SqlText (uid d)) s1); cbn [fst snd];
      (split; [split; [discriminate | intros [H|H]; discriminate] | discriminate]).
  - cbn [fst snd].
    split; [split; [discriminate | intros [H|H]; discriminate] | discriminate].
Qed.

(** X10: what a stored story gets that the request did not choose: the
    author is the requester, the like counter is 0 and the key is the one
    [uid] drew; and when title, excerpt and body are none of them an array or
    an object, a missing type is 'leia' and a missing excerpt is the empty
    string. *)
Theorem create_fills_defaults (d : draw) (user body : jsval) (u : string)
  (s s' : db) (b : jsval) :
  prop "id" user = VStr u ->
  post_api_stories d user body s = (Json 200 b, s') ->
  exists r,
    stories s' = stories s ++ [r]
    /\ s_id r = SqlText (uid d)
    /\ s_authorId r = SqlText u
    /\ s_likes r = SqlNum (inject_Z 0)
    /\ (scalar (prop "title" (js_or body (VObj []))) = true ->
        scalar (prop "excerpt" (js_or body (VObj []))) = true ->
        scalar (prop "body" (js_or body (VObj []))) = true ->
        (truthy (prop "type" (js_or body (VObj []))) = false ->
         s_type r = SqlText "leia")
        /\ (truthy (prop "excerpt" (js_or body (VObj []))) = false ->
            s_excerpt r = SqlText "")).
Proof.
  intros U C. apply post_api_stories_ok in C.
  destruct C as (ca & c3 & c4 & c5 & c6 & c7 & c8 & c9 & _ & _ & Ba & B & _ & -> & _).
  rewrite U in Ba. inversion Ba. subst ca.
  eexists. split; [reflexivity|]. cbn [s_id s_authorId s_likes s_type s_excerpt
                                       story_row_of text_affinity].
  repeat (split; [reflexivity|]).
  intros St Se Sb. split.
  - intro T. rewrite (js_or_falsy _ (VStr "leia") T) in B. peel_binds B.
    simpl in B6. inversion B6. reflexivity.
  - intro T. peel_binds B. rewrite (js_or_falsy _ _ T) in B3. inversion B3.
    reflexivity.
Qed.

(** ** The stories table keeps its shape *)

Lemma post_api_stories_cases (d : draw) (user body : jsval) (s : db) :
  post_api_stories d user body s = (Json 400 (err "missing title/body"), s)
  \/ (exists e, post_api_stories d user body s = (Uncaught e, s))
  \/ exists b s', post_api_stories d user body s = (Json 200 b, s').
Proof.
  unfold post_api_stories.
  destruct (negb _ || negb _); [auto|].
  match goal with
  | |- context [rbind (bind ?v) ?k] =>
      destruct (rbind (bind v) k) as [s1|e]
  end; [|eauto].
  destruct (select_story (SqlText (uid d)) s1); eauto 10.
Qed.

Lemma stories_ok_snoc (t : list story_row) (r : story_row) :
  stories_ok t = true ->
  is_text (s_id r) = true ->
  taken s_id (s_id r) t = false ->
  sql_eqb (s_likes r) (SqlNum (inject_Z 0)) = true ->
  stories_ok (t ++ [r]) = true.
Proof.
  intros W Ti. induction t as [|a t IH]; simpl.
  - intros _ Li. rewrite Ti, Li. reflexivity.
  - intros Ki Li. apply orb_false_iff in Ki. destruct Ki as [Kia Ki].
    simpl in W. apply andb_true_iff in W. destruct W as [W Wt].
    rewrite (IH Wt Ki Li), andb_true_r.
    repeat (apply andb_true_iff in W; destruct W as [W ?]).
    repeat (apply andb_true_iff; split); try assumption.
    apply negb_true_iff. unfold taken in *. rewrite existsb_app. simpl.
    rewrite orb_false_r. apply orb_false_iff.
    split; [apply negb_true_iff; assumption | rewrite sql_eqb_sym; assumption].
Qed.

Lemma stories_ok_filter (f : story_row -> bool) (t : list story_row) :
  stories_ok t = true -> stories_ok (filter f t) = true.
Proof.
  induction t as [|a t IH]; simpl; [auto|].
  intro W. apply andb_true_iff in W. destruct W as [W Wt].
  destruct (f a); [|auto]. simpl. rewrite (IH Wt), andb_true_r.
  repeat (apply andb_true_iff in W; destruct W as [W ?]).
  repeat (apply andb_true_iff; split); try assumption.
  apply negb_true_iff. apply taken_filter. apply negb_true_iff. assumption.
Qed.

Lemma post_api_stories_keeps_ok (d : draw) (user body : jsval) (s : db) :
  stories_ok (stories s) = true ->
  stories_ok (stories (snd (post_api_stories d user body s))) = true.
Proof.
  intro W.
  destruct (post_api_stories_cases d user body s) as [E|[(e & E)|(b & s' & E)]];
    rewrite E; cbn [snd]; try exact W.
  apply post_api_stories_ok in E.
  destruct E as (ca & c3 & c4 & c5 & c6 & c7 & c8 & c9 & _ & _ & _ & _ & Kf & -> & _).
  cbn [stories set_stories]. apply stories_ok_snoc; try assumption; reflexivity.
Qed.

Lemma delete_api_stories_id_keeps_ok (user : jsval) (id : string) (s : db) :
  stories_ok (stories s) = true ->
  stories_ok (stories (snd (delete_api_stories_id user id s))) = true.
Proof.
  intro W. unfold delete_api_stories_id.
  destruct (select_story (SqlText id) s); [|exact W].
  destruct (negb _ && negb _); [exact W|].
  cbn [snd stories set_stories]. apply stories_ok_filter. exact W.
Qed.

(** X11: in every state the server can reach, each story has a text id that
    no other story has, and a like counter that is still 0: no route ever
    changes it. *)
Theorem reachable_stories_ok (st : state) :
  reachable st -> stories_ok (stories (st_db st)) = true.
Proof.
  induction 1 as [|d q st R IH]; [reflexivity|].
  destruct q; cbn [serve st_db]; try exact IH.
  - destruct (post_api_auth_register_effect d body (st_db st)) as [->|(r & _ & ->)];
      exact IH.
  - rewrite post_api_auth_login_effect. exact IH.
  - destruct (get_setup_admin_effect d (st_db st)) as [->|(_ & r & ->)]; exact IH.
  - destruct (with_auth_effect d authorization (st_db st)
                (fun u => post_api_stories d u body (st_db st)))
      as [->|(row & _ & _ & ->)]; [exact IH|].
    apply post_api_stories_keeps_ok. exact IH.
  - destruct (with_auth_effect d authorization (st_db st)
                (fun u => delete_api_stories_id u id (st_db st)))
      as [->|(row & _ & _ & ->)]; [exact IH|].
    apply delete_api_stories_id_keeps_ok. exact IH.
  - destruct (with_auth_effect d authorization (st_db st)
                (fun u => post_api_stories_id_favorite d u id (st_db st)))
      as [->|(row & _ & T & ->)]; [exact IH|].
    assert (F : stories (snd (post_api_stories_id_favorite d (public_user row) id
                                (st_db st))) = stories (st_db st)).
    { destruct (u_id row) as [| |u] eqn:U; try discriminate.
      assert (P : prop "id" (public_user row) = VStr u)
        by (unfold public_user; simpl; rewrite U; reflexivity).
      destruct (post_api_stories_id_favorite_cases d _ u id (st_db st) P)
        as [(r & _ & E) | (_ & [(_ & E) | (_ & E)])]; rewrite E; reflexivity. }
    rewrite F. exact IH.
  - destruct (with_auth_effect d authorization (st_db st)
                (fun u => post_api_checkout d u body (st_db st)))
      as [->|(row & _ & _ & ->)]; [exact IH|].
    rewrite post_api_checkout_effect. exact IH.
  - destruct (with_auth_effect d authorization (st_db st)
                (fun u => post_api_admin_announce d u body (st_db st)))
      as [->|(row & _ & _ & ->)]; [exact IH|].
    destruct (post_api_admin_announce_effect d (public_user row) body (st_db st))
      as [->|(r & ->)]; exact IH.
  - destruct (on_message_effect d payload (st_hub st) (st_db st)) as [->|(r & ->)];
      exact IH.
Qed.

(** ** One toggle *)

(** X13: on a well-shaped favorites table and with a fresh key, one toggle
    flips whether the story is a favorite of the user, and changes that for
    no other user and no other story. *)
Theorem toggle_flips_one_pair (d : draw) (user : jsval) (u id : string) (s : db) :
  prop "id" user = VStr u ->
  favorites_ok (favorites s) = true ->
  taken f_id (SqlText (uid d)) (favorites s) = false ->
  is_favorite u id (snd (post_api_stories_id_favorite d user id s))
  = negb (is_favorite u id s)
  /\ (forall u' i',
         u' <> u \/ i' <> id ->
         is_favorite u' i' (snd (post_api_stories_id_favorite d user id s))
         = is_favorite u' i' s)
  /\ users (snd (post_api_stories_id_favorite d user id s)) = users s
  /\ stories (snd (post_api_stories_id_favorite d user id s)) = stories s.
Proof.
  intros U W Kf.
  destruct (post_api_stories_id_favorite_cases d user u id s U)
    as [(r & F & E) | (F & [(T & _) | (_ & E)])]; [| congruence |].
  - assert (Hfilter :
      filter (fun r' => negb (sql_eqb (f_id r') (text_affinity (f_id r)))) (favorites s)
      = filter (fun r' => negb (matches u id r')) (favorites s)).
    { apply filter_ext_in. intros r' I.
      rewrite is_text_affinity
        by (apply (favorites_ok_In (favorites s)); [exact W | apply (find_In _ _ _ F)]).
      rewrite (favorites_ok_key_matches u id _ r W F r' I). reflexivity. }
    rewrite E, Hfilter. unfold is_favorite.
    cbn [snd users stories favorites set_favorites].
    split; [|split; [|split; reflexivity]].
    + replace (existsb (matches u id) (favorites s)) with true.
      * cbn [negb]. apply find_none_existsb. apply find_filter_negb.
      * symmetry. apply existsb_exists. exists r. apply (find_In _ _ _ F).
    + intros u' i' N. apply existsb_filter_same. intros x _ M.
      apply negb_true_iff. destruct (matches u id x) eqn:M'; [|reflexivity].
      destruct (matches_inj _ _ _ _ _ M M'). destruct N; congruence.
  - rewrite E. unfold is_favorite.
    cbn [snd users stories favorites set_favorites].
    split; [|split; [|split; reflexivity]].
    + rewrite existsb_app. apply find_none_existsb in F. rewrite F.
      cbn [existsb orb negb]. unfold matches. cbn [f_userId f_storyId].
      rewrite !sql_eqb_text_refl. reflexivity.
    + intros u' i' N. rewrite existsb_app. cbn [existsb].
      replace (matches u' i' _) with false; [rewrite !orb_false_r; reflexivity|].
      unfold matches. cbn [f_userId f_storyId sql_eqb].
      destruct N as [N|N]; apply not_eq_sym in N; apply String.eqb_neq in N;
        rewrite N; [reflexivity | symmetry; apply andb_false_r].
Qed.

(** ** Announcements *)

Lemma insert_announcement_ok (r : announcement_row) (s s' : db) :
  insert_announcement r s = Ok s' ->
  s' = set_announcements s (announcements s ++ [r]).
Proof.
  unfold insert_announcement. destruct (taken a_id (a_id r) (announcements s));
    intro H; inversion H; reflexivity.
Qed.

(** X14: only an admin can post an announcement: any other requester is
    answered 403 and nothing is written, whatever the body; a post that is
    answered 200 appended one row, authored by the requester, whose pinned
    column is 1 when [pinned] was truthy and 0 otherwise. *)
Theorem announce_admin_only (d : draw) (user body : jsval) (s : db) :
  (strict_eq (prop "role" user) (VStr "admin") = false ->
   post_api_admin_announce d user body s = (Json 403 (err "not allowed"), s))
  /\ (forall b s',
         post_api_admin_announce d user body s = (Json 200 b, s') ->
         strict_eq (prop "role" user) (VStr "admin") = true
         /\ exists r c,
             bind (prop "id" user) = Ok c
             /\ a_authorId r = text_affinity c
             /\ a_id r = SqlText (uid d)
             /\ a_pinned r = (if truthy (prop "pinned" (js_or body (VObj [])))
                              then SqlNum (inject_Z 1) else SqlNum (inject_Z 0))
             /\ s' = set_announcements s (announcements s ++ [r])).
Proof.
  unfold post_api_admin_announce. split.
  - intros ->. reflexivity.
  - intros b s'.
    destruct (strict_eq (prop "role" user) (VStr "admin")); cbn [negb];
      [|discriminate].
    destruct (bind (prop "id" user)) as [author|e] eqn:Ba; cbn [rbind];
      [|discriminate].
    match goal with
    | |- context [rbind (bind_all ?args) ?k] => destruct (bind_all args) as [cells|e] eqn:B
    end; cbn [rbind]; [|discriminate].
    pose proof B as B'. peel_binds B'.
    rewrite bind_to_js in B1. inversion B1. subst c0. clear B1.
    simpl in B0. inversion B0. subst c. clear B0.
    destruct cs0 as [|c3 [|c4 [|c5 [|x cs]]]]; try discriminate.
    match goal with
    | |- context [insert_announcement ?r s] =>
        destruct (insert_announcement r s) as [s1|e] eqn:I
    end; [|discriminate].
    apply insert_announcement_ok in I. subst s1.
    intro H. inversion H. subst. clear H. split; [reflexivity|].
    match type of B with
    | bind_all [?a1; ?a2; ?a3; ?a4; ?a5] = _ =>
        change (bind_all ([a1; a2; a3] ++ [a4; a5])
                = Ok ([SqlText (uid d); author; c3] ++ [c4; c5])) in B
    end.
    apply bind_all_last_two in B; [|scalar_tac|reflexivity].
    destruct B as (pre & cp & ct & E & Bp & _).
    symmetry in E. apply last_two_inj in E. destruct E as [-> _].
    exists (announcement_row_of (SqlText (uid d)) author c3 c4 c5), author.
    split; [reflexivity|]. split; [reflexivity|].
    split; [reflexivity|]. split; [|reflexivity].
    cbn [a_pinned announcement_row_of].
    destruct (truthy (prop "pinned" (js_or body (VObj []))));
      cbn [bind num_of_Z] in Bp; inversion Bp; reflexivity.
Qed.

Lemma pinned_then_newer_total (a b : announcement_row) :
  pinned_then_newer a b = false -> pinned_then_newer b a = true.
Proof.
  unfold pinned_then_newer, sql_ltb.
  pose proof (sql_leb_total (a_pinned a) (a_pinned b)) as P1.
  pose proof (sql_leb_total (a_pinned b) (a_pinned a)) as P2.
  pose proof (sql_leb_total (a_createdAt a) (a_createdAt b)) as C1.
  pose proof (sql_leb_total (a_createdAt b) (a_createdAt a)) as C2.
  destruct (sql_leb (a_pinned a) (a_pinned b)), (sql_leb (a_pinned b) (a_pinned a)),
    (sql_leb (a_createdAt a) (a_createdAt b)), (sql_leb (a_createdAt b) (a_createdAt a));
    simpl; auto.
Qed.

Lemma pinned_then_newer_trans (a b c : announcement_row) :
  pinned_then_newer a b = true -> pinned_then_newer b c = true ->
  pinned_then_newer a c = true.
Proof.
  unfold pinned_then_newer, sql_ltb.
  pose proof (sql_leb_total (a_pinned a) (a_pinned c)) as T1.
  pose proof (sql_leb_total (a_pinned a) (a_pinned b)) as T2.
  pose proof (sql_leb_total (a_pinned b) (a_pinned c)) as T3.
  pose proof (sql_leb_trans (a_pinned a) (a_pinned b) (a_pinned c)) as P1.
  pose proof (sql_leb_trans (a_pinned c) (a_pinned b) (a_pinned a)) as P2.
  pose proof (sql_leb_trans (a_pinned b) (a_pinned c) (a_pinned a)) as P3.
  pose proof (sql_leb_trans (a_pinned c) (a_pinned a) (a_pinned b)) as P4.
  pose proof (sql_leb_trans (a_pinned a) (a_pinned c) (a_pinned b)) as P5.
  pose proof (sql_leb_trans (a_pinned b) (a_pinned a) (a_pinned c)) as P6.
  pose proof (sql_leb_trans (a_createdAt c) (a_createdAt b) (a_createdAt a)) as C1.
  destruct (sql_leb (a_pinned a) (a_pinned b)), (sql_leb (a_pinned b) (a_pinned a)),
    (sql_leb (a_pinned b) (a_pinned c)), (sql_leb (a_pinned c) (a_pinned b)),
    (sql_leb (a_pinned a) (a_pinned c)), (sql_leb (a_pinned c) (a_pinned a));
    simpl; intros X Y; try discriminate; try reflexivity;
    try (apply C1; assumption);
    try (exfalso; first [ discriminate (T1 eq_refl) | discriminate (T2 eq_refl)
                        | discriminate (T3 eq_refl)
                        | discriminate (P1 eq_refl eq_refl)
                        | discriminate (P2 eq_refl eq_refl)
                        | discriminate (P3 eq_refl eq_refl)
                        | discriminate (P4 eq_refl eq_refl)
                        | discriminate (P5 eq_refl eq_refl)
                        | discriminate (P6 eq_refl eq_refl) ]).
Qed.

(** X15: the announcements route answers 200 with every announcement once,
    in an order where an announcement never comes before one with a greater
    pinned value, nor, among equal pinned values, before a newer one. *)
Theorem list_announcements_pinned_first (s : db) :
  exists rows,
    get_api_announcements s = Json 200 (VArr (map announcement_obj rows))
    /\ Permutation rows (announcements s)
    /\ StronglySorted
         (fun a b =>
            sql_leb (a_pinned b) (a_pinned a) = true
            /\ (sql_leb (a_pinned a) (a_pinned b) = true ->
                sql_leb (a_createdAt b) (a_createdAt a) = true))
         rows.
Proof.
  exists (order_by pinned_then_newer (announcements s)).
  split; [reflexivity|]. split; [apply order_by_perm|].
  pose proof (order_by_sorted pinned_then_newer (announcements s)
                pinned_then_newer_total pinned_then_newer_trans) as S.
  induction S as [|a l S IH F]; constructor; [exact IH|].
  eapply Forall_impl; [|exact F]. intros b H. cbv beta in H.
  unfold pinned_then_newer, sql_ltb in H.
  pose proof (sql_leb_total (a_pinned b) (a_pinned a)) as T.
  destruct (sql_leb (a_pinned a) (a_pinned b)), (sql_leb (a_pinned b) (a_pinned a)),
    (sql_leb (a_createdAt b) (a_createdAt a)); simpl in H;
    try discriminate; auto; try (split; [reflexivity | discriminate]).
Qed.

(** ** Seeding the admin *)

(** X16: when the seeding route reports that it created the admin, it
    appended one row with role 'admin' and email admin@local; a second call
    is refused and writes nothing; and the credentials the route prints log
    that admin in.  bcrypt's contract is the hypothesis. *)
Theorem setup_admin_once (d1 d2 d3 : draw) (s s1 : db) :
  get_setup_admin d1 s = (Send "admin created: admin@local / admin123", s1) ->
  (forall p, bcrypt_compare p (bcrypt_hash (d_salt d1) p) = true) ->
  (exists r,
      s1 = set_users s (users s ++ [r])
      /\ u_role r = SqlText "admin" /\ u_email r = SqlText "admin@local"
      /\ admin_rows s1 = [r])
  /\ get_setup_admin d2 s1
     = (Send "admin exists. delete data.db to recreate or remove this route", s1)
  /\ exists user,
      post_api_auth_login d3
        (VObj [("email", VStr "admin@local"); ("password", VStr "admin123")]) s1
      = (Json 200 (VObj [("token", VStr (signToken d3 user)); ("user", user)]), s1)
      /\ prop "role" user = VStr "admin".
Proof.
  intros H Hb. unfold get_setup_admin in H.
  destruct (find _ (users s)) eqn:F; [discriminate|].
  cbn [hashPassword rbind bind_all bind_args bind now num_of_Z] in H.
  match type of H with
  | context [insert_user ?r s] => destruct (insert_user r s) as [s2|e] eqn:I
  end; [|discriminate].
  inversion H. subst s2. clear H.
  apply insert_user_ok in I. destruct I as (-> & Ki & Ke & Ku).
  assert (A : admin_rows s = []).
  { unfold admin_rows. clear - F. induction (users s) as [|a l IH]; simpl in *;
      [reflexivity|]. destruct (sql_eqb (u_role a) (SqlText "admin"));
      [discriminate | auto]. }
  split; [|split].
  - eexists. split; [reflexivity|]. split; [reflexivity|]. split; [reflexivity|].
    unfold admin_rows in *. cbn [users set_users]. rewrite filter_app, A. reflexivity.
  - unfold get_setup_admin. cbn [users set_users].
    apply find_none_existsb in F.
    rewrite (find_app_last _ (users s) _ F) by reflexivity. reflexivity.
  - unfold post_api_auth_login. cbn [js_or truthy prop assoc String.eqb Ascii.eqb
                                      Bool.eqb negb orb bind_all bind_args bind
                                      rbind].
    unfold select_user_by_email. cbn [users set_users text_affinity].
    rewrite (find_app_last _ (users s) _ Ke) by reflexivity.
    cbn [u_password user_row_of text_affinity to_js comparePassword].
    rewrite Hb. cbn [negb]. eexists. split; [reflexivity|]. reflexivity.
Qed.

(** ** Tables that only grow *)

Lemma post_api_stories_id_favorite_effect (d : draw) (user : jsval) (id : string)
  (s : db) :
  snd (post_api_stories_id_favorite d user id s) = s
  \/ exists t, snd (post_api_stories_id_favorite d user id s) = set_favorites s t.
Proof.
  unfold post_api_stories_id_favorite.
  destruct (bind (prop "id" user)) as [u|e]; [|auto].
  destruct (select_favorite u (SqlText id) s) as [r|].
  - destruct (bind (to_js (f_id r))); cbn [snd]; eauto.
  - match goal with
    | |- context [rbind (bind_all ?args) ?k] =>
        destruct (rbind (bind_all args) k) as [s1|e] eqn:B
    end; [|auto].
    right. revert B. unfold insert_favorite.
    handler_cases; intro E; inversion E; cbn [snd]; eauto.
Qed.

(** X17: no request deletes or rewrites a user, a message or an
    announcement: after any request each of these three tables is what it
    was, followed by at most one new row, and at most one of them grew. *)
Theorem users_messages_announcements_only_grow (d : draw) (q : request) (st : state) :
  exists us ms ans,
    users (st_db (serve d q st)) = users (st_db st) ++ us
    /\ messages (st_db (serve d q st)) = messages (st_db st) ++ ms
    /\ announcements (st_db (serve d q st)) = announcements (st_db st) ++ ans
    /\ (List.length us + List.length ms + List.length ans <= 1)%nat.
Proof.
  assert (Same : forall s', s' = st_db st ->
            exists us ms ans,
              users s' = users (st_db st) ++ us
              /\ messages s' = messages (st_db st) ++ ms
              /\ announcements s' = announcements (st_db st) ++ ans
              /\ (List.length us + List.length ms + List.length ans <= 1)%nat).
  { intros s' ->. exists [], [], []. rewrite !app_nil_r. simpl. auto. }
  destruct q; cbn [serve st_db]; try (apply Same; reflexivity).
  - destruct (post_api_auth_register_effect d body (st_db st)) as [E|(r & _ & E)];
      rewrite E; [apply Same; reflexivity|].
    exists [r], [], []. cbn [users messages announcements set_users].
    rewrite !app_nil_r. simpl. auto.
  - rewrite post_api_auth_login_effect. apply Same; reflexivity.
  - destruct (get_setup_admin_effect d (st_db st)) as [E|(_ & r & E)];
      rewrite E; [apply Same; reflexivity|].
    exists [r], [], []. cbn [users messages announcements set_users].
    rewrite !app_nil_r. simpl. auto.
  - destruct (with_auth_effect d authorization (st_db st)
                (fun u => post_api_stories d u body (st_db st)))
      as [E|(row & _ & _ & E)]; rewrite E; [apply Same; reflexivity|].
    destruct (post_api_stories_effect d (public_user row) body (st_db st))
      as [F|(r & F)]; rewrite F; [apply Same; reflexivity|].
    exists [], [], []. cbn [users messages announcements set_stories].
    rewrite !app_nil_r. simpl. auto.
  - destruct (with_auth_effect d authorization (st_db st)
                (fun u => delete_api_stories_id u id (st_db st)))
      as [E|(row & _ & _ & E)]; rewrite E; [apply Same; reflexivity|].
    destruct (delete_api_stories_id_effect (public_user row) id (st_db st))
      as [F|(t & F)]; rewrite F; [apply Same; reflexivity|].
    exists [], [], []. cbn [users messages announcements set_stories].
    rewrite !app_nil_r. simpl. auto.
  - destruct (with_auth_effect d authorization (st_db st)
                (fun u => post_api_stories_id_favorite d u id (st_db st)))
      as [E|(row & _ & _ & E)]; rewrite E; [apply Same; reflexivity|].
    destruct (post_api_stories_id_favorite_effect d (public_user row) id (st_db st))
      as [F|(t & F)]; rewrite F; [apply Same; reflexivity|].
    exists [], [], []. cbn [users messages announcements set_favorites].
    rewrite !app_nil_r. simpl. auto.
  - destruct (with_auth_effect d authorization (st_db st)
                (fun u => post_api_checkout d u body (st_db st)))
      as [E|(row & _ & _ & E)]; rewrite E; [apply Same; reflexivity|].
    rewrite post_api_checkout_effect. apply Same; reflexivity.
  - destruct (with_auth_effect d authorization (st_db st)
                (fun u => post_api_admin_announce d u body (st_db st)))
      as [E|(row & _ & _ & E)]; rewrite E; [apply Same; reflexivity|].
    destruct (post_api_admin_announce_effect d (public_user row) body (st_db st))
      as [F|(r & F)]; rewrite F; [apply Same; reflexivity|].
    exists [], [], [r]. cbn [users messages announcements set_announcements].
    rewrite !app_nil_r. simpl. auto.
  - destruct (on_message_effect d payload (st_hub st) (st_db st)) as [F|(r & F)];
      rewrite F; [apply Same; reflexivity|].
    exists [], [r], []. cbn [users messages announcements set_messages].
    rewrite !app_nil_r. simpl. auto.
Qed.

(** ** Rooms *)

Lemma strict_eq_sym (a b : jsval) : strict_eq a b = strict_eq b a.
Proof.
  destruct a, b; simpl; try reflexivity.
  - destruct b, b0; reflexivity.
  - destruct (Qeq_bool q q0) eqn:A, (Qeq_bool q0 q) eqn:B; try reflexivity.
    + apply Qeq_bool_iff in A. apply Qeq_sym in A. apply Qeq_bool_iff in A. congruence.
    + apply Qeq_bool_iff in B. apply Qeq_sym in B. apply Qeq_bool_iff in B. congruence.
  - apply String.eqb_sym.
Qed.

Lemma strict_eq_trans (a b c : jsval) :
  strict_eq a b = true -> strict_eq b c = true -> strict_eq a c = true.
Proof.
  destruct a, b, c; simpl; try congruence.
  - destruct b, b0, b1; simpl; congruence.
  - rewrite !Qeq_bool_iff. apply Qeq_trans.
  - intros A B. apply String.eqb_eq in A, B. subst. apply String.eqb_refl.
Qed.

Lemma in_room_members (sid : string) (room : jsval) (h : hub) :
  In sid (room_members room h) <-> in_room sid room h = true.
Proof.
  unfold room_members, in_room. rewrite in_map_iff, existsb_exists. split.
  - intros ([sid' r] & E & I). simpl in E. subst sid'.
    apply filter_In in I. destruct I as [I S]. exists (sid, r). split; [exact I|].
    simpl in *. rewrite String.eqb_refl, S. reflexivity.
  - intros ([sid' r] & I & E). simpl in E. apply andb_true_iff in E.
    destruct E as [E S]. apply String.eqb_eq in E. subst sid'.
    exists (sid, r). split; [reflexivity|]. apply filter_In. auto.
Qed.

Lemma room_members_app (room : jsval) (h1 h2 : hub) :
  room_members room (h1 ++ h2) = room_members room h1 ++ room_members room h2.
Proof. unfold room_members. rewrite filter_app, map_app. reflexivity. Qed.

Lemma adapter_add_keeps_ok (sid : string) (r : jsval) (h : hub) :
  hub_ok h -> hub_ok (adapter_add sid r h).
Proof.
  intros W room. unfold adapter_add. destruct (in_room sid r h) eqn:I; [apply W|].
  rewrite room_members_app. unfold room_members at 2. cbn [filter snd].
  destruct (strict_eq r room) eqn:S; cbn [map fst]; [|rewrite app_nil_r; apply W].
  apply NoDup_app_remove_l with (l := []). simpl.
  apply Permutation_NoDup with (l := sid :: room_members room h).
  - apply Permutation_cons_append.
  - constructor; [|apply W]. intro M. apply in_room_members in M.
    assert (X : in_room sid r h = true); [|congruence].
    unfold in_room in *. apply existsb_exists in M. destruct M as ([sid' r'] & J & E).
    apply existsb_exists. exists (sid', r'). split; [exact J|].
    simpl in *. apply andb_true_iff in E. destruct E as [E1 E2]. rewrite E1. simpl.
    rewrite strict_eq_sym in S. eapply strict_eq_trans; eassumption.
Qed.

Lemma socket_join_keeps_ok (sid : string) (rooms : jsval) (h : hub) :
  hub_ok h -> hub_ok (socket_join sid rooms h).
Proof.
  unfold socket_join. generalize (match rooms with VArr rs => rs | _ => [rooms] end).
  intro l. revert h. induction l as [|r l IH]; simpl; intros h W; [exact W|].
  apply IH. apply adapter_add_keeps_ok. exact W.
Qed.

Lemma on_disconnect_keeps_ok (sid : string) (h : hub) :
  hub_ok h -> hub_ok (on_disconnect sid h).
Proof.
  intros W room. specialize (W room). unfold room_members, on_disconnect in *.
  induction h as [|[s r] h IH]; simpl in *; [constructor|].
  destruct (String.eqb s sid); simpl.
  - destruct (strict_eq r room); simpl in W; [inversion W|]; auto.
  - destruct (strict_eq r room); simpl in *; [|auto].
    inversion W as [|? ? N W']; subst. constructor; [|auto].
    intro I. apply N. apply in_map_iff in I. destruct I as ([s' r'] & E & I).
    simpl in E. subst s'. apply filter_In in I. destruct I as [I S].
    apply filter_In in I. destruct I as [I _].
    apply in_map_iff. exists (s, r'). split; [reflexivity|]. apply filter_In. auto.
Qed.

(** X18: in every state the server can reach, no socket is twice among the
    members of a room, so a message is emitted to a socket at most once. *)
Theorem reachable_hub_ok (st : state) : reachable st -> hub_ok (st_hub st).
Proof.
  induction 1 as [|d q st R IH]; [intro room; constructor|].
  destruct q; cbn [serve st_hub]; try exact IH.
  - apply adapter_add_keeps_ok. exact IH.
  - apply on_disconnect_keeps_ok. exact IH.
  - unfold on_join. destruct payload; try exact IH;
      apply socket_join_keeps_ok; exact IH.
Qed.

Lemma in_room_adapter_add_any (sid : string) (r : jsval) (h : hub) :
  strict_eq r r = true -> in_room sid r (adapter_add sid r h) = true.
Proof.
  intro S. unfold adapter_add. destruct (in_room sid r h) eqn:I; [exact I|].
  unfold in_room. rewrite existsb_app. simpl.
  rewrite String.eqb_refl, S. simpl. apply orb_true_r.
Qed.

Lemma in_room_adapter_add_other (sid sid' : string) (r room : jsval) (h : hub) :
  in_room sid' room (adapter_add sid r h)
  = in_room sid' room h
    || (negb (in_room sid r h) && String.eqb sid sid' && strict_eq r room).
Proof.
  unfold adapter_add. destruct (in_room sid r h) eqn:I; simpl.
  - rewrite orb_false_r. reflexivity.
  - unfold in_room. rewrite existsb_app. simpl. rewrite orb_false_r. reflexivity.
Qed.

(** X19: joining is idempotent: for a room that is a string, a number or
    missing, a second join by the same socket leaves the memberships as the
    first join made them. *)
Theorem join_twice_is_join_once (sid : string) (payload : jsval) (h h1 : hub) :
  on_join sid payload h = Ok h1 ->
  (forall rs, prop "conversationId" payload <> VArr rs) ->
  (forall fs, prop "conversationId" payload <> VObj fs) ->
  on_join sid payload h1 = Ok h1.
Proof.
  intros J NA NO.
  assert (E : forall g, on_join sid payload g
                        = Ok (adapter_add sid
                                (js_or (prop "conversationId" payload) (VStr "public"))
                                g)).
  { intro g. unfold on_join.
    assert (X : socket_join sid (js_or (prop "conversationId" payload) (VStr "public")) g
                = adapter_add sid (js_or (prop "conversationId" payload) (VStr "public")) g).
    { unfold socket_join.
      destruct (js_or (prop "conversationId" payload) (VStr "public")) eqn:Q;
        try reflexivity.
      exfalso. unfold js_or in Q.
      destruct (truthy (prop "conversationId" payload));
        [eapply NA; eassumption | discriminate]. }
    destruct payload; try (rewrite <- X; reflexivity); discriminate. }
  rewrite E in J. inversion J. subst h1. rewrite E. f_equal.
  unfold adapter_add at 1. rewrite in_room_adapter_add_any; [reflexivity|].
  unfold js_or. destruct (prop "conversationId" payload) as [| |b|q|t|rs|fs];
    simpl; try reflexivity.
  - destruct b; reflexivity.
  - destruct (negb (Qnum q =? 0)); simpl; [apply Qeq_bool_refl | reflexivity].
  - destruct (negb (String.eqb t "")); simpl; [apply String.eqb_refl | reflexivity].
  - exfalso. eapply NA. reflexivity.
  - exfalso. eapply NO. reflexivity.
Qed.

Lemma In_emits (sid : string) (msg : jsval) (r : message_row) (l : list string) :
  In (Emit sid "message" msg)
     (Persist r :: map (fun to => Emit to "message" msg) l)
  <-> In sid l.
Proof.
  simpl. rewrite in_map_iff. split.
  - intros [H|(x & E & I)]; [discriminate|]. inversion E. subst. exact I.
  - intro I. right. exists sid. auto.
Qed.

Lemma In_dedupe (x : string) (l : list string) : In x (dedupe l) <-> In x l.
Proof.
  induction l as [|a l IH]; simpl; [tauto|].
  rewrite filter_In, IH, negb_true_iff, String.eqb_neq. split.
  - intros [H|[H _]]; auto.
  - intros [H|H]; [auto|].
    destruct (string_dec a x) as [E|N]; [auto|].
    right. split; [exact H | intro E; apply N; symmetry; exact E].
Qed.

Lemma NoDup_dedupe (l : list string) : NoDup (dedupe l).
Proof.
  induction l as [|a l IH]; simpl; constructor.
  - rewrite filter_In, String.eqb_refl. intros [_ H]. discriminate.
  - apply NoDup_filter. exact IH.
Qed.

Lemma room_members_pairs (sid : string) (room : jsval) (h : hub) :
  In sid (room_members room h)
  <-> exists v, In (sid, v) h /\ strict_eq v room = true.
Proof.
  unfold room_members. rewrite in_map_iff. split.
  - intros ([sid' v] & E & I). simpl in E. subst sid'.
    apply filter_In in I. destruct I as [I S]. eauto.
  - intros (v & I & S). exists (sid, v). split; [reflexivity|].
    apply filter_In. auto.
Qed.

(** X20: a message that was stored is emitted once to each socket it is
    for and to nobody else: the sockets in its room; for an array of rooms,
    the sockets in one of them at least; for an empty array, every socket. *)
Theorem message_reaches_exactly_the_room (d : draw) (payload : jsval) (h : hub)
  (s s' : db) (tr : list effect) :
  on_message d payload h s = (tr, s', None) ->
  hub_ok h ->
  let room := js_or (prop "conversationId" payload) (VStr "public") in
  exists r msg recipients,
    tr = Persist r :: map (fun to => Emit to "message" msg) recipients
    /\ NoDup recipients
    /\ ((forall rs, room <> VArr rs) ->
        forall sid, In sid recipients
                    <-> exists v, In (sid, v) h /\ strict_eq v room = true)
    /\ (forall k rs, room = VArr (k :: rs) ->
        forall sid, In sid recipients
                    <-> exists v k', In k' (k :: rs) /\ In (sid, v) h
                                     /\ strict_eq v k' = true)
    /\ (room = VArr [] ->
        forall sid, In sid recipients <-> exists v, In (sid, v) h).
Proof.
  intros H W room.
  destruct (jsval_nullish payload) as [N|[NU NN]].
  { destruct N; subst; discriminate. }
  rewrite (on_message_run d payload h s NU NN) in H. fold room in H.
  destruct (bind_all _) as [cells|e]; [|discriminate].
  destruct cells as [|c1 [|c2 [|c3 [|c4 [|c5 [|x cells]]]]]]; try discriminate.
  destruct (taken m_id (text_affinity c1) (messages s)); [discriminate|].
  inversion H. subst tr s'. clear H.
  eexists. eexists. exists (io_to room h). split; [reflexivity|].
  split; [|split; [|split]].
  - unfold io_to. destruct room as [| | | | |[|k rs]|]; try apply W;
      apply NoDup_dedupe.
  - intros NA sid. unfold io_to.
    destruct room as [| | | | |rs|] eqn:R; try apply room_members_pairs.
    exfalso. apply (NA rs). reflexivity.
  - intros k rs R sid. rewrite R. cbn [io_to]. rewrite In_dedupe, in_flat_map.
    split.
    + intros (k' & I & M). apply room_members_pairs in M.
      destruct M as (v & Iv & S). eauto.
    + intros (v & k' & I & Iv & S). exists k'. split; [exact I|].
      apply room_members_pairs. eauto.
  - intros R sid. rewrite R. cbn [io_to]. rewrite In_dedupe, in_map_iff. split.
    + intros ([sid' v] & E & I). simpl in E. subst. eauto.
    + intros (v & I). exists (sid, v). auto.
Qed.

(** X21: after a socket joined a room named by a string, a message stored
    for that room is emitted to that socket and to the sockets that were in
    the room before, and to no other. *)
Theorem join_then_publish (sid c : string) (join msg : jsval) (d : draw)
  (h h1 : hub) (s s' : db) (tr : list effect) :
  on_join sid join h = Ok h1 ->
  prop "conversationId" join = VStr c ->
  prop "conversationId" msg = VStr c ->
  c <> ""%string ->
  on_message d msg h1 s = (tr, s', None) ->
  exists row out,
    tr = Persist row :: map (fun to => Emit to "message" out)
                            (room_members (VStr c) h1)
    /\ forall sid',
        In (Emit sid' "message" out) tr
        <-> (sid' = sid \/ in_room sid' (VStr c) h = true).
Proof.
  intros J Cj Cm Nc H.
  assert (T : truthy (VStr c) = true).
  { simpl. apply negb_true_iff. apply String.eqb_neq. exact Nc. }
  assert (E1 : h1 = adapter_add sid (VStr c) h).
  { unfold on_join in J. rewrite Cj, (js_or_truthy _ _ T) in J.
    destruct join; inversion J; reflexivity. }
  destruct (jsval_nullish msg) as [N|[NU NN]].
  { destruct N; subst; discriminate. }
  rewrite (on_message_run d msg h1 s NU NN) in H.
  rewrite Cm, (js_or_truthy _ _ T) in H.
  destruct (bind_all _) as [cells|e]; [|discriminate].
  destruct cells as [|c1 [|c2 [|c3 [|c4 [|c5 [|x cells]]]]]]; try discriminate.
  destruct (taken m_id (text_affinity c1) (messages s)); [discriminate|].
  inversion H. subst tr s'. clear H. cbn [io_to].
  eexists. eexists. split; [reflexivity|].
  intro sid'. rewrite In_emits, in_room_members, E1, in_room_adapter_add_other.
  cbn [strict_eq]. rewrite String.eqb_refl, andb_true_r. split.
  - intro X. apply orb_true_iff in X. destruct X as [X|X]; [auto|].
    apply andb_true_iff in X. destruct X as [_ X]. apply String.eqb_eq in X. auto.
  - intros [->|X]; [|rewrite X; reflexivity].
    destruct (in_room sid (VStr c) h) eqn:I; [reflexivity|].
    simpl. apply String.eqb_refl.
Qed.

(** ** The pages' escaping *)

Lemma string_forall_app (p : ascii -> bool) (a b : string) :
  string_forall p (a ++ b) = string_forall p a && string_forall p b.
Proof.
  induction a as [|c a IH]; simpl; [reflexivity|].
  rewrite IH. apply andb_assoc.
Qed.

Lemma esc_char_cases (c : ascii) :
  (c = "&"%char /\ esc_char c = "&amp;"%string)
  \/ (c = "<"%char /\ esc_char c = "&lt;"%string)
  \/ (c = ">"%char /\ esc_char c = "&gt;"%string)
  \/ (c = double_quote /\ esc_char c = "&quot;"%string)
  \/ (c = "'"%char /\ esc_char c = "&#39;"%string)
  \/ (c <> "&"%char /\ markup_char c = false /\ esc_char c = String c EmptyString).
Proof.
  unfold esc_char, markup_char.
  destruct (Ascii.eqb c "&") eqn:E1;
    [apply Ascii.eqb_eq in E1; subst; auto|].
  destruct (Ascii.eqb c "<") eqn:E2;
    [apply Ascii.eqb_eq in E2; subst; auto 10|].
  destruct (Ascii.eqb c ">") eqn:E3;
    [apply Ascii.eqb_eq in E3; subst; auto 10|].
  destruct (Ascii.eqb c double_quote) eqn:E4;
    [apply Ascii.eqb_eq in E4; subst; auto 10|].
  destruct (Ascii.eqb c "'") eqn:E5;
    [apply Ascii.eqb_eq in E5; subst; auto 10|].
  apply Ascii.eqb_neq in E1. auto 10.
Qed.

(** X22: what [esc] returns contains no angle bracket, no double quote and
    no apostrophe, whatever it was given. *)
Theorem esc_leaves_no_markup (s : string) :
  string_forall (fun c => negb (markup_char c)) (esc s) = true.
Proof.
  induction s as [|c s IH]; simpl; [reflexivity|].
  rewrite string_forall_app, IH, andb_true_r.
  destruct (esc_char_cases c)
    as [[-> ->]|[[-> ->]|[[-> ->]|[[-> ->]|[[-> ->]|(_ & M & ->)]]]]];
    try reflexivity.
  simpl. rewrite M. reflexivity.
Qed.

(** X23: [esc] goes through a concatenation: escaping piece by piece and
    joining is escaping the whole. *)
Theorem esc_app (a b : string) : esc (a ++ b) = (esc a ++ esc b)%string.
Proof.
  induction a as [|c a IH]; simpl; [reflexivity|].
  rewrite IH. clear.
  induction (esc_char c) as [|x e IHe]; simpl; [reflexivity|].
  rewrite IHe. reflexivity.
Qed.

Lemma esc_step_inj (c1 c2 : ascii) (x y : string) :
  (esc_char c1 ++ x)%string = (esc_char c2 ++ y)%string -> c1 = c2 /\ x = y.
Proof.
  destruct (esc_char_cases c1)
    as [[-> ->]|[[-> ->]|[[-> ->]|[[-> ->]|[[-> ->]|(N1 & _ & ->)]]]]];
    destruct (esc_char_cases c2)
      as [[-> ->]|[[-> ->]|[[-> ->]|[[-> ->]|[[-> ->]|(N2 & _ & ->)]]]]];
    simpl; intro H; inversion H; subst; try congruence; auto.
Qed.

(** X24: [esc] loses nothing: two different texts are never escaped to the
    same text. *)
Theorem esc_injective (a b : string) : esc a = esc b -> a = b.
Proof.
  revert b. induction a as [|c a IH]; intros [|c' b]; simpl; intro H.
  - reflexivity.
  - exfalso. destruct (esc_char_cases c')
      as [[-> E]|[[-> E]|[[-> E]|[[-> E]|[[-> E]|(_ & _ & E)]]]]];
      rewrite E in H; discriminate.
  - exfalso. destruct (esc_char_cases c)
      as [[-> E]|[[-> E]|[[-> E]|[[-> E]|[[-> E]|(_ & _ & E)]]]]];
      rewrite E in H; discriminate.
  - apply esc_step_inj in H. destruct H as [-> H]. f_equal. apply IH. exact H.
Qed.

Lemma esc_length (s : string) : (String.length s <= String.length (esc s))%nat.
Proof.
  induction s as [|c s IH]; simpl; [lia|].
  destruct (esc_char_cases c)
    as [[-> ->]|[[-> ->]|[[-> ->]|[[-> ->]|[[-> ->]|(_ & _ & ->)]]]]];
    simpl; lia.
Qed.

(** X25: [esc] returns its argument unchanged exactly when the argument has
    none of the five characters. *)
Theorem esc_fixes_plain_text (s : string) :
  esc s = s
  <-> string_forall (fun c => negb (markup_char c) && negb (Ascii.eqb c "&")) s
      = true.
Proof.
  induction s as [|c s IH]; simpl; [tauto|].
  destruct (esc_char_cases c)
    as [[-> E]|[[-> E]|[[-> E]|[[-> E]|[[-> E]|(N & M & E)]]]]]; rewrite E.
  - split; [|discriminate]. simpl. intro H. inversion H as [H'].
    pose proof (esc_length s) as Ls. rewrite <- H' in Ls at 1. simpl in Ls. lia.
  - split; discriminate.
  - split; discriminate.
  - split; discriminate.
  - split; discriminate.
  - simpl. rewrite M. apply Ascii.eqb_neq in N. rewrite N. simpl.
    rewrite <- IH. split; [intro H; inversion H; congruence | intros ->; reflexivity].
Qed.

End Coverage.

(** * Properties of the read-only routes *)

Section ReadCoverage.

Context {L : Libraries} {K : Queries}.

Local Open Scope list_scope.

(** X6: a story that was just created with a title, an excerpt and a body
    that are none of them an array or an object can be read back: GET by the
    new id answers 200 with the same fields as the reply to the create,
    except that [tags] is decoded; title and body come back as the strings
    sent.  The hypothesis is that [JSON.parse] undoes [JSON.stringify] on the
    tags. *)
Theorem create_then_get (d : draw) (user body : jsval) (s s' : db) (b : jsval) :
  scalar (prop "title" (js_or body (VObj []))) = true ->
  scalar (prop "excerpt" (js_or body (VObj []))) = true ->
  scalar (prop "body" (js_or body (VObj []))) = true ->
  post_api_stories d user body s = (Json 200 b, s') ->
  JSON_parse
    (js_or (VStr (JSON_stringify
                    (js_or (prop "tags" (js_or body (VObj []))) (VArr []))))
           (VStr "[]"))
  = Some (js_or (prop "tags" (js_or body (VObj []))) (VArr [])) ->
  exists o,
    get_api_stories_id (uid d) s' = Some (Json 200 o)
    /\ prop "tags" o = js_or (prop "tags" (js_or body (VObj []))) (VArr [])
    /\ (forall k, k <> "tags"%string -> prop k o = prop k b)
    /\ prop "id" o = VStr (uid d)
    /\ (forall t, prop "title" (js_or body (VObj [])) = VStr t ->
                  prop "title" o = VStr t)
    /\ (forall t, prop "body" (js_or body (VObj [])) = VStr t ->
                  prop "body" o = VStr t).
Proof.
  intros St Se Sb C J. apply (post_api_stories_head _ _ _ _ _ _ St Se Sb) in C.
  destruct C as (ca & ct & ce & cb & c7 & c8 & c9 & Bt & Bb & Kf & -> & ->).
  unfold get_api_stories_id, select_story. cbn [stories set_stories text_affinity].
  rewrite (find_app_last _ (stories s) _ Kf)
    by (cbn [s_id story_row_of text_affinity]; apply sql_eqb_text_refl).
  unfold parse_tags. cbn [s_tags story_row_of text_affinity to_js]. rewrite J.
  eexists. split; [reflexivity|]. split; [reflexivity|]. split; [|split; [|split]].
  - intros k N. unfold story_with_tags, story_obj, prop, assoc.
    repeat match goal with
           | |- context [String.eqb k ?key] =>
               destruct (String.eqb k key) eqn:?; try reflexivity
           end.
    exfalso. apply N. apply String.eqb_eq. assumption.
  - reflexivity.
  - intros t E. rewrite E in Bt. inversion Bt. reflexivity.
  - intros t E. rewrite E in Bb. inversion Bb. reflexivity.
Qed.

(** X8: once a delete was answered 200, GET of that id answers 404, and GET
    of any other id answers what it answered before. *)
Theorem delete_then_get (user : jsval) (id : string) (s s' : db) (b : jsval) :
  delete_api_stories_id user id s = (Json 200 b, s') ->
  get_api_stories_id id s' = Some (Json 404 (err "not found"))
  /\ forall id', id' <> id -> get_api_stories_id id' s' = get_api_stories_id id' s.
Proof.
  unfold delete_api_stories_id.
  destruct (select_story (SqlText id) s) as [r|]; [|discriminate].
  destruct (negb _ && negb _); [discriminate|].
  intro H. inversion H. subst. clear H. split.
  - unfold get_api_stories_id, select_story. cbn [stories set_stories text_affinity].
    rewrite (find_filter_negb (fun r' => sql_eqb (s_id r') (SqlText id))).
    reflexivity.
  - intros id' N. unfold get_api_stories_id, select_story.
    cbn [stories set_stories text_affinity].
    rewrite find_filter_keep; [reflexivity|].
    intros x E. apply sql_eqb_text in E. rewrite E. cbn [sql_eqb].
    apply negb_true_iff. apply String.eqb_neq. exact N.
Qed.

(** ** Listing stories *)

Lemma all_some_map {A B : Type} (f : A -> option B) (l : list A) (out : list B) :
  all_some (map f l) = Some out -> Forall2 (fun a b => f a = Some b) l out.
Proof.
  revert out. induction l as [|a l IH]; simpl; intros out H.
  - inversion H. constructor.
  - destruct (f a) as [b|] eqn:F; [|discriminate].
    destruct (all_some (map f l)) as [r|]; [|discriminate].
    inversion H. subst. constructor; auto.
Qed.

Lemma newer_first_total (a b : story_row) :
  newer_first a b = false -> newer_first b a = true.
Proof. apply sql_leb_total. Qed.

Lemma newer_first_trans (a b c : story_row) :
  newer_first a b = true -> newer_first b c = true -> newer_first a c = true.
Proof. unfold newer_first. intros X Y. eapply sql_leb_trans; eassumption. Qed.

(** X12: when the list route answers, it answers 200 with an array that has
    one object per selected story, tags decoded, in an order where no story
    comes before a newer one; the stories selected are all of them when the
    trimmed query is empty (none lost, none twice), and otherwise those whose
    title, excerpt or body is LIKE the query between two percent signs. *)
Theorem list_stories_newest_first (q : option string) (s : db) (r : reply) :
  get_api_stories q s = Some r ->
  let q' := String_trim (match q with Some t => t | None => ""%string end) in
  exists rows out,
    r = Json 200 (VArr out)
    /\ Permutation rows
         (if String.eqb q' "" then stories s
          else filter (story_like ("%" ++ q' ++ "%")) (stories s))
    /\ StronglySorted
         (fun a b => sql_leb (s_createdAt b) (s_createdAt a) = true) rows
    /\ Forall2 (fun row o => parse_tags row = Some o) rows out.
Proof.
  intros H q'. unfold get_api_stories in H. fold q' in H.
  destruct (all_some (map parse_tags (select_stories q' s))) as [out|] eqn:A;
    [|discriminate].
  inversion H. subst r. clear H.
  exists (select_stories q' s), out. split; [reflexivity|].
  split; [|split].
  - unfold select_stories. destruct (String.eqb q' ""); cbn [negb];
      apply order_by_perm.
  - unfold select_stories.
    destruct (negb (String.eqb q' ""));
      apply (order_by_sorted newer_first);
      first [exact newer_first_total | exact newer_first_trans].
  - apply all_some_map. exact A.
Qed.

End ReadCoverage.

(** * The handlers on concrete requests *)

Section Examples.

#[local] Existing Instance toy_libraries.

Local Open Scope list_scope.

(** C1, counterexample: a free-to-read story sent with price 10 is stored
    with price 10. *)
Lemma create_keeps_price_of_free_story :
  post_api_stories draw1 (public_user ana) priced_free_story empty_db
  = (Json 200 (story_obj priced_free_row), mk_db [] [priced_free_row] [] [] [])
  /\ s_type priced_free_row = SqlText "leia"
  /\ s_price priced_free_row = SqlNum (inject_Z 10)
  /\ s_price priced_free_row <> SqlNull.
Proof. repeat split; try reflexivity. discriminate. Qed.

(** The same request read through the amended statement. *)
Lemma create_price_null_iff_falsy_witness :
  scalar (prop "price" (js_or priced_free_story (VObj []))) = true
  /\ post_api_stories draw1 (public_user ana) priced_free_story empty_db
  = (Json 200 (story_obj priced_free_row), mk_db [] [priced_free_row] [] [] [])
  /\ exists r,
      stories (mk_db [] [priced_free_row] [] [] []) = stories empty_db ++ [r]
      /\ (s_price r = SqlNull <->
          truthy (prop "price" (js_or priced_free_story (VObj []))) = false)
      /\ (forall q, prop "price" (js_or priced_free_story (VObj [])) = VNum q ->
                    negb (Qnum q =? 0) = true -> s_price r = SqlNum q).
Proof.
  split; [reflexivity|]. split; [reflexivity|].
  apply (create_price_null_iff_falsy draw1 (public_user ana) priced_free_story
           empty_db _ (story_obj priced_free_row)); reflexivity.
Defined.

(** C2, counterexample: for a message without sender the stored row says
    'anon' and the emitted message has no sender. *)
Lemma publish_row_and_broadcast_differ :
  on_message draw1 unsigned_message sample_hub empty_db
  = ([Persist anon_row; Emit "c1" "message" unsigned_broadcast],
     mk_db [] [] [] [anon_row] [], None)
  /\ to_js (m_senderId anon_row) = VStr "anon"
  /\ prop "senderId" unsigned_broadcast = VUndef
  /\ to_js (m_senderId anon_row) <> prop "senderId" unsigned_broadcast.
Proof. repeat split; try reflexivity. discriminate. Qed.

(** The same run read through the amended statement. *)
Lemma publish_persists_then_broadcasts_witness :
  on_message draw1 unsigned_message sample_hub empty_db
  = ([Persist anon_row; Emit "c1" "message" unsigned_broadcast],
     mk_db [] [] [] [anon_row] [], None)
  /\ exists r msg recipients,
      [Persist anon_row; Emit "c1" "message" unsigned_broadcast]
      = Persist r :: map (fun sid => Emit sid "message" msg) recipients
      /\ (forall sid, In sid recipients <-> In (sid, VStr "sala") sample_hub)
      /\ prop "id" msg = to_js (m_id r)
      /\ prop "createdAt" msg = to_js (m_createdAt r)
      /\ m_senderId r = SqlText "anon".
Proof.
  split; [reflexivity|].
  destruct (publish_persists_then_broadcasts draw1 unsigned_message sample_hub
              empty_db _ _ _ eq_refl) as [_ H].
  destruct (H eq_refl) as (r & msg & recipients & T & M & _ & I & _ & _ & _ & F).
  destruct (F eq_refl eq_refl eq_refl) as (C & _ & _ & _ & A).
  exists r, msg, recipients.
  split; [exact T|]. split; [exact (M "sala" eq_refl)|].
  split; [exact I|]. split; [exact C|]. apply A. reflexivity.
Defined.

(** A token of [ana] passes and [req.user] is her public row; a token that
    does not verify and a token of nobody are answered 401. *)
Lemma authMiddleware_unauthorized_iff_witness :
  authMiddleware draw1 (Some "Bearer jwt.u1") sample_db
  = inr (VObj [("id", VStr "u1"); ("email", VStr "a@x"); ("name", VNull);
               ("username", VNull); ("role", VStr "user")])
  /\ (exists msg,
         authMiddleware draw1 (Some "Bearer forged") sample_db
         = inl (Json 401 (err msg)))
  /\ (exists msg,
         authMiddleware draw1 (Some "Bearer jwt.u9") sample_db
         = inl (Json 401 (err msg))).
Proof.
  assert (B1 : bind (prop "sub"
                       match jwt_verify (d_clock draw1)
                               (replace_first "Bearer " "" "Bearer jwt.u1") with
                       | Ok v => v
                       | Throw _ => VNull
                       end) = Ok (SqlText "u1")) by reflexivity.
  assert (B2 : bind (prop "sub"
                       match jwt_verify (d_clock draw1)
                               (replace_first "Bearer " "" "Bearer forged") with
                       | Ok v => v
                       | Throw _ => VNull
                       end) = Ok SqlNull) by reflexivity.
  assert (B3 : bind (prop "sub"
                       match jwt_verify (d_clock draw1)
                               (replace_first "Bearer " "" "Bearer jwt.u9") with
                       | Ok v => v
                       | Throw _ => VNull
                       end) = Ok (SqlText "u9")) by reflexivity.
  split; [|split].
  - destruct (authMiddleware_unauthorized_iff (L:=toy_libraries) draw1 (Some "Bearer jwt.u1") sample_db
                (SqlText "u1") B1) as (I & [R|[user P]] & S).
    + exfalso. apply I in R.
      destruct R as [R|[R|[[e R]|[[v [R T]]|R]]]]; try discriminate.
      * inversion R. subst v. discriminate.
      * specialize (R ana (or_introl eq_refl)). discriminate.
    + rewrite P. destruct (S user P) as (v & row & V & _ & Ir & _ & Es & -> & _).
      inversion V. subst v. specialize (Es "u1" eq_refl).
      destruct Ir as [<-|[<-|[]]]; [reflexivity | discriminate].
  - apply (proj1 (authMiddleware_unauthorized_iff (L:=toy_libraries) draw1 (Some "Bearer forged")
                    sample_db SqlNull B2)).
    right. right. left. eexists. reflexivity.
  - apply (proj1 (authMiddleware_unauthorized_iff (L:=toy_libraries) draw1 (Some "Bearer jwt.u9")
                    sample_db (SqlText "u9") B3)).
    do 4 right. intros r [<-|[<-|[]]]; reflexivity.
Defined.

(** C4, counterexample: a registration whose email is the array [[null]]
    sent twice succeeds twice, and the table has two rows with a null
    email. *)
Lemma register_null_email_twice :
  exists b1 s1 b2 s2,
    post_api_auth_register draw1 null_email_signup empty_db = (Json 200 b1, s1)
    /\ post_api_auth_register draw2 null_email_signup s1 = (Json 200 b2, s2)
    /\ users s2 = null_email_rows
    /\ List.length (users s2) = 2%nat.
Proof. do 4 eexists. repeat split; reflexivity. Qed.

(** Registering [signup] twice. *)
Lemma register_same_email_conflict_witness :
  scalar (prop "email" (js_or signup (VObj []))) = true
  /\ exists b1 s1,
    post_api_auth_register draw1 signup sample_db = (Json 200 b1, s1)
    /\ post_api_auth_register draw2 signup s1
       = (Json 400 (err "email or username exists"), s1)
    /\ post_api_auth_register draw2 (VObj []) s1
       = (Json 400 (err "missing email or password"), s1).
Proof.
  split; [reflexivity|].
  eexists. eexists. split; [reflexivity|].
  destruct (register_same_email_conflict draw1 draw2 signup signup sample_db _ _
              "p3" SqlNull SqlNull eq_refl eq_refl eq_refl eq_refl) as (A & B & _);
    try reflexivity; try discriminate.
  split; assumption.
Defined.



(** [bia] toggles the story [tale] twice. *)
Lemma toggle_favorite_twice_witness :
  prop "id" (public_user bia) = VStr "u2"
  /\ favorites_ok (favorites sample_db) = true
  /\ taken f_id (SqlText (uid draw1)) (favorites sample_db) = false
  /\ taken f_id (SqlText (uid draw2)) (favorites sample_db) = false
  /\ (forall u' i',
         is_favorite u' i'
           (snd (post_api_stories_id_favorite draw2 (public_user bia) "s1"
                   (snd (post_api_stories_id_favorite draw1 (public_user bia) "s1"
                           sample_db))))
         = is_favorite u' i' sample_db).
Proof.
  split; [reflexivity|]. split; [reflexivity|]. split; [reflexivity|].
  split; [reflexivity|].
  apply (toggle_favorite_twice draw1 draw2 (public_user bia) "u2" "s1" sample_db);
    reflexivity.
Defined.

(** [bia] may not delete the story of [ana]; [ana] may. *)
Lemma delete_author_or_admin_only_witness :
  select_story (SqlText "s1") sample_db = Some tale
  /\ strict_eq (to_js (s_authorId tale)) (prop "id" (public_user bia)) = false
  /\ strict_eq (prop "role" (public_user bia)) (VStr "admin") = false
  /\ delete_api_stories_id (public_user bia) "s1" sample_db
     = (Json 403 (err "not allowed"), sample_db)
  /\ strict_eq (to_js (s_authorId tale)) (prop "id" (public_user ana)) = true
  /\ exists s',
      delete_api_stories_id (public_user ana) "s1" sample_db
      = (Json 200 (VObj [("ok", VBool true)]), s')
      /\ select_story (SqlText "s1") s' = None.
Proof.
  split; [reflexivity|]. split; [reflexivity|]. split; [reflexivity|].
  split.
  - apply (proj1 (delete_author_or_admin_only (public_user bia) "s1" sample_db tale
                    eq_refl)); reflexivity.
  - split; [reflexivity|].
    destruct (proj2 (delete_author_or_admin_only (public_user ana) "s1" sample_db
                       tale eq_refl) (or_introl eq_refl)) as (s' & D & N & _).
    exists s'. split; assumption.
Defined.

(** C8, counterexample: the story [gift] has a price, zero, and checkout
    answers "not for sale". *)
Lemma checkout_refuses_zero_price :
  post_api_checkout draw1 (public_user bia) (VObj [("storyId", VStr "s0")]) sample_db
  = (Json 400 (err "not for sale"), sample_db)
  /\ select_story (SqlText "s0") sample_db = Some gift
  /\ s_price gift = SqlNum (inject_Z 0)
  /\ s_price gift <> SqlNull.
Proof. repeat split; try reflexivity. discriminate. Qed.

(** Such a row is what the create handler stores for the price text "0" once
    SQLite reads it as a number. *)
Remark create_stores_zero_price :
  map s_price
      (stories (snd (post_api_stories draw1 (public_user ana) zero_text_story
                       empty_db)))
  = [SqlNum (inject_Z 0)].
Proof. reflexivity. Qed.

(** Checkout of [novel], for sale at 10. *)
Lemma checkout_descriptor_witness :
  bind (prop "storyId" (js_or (VObj [("storyId", VStr "s2")]) (VObj [])))
  = Ok (SqlText "s2")
  /\ select_story (SqlText "s2") sample_db = Some novel
  /\ truthy (to_js (s_price novel)) = true
  /\ snd (post_api_checkout draw1 (public_user bia)
            (VObj [("storyId", VStr "s2")]) sample_db) = sample_db
  /\ exists fake,
      fst (post_api_checkout draw1 (public_user bia)
             (VObj [("storyId", VStr "s2")]) sample_db)
      = Json 200 (VObj [("checkout", fake)])
      /\ prop "amount" fake = to_js (s_price novel)
      /\ prop "storyId" fake = prop "storyId" (js_or (VObj [("storyId", VStr "s2")])
                                                     (VObj [])).
Proof.
  split; [reflexivity|]. split; [reflexivity|]. split; [reflexivity|].
  destruct (checkout_descriptor draw1 (public_user bia)
              (VObj [("storyId", VStr "s2")]) sample_db) as [U H].
  split; [exact U|].
  destruct (H (SqlText "s2") eq_refl) as (_ & _ & D).
  apply (D novel); reflexivity.
Defined.

(** With [root] seeded, the seeding route refuses and a registration
    leaves the admin rows alone. *)
Lemma admin_only_from_setup_witness :
  admin_rows seeded_db <> []
  /\ get_setup_admin draw1 seeded_db
     = (Send "admin exists. delete data.db to recreate or remove this route",
        seeded_db)
  /\ PostRegister signup <> GetSetupAdmin
  /\ admin_rows (st_db (serve draw1 (PostRegister signup) (mk_state seeded_db [])))
     = admin_rows seeded_db.
Proof.
  destruct admin_only_from_setup as (_ & N & S).
  assert (A : admin_rows seeded_db <> []) by discriminate.
  assert (Q : PostRegister signup <> GetSetupAdmin) by discriminate.
  split; [exact A|]. split; [apply S; exact A|].
  split; [exact Q|]. apply N. exact Q.
Defined.



(** The scenario of the specification: A registers and creates a
    free-to-read story, B registers and toggles it as a favorite twice. *)
Example scenario_register_create_toggle :
  let at_ (k : string) := mk_draw 1700000000000 k "salt" in
  let a := VObj [("email", VStr "a@x"); ("password", VStr "p1")] in
  let b := VObj [("email", VStr "b@x"); ("password", VStr "p2")] in
  let item := VObj [("title", VStr "T"); ("body", VStr "B"); ("type", VStr "leia")] in
  let s1 := snd (post_api_auth_register (at_ "k1") a empty_db) in
  let s2 := snd (with_auth (at_ "k2") (Some "Bearer jwt.k1") s1
                   (fun u => post_api_stories (at_ "k2") u item s1)) in
  let s3 := snd (post_api_auth_register (at_ "k3") b s2) in
  let r4 := with_auth (at_ "k4") (Some "Bearer jwt.k3") s3
              (fun u => post_api_stories_id_favorite (at_ "k4") u "k2" s3) in
  let r5 := with_auth (at_ "k5") (Some "Bearer jwt.k3") (snd r4)
              (fun u => post_api_stories_id_favorite (at_ "k5") u "k2" (snd r4)) in
  prop "token" (match fst (post_api_auth_register (at_ "k1") a empty_db) with
                | Json _ body => body
                | _ => VUndef
                end) = VStr "jwt.k1"
  /\ map s_id (stories s3) = [SqlText "k2"]
  /\ map s_price (stories s3) = [SqlNull]
  /\ fst r4 = Json 200 (VObj [("ok", VBool true); ("action", VStr "added")])
  /\ map f_userId (favorites (snd r4)) = [SqlText "k3"]
  /\ fst r5 = Json 200 (VObj [("ok", VBool true); ("action", VStr "removed")])
  /\ favorites (snd r5) = [].
Proof. repeat split; reflexivity. Qed.

End Examples.

(** * The further properties on concrete requests *)

Section MoreExamples.

#[local] Existing Instance toy_libraries.

Local Open Scope list_scope.

Lemma toy_bcrypt_contract (salt p : string) :
  bcrypt_compare p (bcrypt_hash salt p) = true.
Proof. apply String.eqb_refl. Qed.

(** [signup] registers and then logs in. *)
Lemma register_then_login_witness :
  scalar (prop "email" (js_or signup (VObj []))) = true
  /\ exists b s1,
    post_api_auth_register draw1 signup sample_db = (Json 200 b, s1)
    /\ exists user,
        post_api_auth_login draw2 signup s1
        = (Json 200 (VObj [("token", VStr (signToken draw2 user)); ("user", user)]), s1)
        /\ prop "id" user = VStr (uid draw1)
        /\ prop "role" user = VStr "user"
        /\ prop "password" user = VUndef.
Proof.
  split; [reflexivity|].
  eexists. eexists. split; [reflexivity|].
  eapply (register_then_login draw1 draw2 signup signup sample_db);
    try reflexivity.
  intro p. apply toy_bcrypt_contract.
Defined.

(** The token of that registration, shown to [/api/me]. *)
Lemma register_token_authenticates_witness :
  exists b s1,
    post_api_auth_register draw1 signup sample_db = (Json 200 b, s1)
    /\ exists token r,
        prop "token" b = VStr token
        /\ users s1 = users sample_db ++ [r]
        /\ u_id r = SqlText (uid draw1)
        /\ authMiddleware draw2 (Some ("Bearer " ++ token)%string) s1
           = inr (public_user r)
        /\ with_auth draw2 (Some ("Bearer " ++ token)%string) s1
             (fun user => (get_api_me user, s1))
           = (Json 200 (VObj [("user", public_user r)]), s1)
        /\ prop "password" (public_user r) = VUndef.
Proof.
  eexists. eexists. split; [reflexivity|].
  eapply (register_token_authenticates draw1 draw2 signup sample_db _ _
           (VObj [("sub", VStr "k1"); ("role", VStr "user")]));
    reflexivity.
Defined.

(** A registration with the number 5 as password, and [signup]. *)
Lemma register_writes_one_row_or_nothing_witness :
  truthy (prop "email" (js_or (VObj [("email", VStr "c@x"); ("password", VNum (inject_Z 5))])
                              (VObj []))) = true
  /\ truthy (prop "password"
               (js_or (VObj [("email", VStr "c@x"); ("password", VNum (inject_Z 5))])
                      (VObj []))) = true
  /\ post_api_auth_register draw1
       (VObj [("email", VStr "c@x"); ("password", VNum (inject_Z 5))]) sample_db
     = (Json 500 (err "server error"), sample_db)
  /\ exists r,
      u_id r = SqlText "k1" /\ u_role r = SqlText "user"
      /\ u_password r = SqlText (bcrypt_hash "salt" "p3")
      /\ snd (post_api_auth_register draw1 signup sample_db)
         = set_users sample_db (users sample_db ++ [r]).
Proof.
  split; [reflexivity|]. split; [reflexivity|]. split.
  - eapply (proj2 (proj2 (proj2 (register_writes_one_row_or_nothing draw1
             (VObj [("email", VStr "c@x"); ("password", VNum (inject_Z 5))])
             sample_db)))); try reflexivity.
    intros p H. discriminate H.
  - destruct (proj1 (proj2 (register_writes_one_row_or_nothing draw1 signup
                              sample_db)) _ eq_refl)
      as (r & p & P & I & R & H & S).
    inversion P. subst p. exists r.
    split; [exact I|]. split; [exact R|]. split; [exact (H eq_refl) | exact S].
Defined.

(** The state after two registrations, one of them with a null email. *)
Lemma reachable_users_keys_ok_witness :
  reachable two_users_run
  /\ map u_email (users (st_db two_users_run)) = [SqlText "c@x"; SqlNull]
  /\ users_keys_ok (users (st_db two_users_run)) = true.
Proof.
  assert (R : reachable two_users_run)
    by (do 2 apply reachable_serve; apply reachable_start).
  split; [exact R|]. split; [reflexivity|].
  apply reachable_users_keys_ok. exact R.
Defined.

(** A login for [ana] with a wrong password. *)
Lemma login_with_strings_is_answered_witness :
  users_ok (users sample_db) = true
  /\ exists st b,
      post_api_auth_login draw1
        (VObj [("email", VStr "a@x"); ("password", VStr "wrong")]) sample_db
      = (Json st b, sample_db)
      /\ (st = 200 \/ st = 400 \/ st = 401).
Proof.
  split; [reflexivity|].
  eapply (login_with_strings_is_answered draw1
           (VObj [("email", VStr "a@x"); ("password", VStr "wrong")])
           sample_db "a@x" "wrong"); reflexivity.
Defined.

(** [ana] creates [plain_story] and deletes it again. *)
Lemma create_then_delete_restores_witness :
  prop "id" (public_user ana) = VStr "u1"
  /\ exists b s1,
      post_api_stories draw3 (public_user ana) plain_story sample_db = (Json 200 b, s1)
      /\ delete_api_stories_id (public_user ana) (uid draw3) s1
         = (Json 200 (VObj [("ok", VBool true)]), sample_db).
Proof.
  split; [reflexivity|]. eexists. eexists. split; [reflexivity|].
  eapply (create_then_delete_restores draw3 (public_user ana) plain_story "u1"
            sample_db); reflexivity.
Defined.

(** A create without body. *)
Lemma create_rejects_missing_title_or_body_witness :
  truthy (prop "body" (js_or (VObj [("title", VStr "T")]) (VObj []))) = false
  /\ fst (post_api_stories draw1 (public_user ana) (VObj [("title", VStr "T")])
            sample_db)
     = Json 400 (err "missing title/body")
  /\ snd (post_api_stories draw1 (public_user ana) (VObj [("title", VStr "T")])
            sample_db)
     = sample_db.
Proof.
  destruct (create_rejects_missing_title_or_body draw1 (public_user ana)
              (VObj [("title", VStr "T")]) sample_db) as [I W].
  assert (T : truthy (prop "body" (js_or (VObj [("title", VStr "T")]) (VObj [])))
              = false) by reflexivity.
  split; [exact T|].
  assert (F : fst (post_api_stories draw1 (public_user ana)
                     (VObj [("title", VStr "T")]) sample_db)
              = Json 400 (err "missing title/body"))
    by (apply I; right; exact T).
  split; [exact F | apply W; exact F].
Defined.

(** What [plain_story] is stored with. *)
Lemma create_fills_defaults_witness :
  prop "id" (public_user ana) = VStr "u1"
  /\ exists b s1,
      post_api_stories draw3 (public_user ana) plain_story sample_db = (Json 200 b, s1)
      /\ exists r,
          stories s1 = stories sample_db ++ [r]
          /\ s_id r = SqlText (uid draw3)
          /\ s_authorId r = SqlText "u1"
          /\ s_likes r = SqlNum (inject_Z 0)
          /\ s_type r = SqlText "leia"
          /\ s_excerpt r = SqlText "".
Proof.
  split; [reflexivity|]. eexists. eexists. split; [reflexivity|].
  destruct (create_fills_defaults draw3 (public_user ana) plain_story "u1" sample_db
              _ _ eq_refl eq_refl) as (r & S & I & A & K & D).
  destruct (D eq_refl eq_refl eq_refl) as [Ty Ex].
  exists r. repeat split; try assumption; [apply Ty | apply Ex]; reflexivity.
Defined.

(** The state after a registration and a story of the user registered. *)
Lemma reachable_stories_ok_witness :
  reachable story_run
  /\ map s_id (stories (st_db story_run)) = [SqlText "k2"]
  /\ stories_ok (stories (st_db story_run)) = true.
Proof.
  assert (R : reachable story_run)
    by (do 2 apply reachable_serve; apply reachable_start).
  split; [exact R|]. split; [reflexivity|].
  apply reachable_stories_ok. exact R.
Defined.

(** [ana] toggles off the one favorite there is. *)
Lemma toggle_flips_one_pair_witness :
  prop "id" (public_user ana) = VStr "u1"
  /\ favorites_ok (favorites one_favorite_db) = true
  /\ taken f_id (SqlText (uid draw1)) (favorites one_favorite_db) = false
  /\ is_favorite "u1" "s1"
       (snd (post_api_stories_id_favorite draw1 (public_user ana) "s1" one_favorite_db))
     = negb (is_favorite "u1" "s1" one_favorite_db)
  /\ is_favorite "u1" "s1" one_favorite_db = true.
Proof.
  split; [reflexivity|]. split; [reflexivity|]. split; [reflexivity|].
  split; [|reflexivity].
  eapply (proj1 (toggle_flips_one_pair draw1 (public_user ana) "u1" "s1"
                   one_favorite_db eq_refl eq_refl eq_refl)).
Defined.

(** [ana] may not announce; [root] may, and the notice is pinned. *)
Lemma announce_admin_only_witness :
  strict_eq (prop "role" (public_user ana)) (VStr "admin") = false
  /\ post_api_admin_announce draw1 (public_user ana) notice seeded_db
     = (Json 403 (err "not allowed"), seeded_db)
  /\ exists b s1,
      post_api_admin_announce draw1 (public_user root) notice seeded_db
      = (Json 200 b, s1)
      /\ exists r c,
          bind (prop "id" (public_user root)) = Ok c
          /\ a_authorId r = text_affinity c
          /\ a_id r = SqlText (uid draw1)
          /\ a_pinned r = (if truthy (prop "pinned" (js_or notice (VObj [])))
                           then SqlNum (inject_Z 1) else SqlNum (inject_Z 0))
          /\ s1 = set_announcements seeded_db (announcements seeded_db ++ [r]).
Proof.
  destruct (announce_admin_only draw1 (public_user ana) notice seeded_db) as [A _].
  destruct (announce_admin_only draw1 (public_user root) notice seeded_db) as [_ B].
  split; [reflexivity|]. split; [apply A; reflexivity|].
  eexists. eexists. split; [reflexivity|].
  eapply (proj2 (B _ _ eq_refl)).
Defined.

(** Seeding [sample_db], which has no admin. *)
Lemma setup_admin_once_witness :
  exists s1,
    get_setup_admin draw1 sample_db
    = (Send "admin created: admin@local / admin123", s1)
    /\ get_setup_admin draw2 s1
       = (Send "admin exists. delete data.db to recreate or remove this route", s1)
    /\ exists user,
        post_api_auth_login draw3
          (VObj [("email", VStr "admin@local"); ("password", VStr "admin123")]) s1
        = (Json 200 (VObj [("token", VStr (signToken draw3 user)); ("user", user)]), s1)
        /\ prop "role" user = VStr "admin".
Proof.
  eexists. split; [reflexivity|].
  eapply (proj2 (setup_admin_once draw1 draw2 draw3 sample_db _ eq_refl
                   (toy_bcrypt_contract (d_salt draw1)))).
Defined.

(** A socket connects and joins a room. *)
Lemma reachable_hub_ok_witness :
  reachable (serve draw2 (Join "c1" join_sala)
               (serve draw1 (Connection "c1") (mk_state empty_db [])))
  /\ hub_ok (st_hub (serve draw2 (Join "c1" join_sala)
                       (serve draw1 (Connection "c1") (mk_state empty_db [])))).
Proof.
  assert (R : reachable (serve draw2 (Join "c1" join_sala)
                           (serve draw1 (Connection "c1") (mk_state empty_db []))))
    by (do 2 apply reachable_serve; apply reachable_start).
  split; [exact R | apply reachable_hub_ok; exact R].
Defined.

(** Joining [sala] twice. *)
Lemma join_twice_is_join_once_witness :
  exists h1,
    on_join "c2" join_sala sample_hub = Ok h1
    /\ on_join "c2" join_sala h1 = Ok h1.
Proof.
  eexists. split; [reflexivity|].
  eapply (join_twice_is_join_once "c2" join_sala sample_hub);
    [reflexivity | discriminate | discriminate].
Defined.

(** [unsigned_message] in [sample_hub], where only c1 is in [sala]. *)
Lemma message_reaches_exactly_the_room_witness :
  hub_ok sample_hub
  /\ exists tr s1,
      on_message draw1 unsigned_message sample_hub empty_db = (tr, s1, None)
      /\ exists r msg recipients,
          tr = Persist r :: map (fun to => Emit to "message" msg) recipients
          /\ NoDup recipients
          /\ forall sid,
              In sid recipients
              <-> exists v, In (sid, v) sample_hub
                            /\ strict_eq v (VStr "sala") = true.
Proof.
  assert (W : hub_ok sample_hub).
  { change sample_hub
      with (adapter_add "c2" (VStr "public")
              (adapter_add "c2" (VStr "c2")
                 (adapter_add "c1" (VStr "sala") (adapter_add "c1" (VStr "c1") [])))).
    do 4 apply adapter_add_keeps_ok. intro room. constructor. }
  split; [exact W|]. eexists. eexists. split; [reflexivity|].
  destruct (message_reaches_exactly_the_room draw1 unsigned_message sample_hub
              empty_db _ _ eq_refl W) as (r & msg & recipients & T & N & S & _).
  exists r, msg, recipients. split; [exact T|]. split; [exact N|].
  apply S. intros rs H. discriminate H.
Defined.

(** c2 joins [sala], then [unsigned_message] is published there. *)
Lemma join_then_publish_witness :
  exists h1 tr s1,
    on_join "c2" join_sala sample_hub = Ok h1
    /\ on_message draw1 unsigned_message h1 empty_db = (tr, s1, None)
    /\ exists row out,
        tr = Persist row :: map (fun to => Emit to "message" out)
                                (room_members (VStr "sala") h1)
        /\ forall sid',
            In (Emit sid' "message" out) tr
            <-> (sid' = "c2"%string \/ in_room sid' (VStr "sala") sample_hub = true).
Proof.
  eexists. eexists. eexists. split; [reflexivity|]. split; [reflexivity|].
  eapply (join_then_publish "c2" "sala" join_sala unsigned_message draw1 sample_hub
            _ empty_db);
    try reflexivity.
  discriminate.
Defined.

(** Two texts with the same escaping. *)
Lemma esc_injective_witness :
  esc "a<b" = esc "a<b" /\ "a<b"%string = "a<b"%string.
Proof.
  split; [reflexivity|]. apply (esc_injective "a<b" "a<b"). reflexivity.
Defined.

(** The state after a registration, a story and a favorite on it. *)
Lemma reachable_favorites_ok_witness :
  reachable favorite_run
  /\ map f_storyId (favorites (st_db favorite_run)) = [SqlText "k2"]
  /\ favorites_ok (favorites (st_db favorite_run)) = true.
Proof.
  assert (R : reachable favorite_run)
    by (do 3 apply reachable_serve; apply reachable_start).
  split; [exact R|]. split; [reflexivity|].
  apply reachable_favorites_ok. exact R.
Defined.

(** The state after seeding the admin. *)
Lemma reachable_at_most_one_admin_witness :
  reachable (serve draw1 GetSetupAdmin (mk_state empty_db []))
  /\ (List.length (admin_rows (st_db (serve draw1 GetSetupAdmin
                                        (mk_state empty_db [])))) <= 1)%nat.
Proof.
  assert (R : reachable (serve draw1 GetSetupAdmin (mk_state empty_db [])))
    by (apply reachable_serve; apply reachable_start).
  split; [exact R | apply reachable_at_most_one_admin; exact R].
Defined.

End MoreExamples.

(** * The read-only routes on concrete requests *)

Section ReadExamples.

#[local] Existing Instance toy_libraries.
#[local] Existing Instance toy_queries.

Local Open Scope list_scope.

(** [ana] creates [plain_story] and reads it back. *)
Lemma create_then_get_witness :
  scalar (prop "title" (js_or plain_story (VObj []))) = true
  /\ scalar (prop "excerpt" (js_or plain_story (VObj []))) = true
  /\ scalar (prop "body" (js_or plain_story (VObj []))) = true
  /\ exists b s1,
    post_api_stories draw3 (public_user ana) plain_story sample_db = (Json 200 b, s1)
    /\ exists o,
        get_api_stories_id (uid draw3) s1 = Some (Json 200 o)
        /\ prop "tags" o = js_or (prop "tags" (js_or plain_story (VObj []))) (VArr [])
        /\ (forall k, k <> "tags"%string -> prop k o = prop k b)
        /\ prop "id" o = VStr (uid draw3)
        /\ (forall t, prop "title" (js_or plain_story (VObj [])) = VStr t ->
                      prop "title" o = VStr t)
        /\ (forall t, prop "body" (js_or plain_story (VObj [])) = VStr t ->
                      prop "body" o = VStr t).
Proof.
  split; [reflexivity|]. split; [reflexivity|]. split; [reflexivity|].
  eexists. eexists. split; [reflexivity|].
  eapply (create_then_get draw3 (public_user ana) plain_story sample_db);
    reflexivity.
Defined.

(** [ana] deletes [tale]; [novel] is still there. *)
Lemma delete_then_get_witness :
  exists b s1,
    delete_api_stories_id (public_user ana) "s1" sample_db = (Json 200 b, s1)
    /\ get_api_stories_id "s1" s1 = Some (Json 404 (err "not found"))
    /\ get_api_stories_id "s2" s1 = get_api_stories_id "s2" sample_db.
Proof.
  eexists. eexists. split; [reflexivity|].
  destruct (delete_then_get (public_user ana) "s1" sample_db _ _ eq_refl) as [A B].
  split; [exact A|]. apply B. discriminate.
Defined.

(** The list of a database whose stories all have tags [[]]. *)
Lemma list_stories_newest_first_witness :
  exists r,
    get_api_stories (Some " ") sample_db = Some r
    /\ exists rows out,
        r = Json 200 (VArr out)
        /\ Permutation rows
             (if String.eqb (String_trim " ") "" then stories sample_db
              else filter (story_like ("%" ++ String_trim " " ++ "%"))
                          (stories sample_db))
        /\ StronglySorted
             (fun a b => sql_leb (s_createdAt b) (s_createdAt a) = true) rows
        /\ Forall2 (fun row o => parse_tags row = Some o) rows out.
Proof.
  eexists. split; [reflexivity|].
  eapply (list_stories_newest_first (Some " "%string) sample_db). reflexivity.
Defined.

End ReadExamples.
